(** * Flight-data distribution between ERAM and STARS computers (pkg/sim/nas.go)

    A shallow embedding of the NAS message-routing core: squawk pools,
    flight plan / message conversion, the per-tick message sort of the
    ERAM and STARS computers, timed flight-plan transmission and the
    abbreviated flight-plan parser.

    Conventions of the embedding.
    - Go [int] and [av.Squawk] values are [Z]; no arithmetic in this file
      leaves the 64-bit range for the inputs the theorems consider.
    - Go strings are [string] (a sequence of bytes); [len] is
      [String.length].
    - A Go map is a [gmap] (a map used as a set, a [gset]).  The order of a
      [range] over a map is not fixed by the language: every function that
      ranges over a map takes the order of the visit as an argument.
    - [*STARSFlightPlan] pointers are locations in a store of plans, so that
      a plan reached from the plan table and from a track is one object.
    - A run-time panic is an outcome of its own; the state at the panic is
      kept, since Go does not roll anything back.
    - Logging is not part of the state. *)

From Stdlib Require Import ZArith String Ascii DecimalString.
From stdpp Require Import gmap strings list fin_maps.

Local Open Scope Z_scope.
Local Open Scope string_scope.

(** ** Data model *)

Abbreviation Squawk := Z (only parsing).
Abbreviation Time := Z (only parsing).
Abbreviation loc := positive (only parsing).

(** Message types sent from either ERAM or STARS (an [iota] block). *)
Definition Plan : Z := 0.
Definition Amendment : Z := 1.
Definition Cancellation : Z := 2.
Definition RequestFlightPlan : Z := 3.
Definition DepartureDM : Z := 4.
Definition BeaconTerminate : Z := 5.
Definition InitiateTransfer : Z := 6.
Definition AcceptRecallTransfer : Z := 7.

(** [time.Duration] in nanoseconds. *)
Definition Minute : Z := 60 * 1000000000.
Definition TransmitFPMessageTime : Z := 30 * Minute.

(** Modelled from the spec: [av.FlightRules] is declared in pkg/aviation,
    outside the sources at hand.  The code here names [av.IFR] and [av.VFR];
    [UNKNOWN] stands for the zero value of the Go type. *)
Inductive FlightRules := UNKNOWN | IFR | VFR.

Record CoordinationTime := mkCoordinationTime {
  ct_Time : Time;
  ct_Type : string
}.

Record AircraftDataMessage := mkAircraftDataMessage {
  adm_DepartureLocation : string;
  adm_ArrivalLocation : string;
  adm_NumberOfAircraft : Z;
  adm_AircraftType : string;
  adm_AircraftCategory : string;
  adm_Equipment : string
}.

(** Modelled from the spec: [av.FlightPlan] is declared in pkg/aviation; the
    record has the fields this file reads or writes. *)
Record avFlightPlan := mkAvFlightPlan {
  fp_Callsign : string;
  fp_Rules : FlightRules;
  fp_AircraftType : string;
  fp_AssignedSquawk : Squawk;
  fp_ECID : string;
  fp_DepartureAirport : string;
  fp_ArrivalAirport : string;
  fp_Altitude : Z;
  fp_Route : string;
  fp_Exit : string
}.

Record STARSFlightPlan := mkSTARSFlightPlan {
  sfp_FlightPlan : avFlightPlan;
  sfp_FlightPlanType : Z;
  sfp_CoordinationTime : CoordinationTime;
  sfp_CoordinationFix : string;
  sfp_ContainedFacilities : list string;
  sfp_Altitude : string;
  sfp_SP1 : string;
  sfp_SP2 : string;
  sfp_InitialController : string
}.

(** Modelled from the spec: [av.RedirectedHandoff] is declared in
    pkg/aviation; no function of this file reads it. *)
Record RedirectedHandoff := mkRedirectedHandoff {
  rh_OriginalOwner : string;
  rh_Redirector : list string;
  rh_RedirectedTo : string
}.

Record TrackInformation := mkTrackInformation {
  ti_Identifier : string;
  ti_TrackOwner : string;
  ti_HandoffController : string;
  ti_FlightPlan : option loc;
  ti_PointOut : string;
  ti_PointOutHistory : list string;
  ti_RedirectedHandoff : RedirectedHandoff;
  ti_SP1 : string;
  ti_SP2 : string;
  ti_AutoAssociateFP : bool
}.

Record FlightPlanMessage := mkFlightPlanMessage {
  fpm_SourceID : string;
  fpm_MessageType : Z;
  fpm_FlightID : string;
  fpm_AircraftData : AircraftDataMessage;
  fpm_BCN : Squawk;
  fpm_CoordinationFix : string;
  fpm_CoordinationTime : CoordinationTime;
  fpm_Altitude : string;
  fpm_Route : string;
  fpm_TrackInformation : TrackInformation
}.

(** The promoted fields of the embedded [TrackInformation]. *)
Definition fpm_Identifier (m : FlightPlanMessage) : string :=
  ti_Identifier (fpm_TrackInformation m).
Definition fpm_TrackOwner (m : FlightPlanMessage) : string :=
  ti_TrackOwner (fpm_TrackInformation m).
Definition fpm_HandoffController (m : FlightPlanMessage) : string :=
  ti_HandoffController (fpm_TrackInformation m).

(** Zero values of the Go types. *)
Definition zeroCoordinationTime : CoordinationTime := mkCoordinationTime 0 "".
Definition zeroAircraftData : AircraftDataMessage :=
  mkAircraftDataMessage "" "" 0 "" "" "".
Definition zeroAvFlightPlan : avFlightPlan :=
  mkAvFlightPlan "" UNKNOWN "" 0 "" "" "" 0 "" "".
Definition zeroRedirectedHandoff : RedirectedHandoff :=
  mkRedirectedHandoff "" [] "".
Definition zeroTrackInformation : TrackInformation :=
  mkTrackInformation "" "" "" None "" [] zeroRedirectedHandoff "" "" false.
Definition zeroMessage : FlightPlanMessage :=
  mkFlightPlanMessage "" 0 "" zeroAircraftData 0 "" zeroCoordinationTime
    "" "" zeroTrackInformation.

(** ** Go string helpers *)

(** [strings.Contains(s, sub)]. *)
Definition strings_Contains (s sub : string) : bool :=
  match index 0 sub s with Some _ => true | None => false end.

(** [strings.HasPrefix(s, p)]. *)
Definition strings_HasPrefix (s p : string) : bool := String.prefix p s.

(** [s[i:]] for [i <= len(s)]. *)
Definition string_from (i : nat) (s : string) : string :=
  substring i (String.length s - i) s.

(** [strings.TrimPrefix(s, p)]. *)
Definition strings_TrimPrefix (s p : string) : string :=
  if strings_HasPrefix s p then string_from (String.length p) s else s.

(** [slices.Contains] on strings. *)
Definition slices_Contains (l : list string) (x : string) : bool :=
  existsb (String.eqb x) l.

(** ** Errors *)

Inductive error :=
  | ErrNoMoreAvailableSquawkCodes
  | ErrUnknownFacility
  | ErrNoMatchingFlight
  | ErrNoMatchingFix
  | ErrIllegalACID
  | ErrIllegalScratchpad
  | ErrIllegalACType
  | ErrInvalidAbbreviatedFP
  | ErrOther (description : string).

(** ** Coordination adaptation *)

(** Modelled from the spec: [av.AdaptationFix], [av.AdaptationFixes] and
    [av.ERAMAdaptation] are declared in pkg/aviation.  A fix has a type
    (zone based or route based), the facility it hands off to and the
    facility it hands off from, for a band of altitudes; the adaptation maps
    the name of a coordination fix to the fixes of its altitude bands. *)
Record AdaptationFix := mkAdaptationFix {
  af_Name : string;
  af_Type : string;
  af_ToFacility : string;
  af_FromFacility : string;
  af_Altitude : Z * Z
}.

Abbreviation AdaptationFixes := (list AdaptationFix) (only parsing).

Record ERAMAdaptation := mkERAMAdaptation {
  ea_CoordinationFixes : gmap string AdaptationFixes
}.

(** ** Collaborators outside this file

    Functions and tables of pkg/aviation and pkg/util that nas.go calls.
    Their code is not among the sources at hand, so the development is
    parametric in them. *)
Class Collaborators := {
  (** [av.SquawkIsSPC], first result. *)
  SquawkIsSPC : Squawk -> bool;
  (** [av.ParseSquawk]: [Some sq] when the error is nil. *)
  ParseSquawk : string -> option Squawk;
  (** [av.FlightPlan.TypeWithoutSuffix]. *)
  TypeWithoutSuffix : avFlightPlan -> string;
  (** [util.IsAllNumbers] and [util.IsAllLetters]. *)
  IsAllNumbers : string -> bool;
  IsAllLetters : string -> bool;
  (** Membership of a key in [av.DB.AircraftPerformance]. *)
  AircraftPerformance : string -> bool;
  (** [av.DB.TRACONs[tracon].ARTCC] (the empty string for an unknown
      TRACON, as the lookup then yields the zero struct). *)
  TRACON_ARTCC : string -> string;
  (** [t.Format("1504Z")]. *)
  Format1504Z : Time -> string;
  (** [av.AdaptationFixes.Fix]: the fix of the band the altitude falls in,
      or an error. *)
  Fix : AdaptationFixes -> string -> AdaptationFix + error;
  (** [av.ERAMAdaptation.FixForRouteAndAltitude], both results. *)
  FixForRouteAndAltitude : ERAMAdaptation -> string -> string -> string * bool;
  (** [av.ERAMAdaptation.AdaptationFixForAltitude]: [Some] when the second
      result is true. *)
  AdaptationFixForAltitude :
    ERAMAdaptation -> string -> string -> option AdaptationFix
}.

(** ** Flight plan / message conversion *)

Section Conversion.
Context `{Collaborators}.

(** [STARSFlightPlan.Message]. *)
Definition Message (fp : STARSFlightPlan) : FlightPlanMessage :=
  let afp := sfp_FlightPlan fp in
  {| fpm_SourceID := "";
     fpm_MessageType := 0;
     fpm_FlightID := fp_ECID afp ++ fp_Callsign afp;
     fpm_AircraftData :=
       {| adm_DepartureLocation := fp_DepartureAirport afp;
          adm_ArrivalLocation := fp_ArrivalAirport afp;
          adm_NumberOfAircraft := 1;
          adm_AircraftType := TypeWithoutSuffix afp;
          adm_AircraftCategory := fp_AircraftType afp;
          adm_Equipment :=
            strings_TrimPrefix (fp_AircraftType afp) (TypeWithoutSuffix afp) |};
     fpm_BCN := fp_AssignedSquawk afp;
     fpm_CoordinationFix := sfp_CoordinationFix fp;
     fpm_CoordinationTime := sfp_CoordinationTime fp;
     fpm_Altitude := sfp_Altitude fp;
     fpm_Route := fp_Route afp;
     fpm_TrackInformation := zeroTrackInformation |}.

(** [FlightPlanMessage.FlightPlan]: converts the message to a STARS flight
    plan.  The Go function returns a pointer to a new plan; the caller
    stores the value returned here at a fresh location. *)
Definition FlightPlan (s : FlightPlanMessage) : STARSFlightPlan :=
  let rules := if strings_Contains (fpm_Altitude s) "VFR" then VFR else IFR in
  let long := (3 <? String.length (fpm_FlightID s))%nat in
  {| sfp_FlightPlan :=
       {| fp_Callsign := if long then string_from 3 (fpm_FlightID s) else "";
          fp_Rules := rules;
          fp_AircraftType := adm_AircraftType (fpm_AircraftData s);
          fp_AssignedSquawk := fpm_BCN s;
          fp_ECID := if long then substring 0 3 (fpm_FlightID s) else "";
          fp_DepartureAirport := adm_DepartureLocation (fpm_AircraftData s);
          fp_ArrivalAirport := adm_ArrivalLocation (fpm_AircraftData s);
          fp_Altitude := 0;
          fp_Route := fpm_Route s;
          fp_Exit := "" |};
     sfp_FlightPlanType := 0;
     sfp_CoordinationTime := fpm_CoordinationTime s;
     sfp_CoordinationFix := fpm_CoordinationFix s;
     sfp_ContainedFacilities := [];
     sfp_Altitude := fpm_Altitude s;
     sfp_SP1 := "";
     sfp_SP2 := "";
     sfp_InitialController := "" |}.

(** [formatSourceID]. *)
Definition formatSourceID (id : string) (t : Time) : string :=
  id ++ Format1504Z t.

End Conversion.

(** ** Squawk pools *)

(** An octal literal, most significant digit first: [octal [1;2;0;0]] is
    Go's [0o1200]. *)
Definition octal (digits : list Z) : Z := foldl (fun a d => 8 * a + d) 0 digits.

(** The body of [for i := lo; i <= hi; i++] that adds some of the [i] to a
    set of squawks. *)
Definition add_codes (keep : Squawk -> bool) (lo hi : Z) : gset Squawk :=
  foldl (fun sq i => if keep i then {[i]} ∪ sq else sq) ∅ (seqZ lo (hi - lo + 1)).

(** Go's [int] has 64 bits on the platforms the program is built for, and
    its arithmetic wraps around: [wrap_int z] is the [int] that the
    mathematical result [z] is stored as. *)
Definition MaxInt : Z := 2 ^ 63 - 1.
Definition wrap_int (z : Z) : Z := (z + 2 ^ 63) mod 2 ^ 64 - 2 ^ 63.

Section Pools.
Context `{Collaborators}.

(** [getValidSquawkCodes]: the NAS pool of an ERAM computer. *)
Definition getValidSquawkCodes : gset Squawk :=
  add_codes (fun i => negb (SquawkIsSPC i) && negb (i =? octal [1;2;0;0])%Z)
    (octal [1;0;0;1]) (octal [7;7;7;7]).

(** [getBeaconBankSquawks]: the pool of the STARS computers of one ERAM
    computer.  [MakeERAMComputer] builds one such map and hands the same map
    to every STARS computer it makes, so these computers share one pool.
    The two bounds of [for i := bank*0o100 + 1; i <= bank*0o100+0o77; i++]
    are computed in [int].  When the upper bound is the largest [int], the
    test [i <= bound] never fails and the function does not return: the
    result is [None].  Otherwise [i++] does not wrap before the test
    fails. *)
Definition getBeaconBankSquawks (bank : Z) : option (gset Squawk) :=
  let lo := wrap_int (wrap_int (bank * octal [1;0;0]) + 1) in
  let hi := wrap_int (wrap_int (bank * octal [1;0;0]) + octal [7;7]) in
  if decide (hi = MaxInt) then None
  else Some (add_codes (fun _ => true) lo hi).

End Pools.

(** [CreateSquawk], the body shared by [ERAMComputer.CreateSquawk] and
    [STARSComputer.CreateSquawk]: the first key of a range over the pool is
    deleted and returned.  Which key comes first is not fixed; [pick] selects
    it among the keys of the pool. *)
Definition CreateSquawk (pick : nat) (pool : gset Squawk)
  : (Squawk + error) * gset Squawk :=
  match elements pool with
  | [] => (inr ErrNoMoreAvailableSquawkCodes, pool)
  | x :: l =>
      let sq := nth (pick mod List.length (x :: l)) (x :: l) x in
      (inl sq, pool ∖ {[sq]})
  end.

(** The map write [AvailableSquawks[sq] = nil], the only way a code enters
    a pool again. *)
Definition put_squawk (sq : Squawk) (pool : gset Squawk) : gset Squawk :=
  {[sq]} ∪ pool.

(** A history of one pool: what is asked of it, and what it answers. *)
Inductive pool_op :=
  | Allocate (pick : nat)
  | Release (sq : Squawk).

Inductive pool_event :=
  | Allocated (sq : Squawk)
  | Exhausted
  | Released (sq : Squawk).

Fixpoint pool_trace (pool : gset Squawk) (ops : list pool_op) : list pool_event :=
  match ops with
  | [] => []
  | Allocate pick :: ops' =>
      match CreateSquawk pick pool with
      | (inl sq, pool') => Allocated sq :: pool_trace pool' ops'
      | (inr _, pool') => Exhausted :: pool_trace pool' ops'
      end
  | Release sq :: ops' => Released sq :: pool_trace (put_squawk sq pool) ops'
  end.

(** The two kinds of pool and the range each is configured with. *)
Inductive pool_kind :=
  | NASPool
  | BeaconBank (bank : Z).

(** The pool a computer starts with; [None] when the function that builds
    it does not return. *)
Definition initial_pool `{Collaborators} (k : pool_kind) : option (gset Squawk) :=
  match k with
  | NASPool => Some getValidSquawkCodes
  | BeaconBank bank => getBeaconBankSquawks bank
  end.

Definition in_configured_range `{Collaborators} (k : pool_kind) (sq : Squawk) : Prop :=
  match k with
  | NASPool =>
      octal [1;0;0;1] <= sq <= octal [7;7;7;7] /\
      SquawkIsSPC sq = false /\ sq <> octal [1;2;0;0]
  | BeaconBank bank =>
      bank * octal [1;0;0] + 1 <= sq <= bank * octal [1;0;0] + octal [7;7]
  end.

(** ** The store of flight plans *)

(** A [*STARSFlightPlan] is a location of this store.  A location outside
    the store stands for a pointer that cannot be followed (nil): following
    it panics. *)
Abbreviation store := (gmap loc STARSFlightPlan) (only parsing).

(** [&STARSFlightPlan{...}]: a new object, at a location not yet in use. *)
Definition new_plan (h : store) (fp : STARSFlightPlan) : loc * store :=
  let l := fresh (dom h) in (l, <[l := fp]> h).

(** ** Events *)

(** Modelled from the spec: [Event] and [EventStream] are declared in
    pkg/sim/events.go; an event stream is the list of the events posted to
    it, oldest first. *)
Inductive EventType := TransferAcceptedEvent | TransferRejectedEvent.

Record Event := mkEvent {
  ev_Type : EventType;
  ev_Callsign : string;
  ev_ToController : string
}.

Abbreviation EventStream := (list Event) (only parsing).

Definition Post (e : EventStream) (ev : Event) : EventStream := (e ++ [ev])%list.

(** ** STARS computer *)

(** The fields of [STARSComputer] that the message sort and the plan lookup
    use.  [ERAMInbox], [STARSInbox] and [AvailableSquawks] point to objects
    owned elsewhere (the queue of the ERAM computer, the queues of the other
    STARS computers, the pool shared with them). *)
Record STARSComputer := mkSTARSComputer {
  sc_Identifier : string;
  sc_ContainedPlans : gmap Squawk loc;
  sc_ReceivedMessages : list FlightPlanMessage;
  sc_TrackInformation : gmap string TrackInformation
}.

Definition sc_with_ContainedPlans (plans : gmap Squawk loc) (c : STARSComputer) :=
  mkSTARSComputer (sc_Identifier c) plans (sc_ReceivedMessages c)
    (sc_TrackInformation c).
Definition sc_with_ReceivedMessages (q : list FlightPlanMessage) (c : STARSComputer) :=
  mkSTARSComputer (sc_Identifier c) (sc_ContainedPlans c) q
    (sc_TrackInformation c).
Definition sc_with_TrackInformation (t : gmap string TrackInformation)
    (c : STARSComputer) :=
  mkSTARSComputer (sc_Identifier c) (sc_ContainedPlans c)
    (sc_ReceivedMessages c) t.

(** [MakeSTARSComputer]. *)
Definition MakeSTARSComputer (id : string) : STARSComputer :=
  mkSTARSComputer id ∅ [] ∅.

(** What a STARS message sort reads and writes: the store of plans, the
    computer and the event stream it posts to. *)
Record STARSWorld := mkSTARSWorld {
  sw_plans : store;
  sw_comp : STARSComputer;
  sw_events : EventStream
}.

(** [&TrackInformation{TrackOwner: .., HandoffController: .., FlightPlan: ..}] *)
Definition track_of (owner handoff : string) (fp : option loc) : TrackInformation :=
  mkTrackInformation "" owner handoff fp "" [] zeroRedirectedHandoff "" "" false.

Definition ti_with_TrackOwner (owner : string) (t : TrackInformation) :=
  mkTrackInformation (ti_Identifier t) owner (ti_HandoffController t)
    (ti_FlightPlan t) (ti_PointOut t) (ti_PointOutHistory t)
    (ti_RedirectedHandoff t) (ti_SP1 t) (ti_SP2 t) (ti_AutoAssociateFP t).
Definition ti_with_HandoffController (handoff : string) (t : TrackInformation) :=
  mkTrackInformation (ti_Identifier t) (ti_TrackOwner t) handoff
    (ti_FlightPlan t) (ti_PointOut t) (ti_PointOutHistory t)
    (ti_RedirectedHandoff t) (ti_SP1 t) (ti_SP2 t) (ti_AutoAssociateFP t).

(** [clear(s)] on a slice: every element becomes the zero value; the length
    stays. *)
Definition clear_slice (q : list FlightPlanMessage) : list FlightPlanMessage :=
  map (fun _ => zeroMessage) q.

Section STARS.
Context `{Collaborators}.

(** [comp.ContainedPlans[msg.BCN] = msg.FlightPlan()] *)
Definition stars_store_plan (msg : FlightPlanMessage) (w : STARSWorld) : STARSWorld :=
  let '(l, h) := new_plan (sw_plans w) (FlightPlan msg) in
  mkSTARSWorld h
    (sc_with_ContainedPlans (<[fpm_BCN msg := l]> (sc_ContainedPlans (sw_comp w)))
       (sw_comp w))
    (sw_events w).

(** The [InitiateTransfer] case of [SortReceivedMessages]. *)
Definition stars_InitiateTransfer (msg : FlightPlanMessage) (w : STARSWorld)
  : STARSWorld :=
  let comp := sw_comp w in
  let accepted (fp : option loc) :=
    mkSTARSWorld (sw_plans w)
      (sc_with_ContainedPlans (delete (fpm_BCN msg) (sc_ContainedPlans comp))
         (sc_with_TrackInformation
            (<[fpm_Identifier msg :=
                 track_of (fpm_TrackOwner msg) (fpm_HandoffController msg) fp]>
               (sc_TrackInformation comp)) comp))
      (Post (sw_events w)
         (mkEvent TransferAcceptedEvent (fpm_Identifier msg) (fpm_TrackOwner msg))) in
  let without_plan :=
    match sc_TrackInformation comp !! fpm_Identifier msg with
    | Some trk => accepted (ti_FlightPlan trk)
    | None =>
        mkSTARSWorld (sw_plans w) comp
          (Post (sw_events w)
             (mkEvent TransferRejectedEvent (fpm_Identifier msg)
                (fpm_TrackOwner msg)))
    end in
  match sc_ContainedPlans comp !! fpm_BCN msg with
  | Some fp =>
      (* [fp != nil]: an entry that is nil is a location outside the store *)
      if decide (is_Some (sw_plans w !! fp)) then accepted (Some fp)
      else without_plan
  | None => without_plan
  end.

(** The [AcceptRecallTransfer] case of [SortReceivedMessages]. *)
Definition stars_AcceptRecallTransfer (msg : FlightPlanMessage) (w : STARSWorld)
  : STARSWorld :=
  let comp := sw_comp w in
  match sc_TrackInformation comp !! fpm_Identifier msg with
  | None => w
  | Some info =>
      if decide (fpm_TrackOwner msg <> ti_TrackOwner info) then
        mkSTARSWorld (sw_plans w)
          (sc_with_TrackInformation
             (<[fpm_Identifier msg :=
                  ti_with_HandoffController ""
                    (ti_with_TrackOwner (fpm_TrackOwner msg) info)]>
                (sc_TrackInformation comp)) comp)
          (sw_events w)
      else
        mkSTARSWorld (sw_plans w)
          (sc_with_TrackInformation
             (delete (fpm_Identifier msg) (sc_TrackInformation comp)) comp)
          (sw_events w)
  end.

(** The body of the loop of [SortReceivedMessages]: the [switch] on the
    message type. *)
Definition stars_sort_message (w : STARSWorld) (msg : FlightPlanMessage)
  : STARSWorld :=
  if decide (fpm_MessageType msg = Plan) then
    if decide (fpm_BCN msg <> 0) then stars_store_plan msg w else w
  else if decide (fpm_MessageType msg = Amendment) then
    stars_store_plan msg w
  else if decide (fpm_MessageType msg = Cancellation) then
    mkSTARSWorld (sw_plans w)
      (sc_with_ContainedPlans
         (delete (fpm_BCN msg) (sc_ContainedPlans (sw_comp w))) (sw_comp w))
      (sw_events w)
  else if decide (fpm_MessageType msg = InitiateTransfer) then
    stars_InitiateTransfer msg w
  else if decide (fpm_MessageType msg = AcceptRecallTransfer) then
    stars_AcceptRecallTransfer msg w
  else w.

(** [STARSComputer.SortReceivedMessages]: the loop over the queue as it is
    when the loop starts, then [clear(comp.ReceivedMessages)]. *)
Definition SortReceivedMessages (w : STARSWorld) : STARSWorld :=
  let w' := foldl stars_sort_message w (sc_ReceivedMessages (sw_comp w)) in
  mkSTARSWorld (sw_plans w')
    (sc_with_ReceivedMessages (clear_slice (sc_ReceivedMessages (sw_comp w')))
       (sw_comp w'))
    (sw_events w').

(** The callsign search of [GetFlightPlan]: the plans are visited in the
    order [visit] of their squawks; [None] when a plan cannot be read. *)
Fixpoint find_callsign (h : store) (plans : gmap Squawk loc) (identifier : string)
    (visit : list Squawk) : option (loc + error) :=
  match visit with
  | [] => Some (inr ErrNoMatchingFlight)
  | sq :: visit' =>
      match plans !! sq with
      | None => find_callsign h plans identifier visit'
      | Some l =>
          match h !! l with
          | None => None
          | Some plan =>
              if decide (fp_Callsign (sfp_FlightPlan plan) = identifier)
              then Some (inl l)
              else find_callsign h plans identifier visit'
          end
      end
  end.

(** [STARSComputer.GetFlightPlan]. *)
Definition GetFlightPlan (visit : list Squawk) (h : store) (comp : STARSComputer)
    (identifier : string) : option (loc + error) :=
  match ParseSquawk identifier with
  | Some squawk =>
      match sc_ContainedPlans comp !! squawk with
      | Some fp => Some (inl fp)
      | None => Some (inr ErrNoMatchingFlight)
      end
  | None => find_callsign h (sc_ContainedPlans comp) identifier visit
  end.

End STARS.


(** ** ERAM computer *)

(** The result of a function that may panic: the state it returns with, or
    the state at the panic. *)
Inductive outcome (S : Type) :=
  | Done (s : S)
  | Panicked (s : S).
Arguments Done {S} s.
Arguments Panicked {S} s.

(** [ERAMInboxes] holds pointers to the queues of the other ERAM computers:
    the field here is the content of each queue as this computer appends to
    it.  The STARS computers are reached by no one else during the sort and
    the timed transmission of this computer. *)
Record ERAMComputer := mkERAMComputer {
  ec_STARSComputers : gmap string STARSComputer;
  ec_ERAMInboxes : gmap string (list FlightPlanMessage);
  ec_ReceivedMessages : list FlightPlanMessage;
  ec_FlightPlans : gmap Squawk loc;
  ec_TrackInformation : gmap string TrackInformation;
  ec_AvailableSquawks : gset Squawk;
  ec_Identifier : string;
  ec_Adaptation : ERAMAdaptation
}.

Definition ec_with_STARSComputers (v : gmap string STARSComputer) (c : ERAMComputer) :=
  mkERAMComputer v (ec_ERAMInboxes c) (ec_ReceivedMessages c) (ec_FlightPlans c)
    (ec_TrackInformation c) (ec_AvailableSquawks c) (ec_Identifier c)
    (ec_Adaptation c).
Definition ec_with_ERAMInboxes (v : gmap string (list FlightPlanMessage))
    (c : ERAMComputer) :=
  mkERAMComputer (ec_STARSComputers c) v (ec_ReceivedMessages c) (ec_FlightPlans c)
    (ec_TrackInformation c) (ec_AvailableSquawks c) (ec_Identifier c)
    (ec_Adaptation c).
Definition ec_with_ReceivedMessages (v : list FlightPlanMessage) (c : ERAMComputer) :=
  mkERAMComputer (ec_STARSComputers c) (ec_ERAMInboxes c) v (ec_FlightPlans c)
    (ec_TrackInformation c) (ec_AvailableSquawks c) (ec_Identifier c)
    (ec_Adaptation c).
Definition ec_with_FlightPlans (v : gmap Squawk loc) (c : ERAMComputer) :=
  mkERAMComputer (ec_STARSComputers c) (ec_ERAMInboxes c) (ec_ReceivedMessages c) v
    (ec_TrackInformation c) (ec_AvailableSquawks c) (ec_Identifier c)
    (ec_Adaptation c).
Definition ec_with_TrackInformation (v : gmap string TrackInformation)
    (c : ERAMComputer) :=
  mkERAMComputer (ec_STARSComputers c) (ec_ERAMInboxes c) (ec_ReceivedMessages c)
    (ec_FlightPlans c) v (ec_AvailableSquawks c) (ec_Identifier c)
    (ec_Adaptation c).
Definition ec_with_AvailableSquawks (v : gset Squawk) (c : ERAMComputer) :=
  mkERAMComputer (ec_STARSComputers c) (ec_ERAMInboxes c) (ec_ReceivedMessages c)
    (ec_FlightPlans c) (ec_TrackInformation c) v (ec_Identifier c)
    (ec_Adaptation c).

Record ERAMWorld := mkERAMWorld {
  ew_plans : store;
  ew_comp : ERAMComputer
}.

Definition sfp_with_CoordinationFix (name : string) (fp : STARSFlightPlan) :=
  mkSTARSFlightPlan (sfp_FlightPlan fp) (sfp_FlightPlanType fp)
    (sfp_CoordinationTime fp) name (sfp_ContainedFacilities fp) (sfp_Altitude fp)
    (sfp_SP1 fp) (sfp_SP2 fp) (sfp_InitialController fp).
Definition sfp_with_ContainedFacilities (l : list string) (fp : STARSFlightPlan) :=
  mkSTARSFlightPlan (sfp_FlightPlan fp) (sfp_FlightPlanType fp)
    (sfp_CoordinationTime fp) (sfp_CoordinationFix fp) l (sfp_Altitude fp)
    (sfp_SP1 fp) (sfp_SP2 fp) (sfp_InitialController fp).

Definition fpm_with_SourceID (id : string) (m : FlightPlanMessage) :=
  mkFlightPlanMessage id (fpm_MessageType m) (fpm_FlightID m) (fpm_AircraftData m)
    (fpm_BCN m) (fpm_CoordinationFix m) (fpm_CoordinationTime m) (fpm_Altitude m)
    (fpm_Route m) (fpm_TrackInformation m).
Definition fpm_with_MessageType (t : Z) (m : FlightPlanMessage) :=
  mkFlightPlanMessage (fpm_SourceID m) t (fpm_FlightID m) (fpm_AircraftData m)
    (fpm_BCN m) (fpm_CoordinationFix m) (fpm_CoordinationTime m) (fpm_Altitude m)
    (fpm_Route m) (fpm_TrackInformation m).

(** [strconv.Itoa]. *)
Definition strconv_Itoa (n : Z) : string := NilZero.string_of_int (Z.to_int n).

(** [len(to) > 0 && to[0] == 'Z'] *)
Definition starts_with_Z (to : string) : bool :=
  match to with
  | String c _ => bool_decide (c = "Z"%char)
  | EmptyString => false
  end.

Section ERAM.
Context `{Collaborators}.

(** [FlightPlanDepartureMessage]: the message sent to a STARS facility
    after a request for a flight plan. *)
Definition FlightPlanDepartureMessage (fp : avFlightPlan) (sendingFacility : string)
    (simTime : Time) : FlightPlanMessage :=
  {| fpm_SourceID := formatSourceID sendingFacility simTime;
     fpm_MessageType := Plan;
     fpm_FlightID := fp_ECID fp ++ fp_Callsign fp;
     fpm_AircraftData :=
       {| adm_DepartureLocation := fp_DepartureAirport fp;
          adm_ArrivalLocation := fp_ArrivalAirport fp;
          adm_NumberOfAircraft := 1;
          adm_AircraftType := TypeWithoutSuffix fp;
          adm_AircraftCategory := fp_AircraftType fp;
          adm_Equipment :=
            strings_TrimPrefix (fp_AircraftType fp) (TypeWithoutSuffix fp) |};
     fpm_BCN := fp_AssignedSquawk fp;
     fpm_CoordinationFix := fp_Exit fp;
     fpm_CoordinationTime := zeroCoordinationTime;
     fpm_Altitude :=
       (match fp_Rules fp with VFR => "VFR/" | _ => "" end)
         ++ strconv_Itoa (fp_Altitude fp);
     fpm_Route := fp_Route fp;
     fpm_TrackInformation := zeroTrackInformation |}.

(** [ERAMComputer.ToSTARSFacility]: the message is appended to the queue of
    the STARS computer of that name; an unknown name is an error. *)
Definition ToSTARSFacility (facility : string) (msg : FlightPlanMessage)
    (comp : ERAMComputer) : ERAMComputer * option error :=
  match ec_STARSComputers comp !! facility with
  | None => (comp, Some ErrUnknownFacility)
  | Some stars =>
      (ec_with_STARSComputers
         (<[facility :=
              sc_with_ReceivedMessages (sc_ReceivedMessages stars ++ [msg])%list stars]>
            (ec_STARSComputers comp)) comp,
       None)
  end.

(** [ERAMComputer.SendMessageToERAM]. *)
Definition SendMessageToERAM (facility : string) (msg : FlightPlanMessage)
    (comp : ERAMComputer) : ERAMComputer * option error :=
  match ec_ERAMInboxes comp !! facility with
  | None => (comp, Some ErrUnknownFacility)
  | Some inbox =>
      (ec_with_ERAMInboxes
         (<[facility := (inbox ++ [msg])%list]> (ec_ERAMInboxes comp)) comp,
       None)
  end.

(** [ERAMComputer.SendFlightPlan], for the plan at [l]: the error returned
    ([None] for nil) and the state after the call. *)
Definition SendFlightPlan (l : loc) (tracon : string) (simTime : Time)
    (w : ERAMWorld) : outcome (ERAMWorld * option error) :=
  let comp := ew_comp w in
  match ew_plans w !! l with
  | None => Panicked (w, None)
  | Some fp =>
      let msg :=
        fpm_with_SourceID (formatSourceID (ec_Identifier comp) simTime)
          (fpm_with_MessageType Plan (Message fp)) in
      match ea_CoordinationFixes (ec_Adaptation comp) !! sfp_CoordinationFix fp with
      | None => Done (w, Some ErrNoMatchingFix)
      | Some coordFix =>
          match Fix coordFix (sfp_Altitude fp) with
          | inr err => Done (w, Some err)
          | inl adaptFix =>
              let comp' :=
                match ToSTARSFacility tracon msg comp with
                | (comp1, None) => comp1
                | (comp1, Some _) =>
                    fst (SendMessageToERAM (TRACON_ARTCC tracon) msg comp1)
                end in
              let fp' :=
                sfp_with_ContainedFacilities
                  (sfp_ContainedFacilities fp ++ [af_ToFacility adaptFix])%list fp in
              Done (mkERAMWorld (<[l := fp']> (ew_plans w)) comp', None)
          end
      end
  end.

(** The closure [sendPlanIfReady] of [SendFlightPlans]. *)
Definition sendPlanIfReady (tracon : string) (simTime : Time) (l : loc)
    (w : ERAMWorld) : outcome ERAMWorld :=
  match ew_plans w !! l with
  | None => Panicked w
  | Some fp =>
      if decide (simTime + TransmitFPMessageTime < ct_Time (sfp_CoordinationTime fp))
      then Done w
      else
        match ea_CoordinationFixes (ec_Adaptation (ew_comp w))
                !! sfp_CoordinationFix fp with
        | None => Done w
        | Some coordFix =>
            match Fix coordFix (sfp_Altitude fp) with
            | inr _ => Done w
            | inl adaptFix =>
                if negb (slices_Contains (sfp_ContainedFacilities fp)
                           (af_ToFacility adaptFix))
                then
                  match SendFlightPlan l tracon simTime w with
                  | Done (w', _) => Done w'
                  | Panicked (w', _) => Panicked w'
                  end
                else Done w
            end
        end
  end.

(** The first loop of [SendFlightPlans], over the tracks.  [visit] is the
    order in which the range meets the keys; a key deleted before it is
    reached is not visited. *)
Fixpoint send_track_plans (tracon : string) (simTime : Time) (visit : list string)
    (w : ERAMWorld) : outcome ERAMWorld :=
  match visit with
  | [] => Done w
  | key :: visit' =>
      match ec_TrackInformation (ew_comp w) !! key with
      | None => send_track_plans tracon simTime visit' w
      | Some info =>
          match ti_FlightPlan info with
          | None => send_track_plans tracon simTime visit' w
          | Some l =>
              match ew_plans w !! l with
              | None => Panicked w
              | Some fp =>
                  if decide (fp_Callsign (sfp_FlightPlan fp) = ""
                             /\ sfp_Altitude fp = "")
                  then
                    send_track_plans tracon simTime visit'
                      (mkERAMWorld (ew_plans w)
                         (ec_with_TrackInformation
                            (delete (ti_Identifier info)
                               (ec_TrackInformation (ew_comp w)))
                            (ew_comp w)))
                  else
                    match sendPlanIfReady tracon simTime l w with
                    | Done w' => send_track_plans tracon simTime visit' w'
                    | Panicked w' => Panicked w'
                    end
              end
          end
      end
  end.

(** The second loop of [SendFlightPlans], over the plan table. *)
Fixpoint send_table_plans (tracon : string) (simTime : Time) (visit : list Squawk)
    (w : ERAMWorld) : outcome ERAMWorld :=
  match visit with
  | [] => Done w
  | sq :: visit' =>
      match ec_FlightPlans (ew_comp w) !! sq with
      | None => send_table_plans tracon simTime visit' w
      | Some l =>
          match sendPlanIfReady tracon simTime l w with
          | Done w' => send_table_plans tracon simTime visit' w'
          | Panicked w' => Panicked w'
          end
      end
  end.

(** [ERAMComputer.SendFlightPlans]. *)
Definition SendFlightPlans (tracon : string) (simTime : Time)
    (visit_tracks : list string) (visit_plans : list Squawk) (w : ERAMWorld)
  : outcome ERAMWorld :=
  match send_track_plans tracon simTime visit_tracks w with
  | Done w' => send_table_plans tracon simTime visit_plans w'
  | Panicked w' => Panicked w'
  end.

End ERAM.


Section ERAMSort.
Context `{Collaborators}.

(** The [Plan] case of [ERAMComputer.SortMessages].  The new plan enters
    the store when the plan table takes a reference to it, which is after
    the check of its squawk. *)
Definition eram_Plan (msg : FlightPlanMessage) (w : ERAMWorld) : outcome ERAMWorld :=
  let comp := ew_comp w in
  let fp := FlightPlan msg in
  if decide (fp_AssignedSquawk (sfp_FlightPlan fp) = 0) then Panicked w
  else
    let '(l, h) := new_plan (ew_plans w) fp in
    let comp1 := ec_with_FlightPlans (<[fpm_BCN msg := l]> (ec_FlightPlans comp)) comp in
    let forward (h' : store) (name : string) :=
      match AdaptationFixForAltitude (ec_Adaptation comp) name (sfp_Altitude fp) with
      | Some af =>
          if decide (af_ToFacility af <> ec_Identifier comp)
          then Done (mkERAMWorld h' (fst (ToSTARSFacility (af_ToFacility af) msg comp1)))
          else Done (mkERAMWorld h' comp1)
      | None => Done (mkERAMWorld h' comp1)
      end in
    if decide (sfp_CoordinationFix fp = "") then
      let '(name, ok) :=
        FixForRouteAndAltitude (ec_Adaptation comp)
          (fp_Route (sfp_FlightPlan fp)) (sfp_Altitude fp) in
      let h' := <[l := sfp_with_CoordinationFix name fp]> h in
      if ok then forward h' name else Done (mkERAMWorld h' comp1)
    else forward h (sfp_CoordinationFix fp).

(** The [RequestFlightPlan] case, with the slice of the queue that follows
    it: the queue becomes its own [[1:]]. *)
Definition eram_RequestFlightPlan (simTime : Time) (msg : FlightPlanMessage)
    (w : ERAMWorld) : outcome ERAMWorld :=
  let comp := ew_comp w in
  if (String.length (fpm_SourceID msg) <? 3)%nat then Panicked w
  else
    let facility := substring 0 3 (fpm_SourceID msg) in
    let sent :=
      match ec_FlightPlans comp !! fpm_BCN msg with
      | None => Done comp
      | Some l =>
          match ew_plans w !! l with
          | None => Panicked comp
          | Some plan =>
              Done (fst (ToSTARSFacility facility
                           (FlightPlanDepartureMessage (sfp_FlightPlan plan)
                              (ec_Identifier comp) simTime) comp))
          end
      end in
    match sent with
    | Panicked comp1 => Panicked (mkERAMWorld (ew_plans w) comp1)
    | Done comp1 =>
        match ec_ReceivedMessages comp1 with
        | [] => Panicked (mkERAMWorld (ew_plans w) comp1)
        | _ :: rest =>
            Done (mkERAMWorld (ew_plans w) (ec_with_ReceivedMessages rest comp1))
        end
    end.

(** The first statements of the [InitiateTransfer] case: the track of the
    identifier is made if there is none, owner and handoff controller are
    written, and the squawk of the message is written to the map of
    available squawks. *)
Definition eram_InitiateTransfer_track (msg : FlightPlanMessage) (comp : ERAMComputer)
  : ERAMComputer :=
  let info :=
    match ec_TrackInformation comp !! fpm_Identifier msg with
    | None => track_of "" "" (ec_FlightPlans comp !! fpm_BCN msg)
    | Some info => info
    end in
  ec_with_AvailableSquawks
    (put_squawk (fpm_BCN msg) (ec_AvailableSquawks comp))
    (ec_with_TrackInformation
       (<[fpm_Identifier msg :=
            ti_with_HandoffController (fpm_HandoffController msg)
              (ti_with_TrackOwner (fpm_TrackOwner msg) info)]>
          (ec_TrackInformation comp))
       comp).

(** The loop of the [InitiateTransfer] case over the coordination fixes of
    the adaptation, met in the order [visit]. *)
Fixpoint eram_InitiateTransfer_fixes (simTime : Time) (visit : list string)
    (msg : FlightPlanMessage) (w : ERAMWorld) : outcome ERAMWorld :=
  match visit with
  | [] => Done w
  | name :: visit' =>
      let comp := ew_comp w in
      match ea_CoordinationFixes (ec_Adaptation comp) !! name with
      | None => eram_InitiateTransfer_fixes simTime visit' msg w
      | Some fixes =>
          match ec_TrackInformation comp !! fpm_Identifier msg with
          | None => Panicked w
          | Some info =>
              match ti_FlightPlan info ≫= (fun l => ew_plans w !! l) with
              | None => Panicked w
              | Some plan =>
                  match Fix fixes (sfp_Altitude plan) with
                  | inr _ => eram_InitiateTransfer_fixes simTime visit' msg w
                  | inl afix =>
                      if decide (name = fpm_CoordinationFix msg) then
                        if decide (af_ToFacility afix <> ec_Identifier comp) then
                          let msg' :=
                            fpm_with_SourceID
                              (formatSourceID (ec_Identifier comp) simTime) msg in
                          let comp' :=
                            if starts_with_Z (af_ToFacility afix)
                            then fst (SendMessageToERAM (af_ToFacility afix) msg' comp)
                            else fst (ToSTARSFacility (af_ToFacility afix) msg' comp) in
                          eram_InitiateTransfer_fixes simTime visit' msg'
                            (mkERAMWorld (ew_plans w) comp')
                        else
                          eram_InitiateTransfer_fixes simTime visit' msg
                            (mkERAMWorld (ew_plans w)
                               (ec_with_TrackInformation
                                  (<[fpm_Identifier msg :=
                                       track_of (fpm_TrackOwner msg)
                                         (fpm_HandoffController msg)
                                         (ec_FlightPlans comp !! fpm_BCN msg)]>
                                     (ec_TrackInformation comp))
                                  comp))
                      else eram_InitiateTransfer_fixes simTime visit' msg w
                  end
              end
          end
      end
  end.

(** The [InitiateTransfer] case. *)
Definition eram_InitiateTransfer (simTime : Time) (visit : list string)
    (msg : FlightPlanMessage) (w : ERAMWorld) : outcome ERAMWorld :=
  eram_InitiateTransfer_fixes simTime visit msg
    (mkERAMWorld (ew_plans w) (eram_InitiateTransfer_track msg (ew_comp w))).

(** The [AcceptRecallTransfer] case. *)
Definition eram_AcceptRecallTransfer (msg : FlightPlanMessage) (w : ERAMWorld)
  : outcome ERAMWorld :=
  let comp := ew_comp w in
  match ea_CoordinationFixes (ec_Adaptation comp) !! fpm_CoordinationFix msg with
  | None => Done w
  | Some adaptationFixes =>
      match ec_TrackInformation comp !! fpm_Identifier msg with
      | None => Panicked w
      | Some info =>
          let comp1 :=
            ec_with_TrackInformation
              (<[fpm_Identifier msg := ti_with_TrackOwner (fpm_TrackOwner msg) info]>
                 (ec_TrackInformation comp))
              (if decide (fpm_TrackOwner msg = ti_TrackOwner info)
               then ec_with_AvailableSquawks
                      (put_squawk (fpm_BCN msg) (ec_AvailableSquawks comp)) comp
               else comp) in
          let w1 := mkERAMWorld (ew_plans w) comp1 in
          match ti_FlightPlan info ≫= (fun l => ew_plans w !! l) with
          | None => Panicked w1
          | Some plan =>
              match Fix adaptationFixes (sfp_Altitude plan) with
              | inl adaptationFix =>
                  if decide (af_FromFacility adaptationFix <> ec_Identifier comp)
                  then Done (mkERAMWorld (ew_plans w)
                               (fst (SendMessageToERAM
                                       (af_FromFacility adaptationFix) msg comp1)))
                  else Done w1
              | inr _ => Done w1
              end
          end
      end
  end.

(** The body of the loop of [SortMessages]: the [switch] on the message
    type.  [visit] is the order of the range over the coordination fixes
    that the [InitiateTransfer] case runs. *)
Definition eram_sort_message (simTime : Time) (visit : list string)
    (msg : FlightPlanMessage) (w : ERAMWorld) : outcome ERAMWorld :=
  if decide (fpm_MessageType msg = Plan) then eram_Plan msg w
  else if decide (fpm_MessageType msg = RequestFlightPlan) then
    eram_RequestFlightPlan simTime msg w
  else if decide (fpm_MessageType msg = DepartureDM) then Done w
  else if decide (fpm_MessageType msg = BeaconTerminate) then Done w
  else if decide (fpm_MessageType msg = InitiateTransfer) then
    eram_InitiateTransfer simTime visit msg w
  else if decide (fpm_MessageType msg = AcceptRecallTransfer) then
    eram_AcceptRecallTransfer msg w
  else Done w.

(** The loop of [SortMessages] over the messages the queue holds when the
    loop starts; [visits] gives, for the message met [i]-th, the order of
    its range over the coordination fixes. *)
Fixpoint eram_sort_loop (simTime : Time) (visits : nat -> list string) (i : nat)
    (msgs : list FlightPlanMessage) (w : ERAMWorld) : outcome ERAMWorld :=
  match msgs with
  | [] => Done w
  | msg :: msgs' =>
      match eram_sort_message simTime (visits i) msg w with
      | Done w' => eram_sort_loop simTime visits (S i) msgs' w'
      | Panicked w' => Panicked w'
      end
  end.

(** [ERAMComputer.SortMessages]: the loop, then [clear] of the queue. *)
Definition SortMessages (simTime : Time) (visits : nat -> list string)
    (w : ERAMWorld) : outcome ERAMWorld :=
  match eram_sort_loop simTime visits 0 (ec_ReceivedMessages (ew_comp w)) w with
  | Done w' =>
      Done (mkERAMWorld (ew_plans w')
              (ec_with_ReceivedMessages
                 (clear_slice (ec_ReceivedMessages (ew_comp w'))) (ew_comp w')))
  | Panicked w' => Panicked w'
  end.

End ERAMSort.


(** ** Abbreviated flight-plan parser *)

Record AbbreviatedFPFields := mkAbbreviatedFPFields {
  ab_ACID : string;
  ab_BCN : Squawk;
  ab_ControllingPosition : string;
  ab_TypeOfFlight : string;
  ab_SC1 : string;
  ab_SC2 : string;
  ab_AircraftType : string;
  ab_RequestedALT : string;
  ab_Rules : FlightRules;
  ab_DepartureAirport : string;
  ab_Error : option error
}.

Definition zeroAbbreviatedFPFields : AbbreviatedFPFields :=
  mkAbbreviatedFPFields "" 0 "" "" "" "" "" "" UNKNOWN "" None.

Definition ab_with_ACID (v : string) (o : AbbreviatedFPFields) :=
  mkAbbreviatedFPFields v (ab_BCN o) (ab_ControllingPosition o) (ab_TypeOfFlight o)
    (ab_SC1 o) (ab_SC2 o) (ab_AircraftType o) (ab_RequestedALT o) (ab_Rules o)
    (ab_DepartureAirport o) (ab_Error o).
Definition ab_with_BCN (v : Squawk) (o : AbbreviatedFPFields) :=
  mkAbbreviatedFPFields (ab_ACID o) v (ab_ControllingPosition o) (ab_TypeOfFlight o)
    (ab_SC1 o) (ab_SC2 o) (ab_AircraftType o) (ab_RequestedALT o) (ab_Rules o)
    (ab_DepartureAirport o) (ab_Error o).
Definition ab_with_ControllingPosition (v : string) (o : AbbreviatedFPFields) :=
  mkAbbreviatedFPFields (ab_ACID o) (ab_BCN o) v (ab_TypeOfFlight o)
    (ab_SC1 o) (ab_SC2 o) (ab_AircraftType o) (ab_RequestedALT o) (ab_Rules o)
    (ab_DepartureAirport o) (ab_Error o).
Definition ab_with_TypeOfFlight (v : string) (o : AbbreviatedFPFields) :=
  mkAbbreviatedFPFields (ab_ACID o) (ab_BCN o) (ab_ControllingPosition o) v
    (ab_SC1 o) (ab_SC2 o) (ab_AircraftType o) (ab_RequestedALT o) (ab_Rules o)
    (ab_DepartureAirport o) (ab_Error o).
Definition ab_with_SC1 (v : string) (o : AbbreviatedFPFields) :=
  mkAbbreviatedFPFields (ab_ACID o) (ab_BCN o) (ab_ControllingPosition o)
    (ab_TypeOfFlight o) v (ab_SC2 o) (ab_AircraftType o) (ab_RequestedALT o)
    (ab_Rules o) (ab_DepartureAirport o) (ab_Error o).
Definition ab_with_SC2 (v : string) (o : AbbreviatedFPFields) :=
  mkAbbreviatedFPFields (ab_ACID o) (ab_BCN o) (ab_ControllingPosition o)
    (ab_TypeOfFlight o) (ab_SC1 o) v (ab_AircraftType o) (ab_RequestedALT o)
    (ab_Rules o) (ab_DepartureAirport o) (ab_Error o).
Definition ab_with_AircraftType (v : string) (o : AbbreviatedFPFields) :=
  mkAbbreviatedFPFields (ab_ACID o) (ab_BCN o) (ab_ControllingPosition o)
    (ab_TypeOfFlight o) (ab_SC1 o) (ab_SC2 o) v (ab_RequestedALT o)
    (ab_Rules o) (ab_DepartureAirport o) (ab_Error o).
Definition ab_with_RequestedALT (v : string) (o : AbbreviatedFPFields) :=
  mkAbbreviatedFPFields (ab_ACID o) (ab_BCN o) (ab_ControllingPosition o)
    (ab_TypeOfFlight o) (ab_SC1 o) (ab_SC2 o) (ab_AircraftType o) v
    (ab_Rules o) (ab_DepartureAirport o) (ab_Error o).
Definition ab_with_Rules (v : FlightRules) (o : AbbreviatedFPFields) :=
  mkAbbreviatedFPFields (ab_ACID o) (ab_BCN o) (ab_ControllingPosition o)
    (ab_TypeOfFlight o) (ab_SC1 o) (ab_SC2 o) (ab_AircraftType o)
    (ab_RequestedALT o) v (ab_DepartureAirport o) (ab_Error o).
Definition ab_with_DepartureAirport (v : string) (o : AbbreviatedFPFields) :=
  mkAbbreviatedFPFields (ab_ACID o) (ab_BCN o) (ab_ControllingPosition o)
    (ab_TypeOfFlight o) (ab_SC1 o) (ab_SC2 o) (ab_AircraftType o)
    (ab_RequestedALT o) (ab_Rules o) v (ab_Error o).
Definition ab_with_Error (v : error) (o : AbbreviatedFPFields) :=
  mkAbbreviatedFPFields (ab_ACID o) (ab_BCN o) (ab_ControllingPosition o)
    (ab_TypeOfFlight o) (ab_SC1 o) (ab_SC2 o) (ab_AircraftType o)
    (ab_RequestedALT o) (ab_Rules o) (ab_DepartureAirport o) (Some v).

(** Modelled from the spec: [STARSFacilityAdaptation] is declared elsewhere
    in pkg/sim; the parser reads its two flags that allow long scratchpad
    entries ([AllowLongScratchpad[0]] and [[1]]). *)
Record STARSFacilityAdaptation := mkSTARSFacilityAdaptation {
  fa_AllowLongScratchpad : bool * bool
}.

(** [string(rune(0x80))]: the two bytes of U+0080 in UTF-8. *)
Definition STARSTriangleCharacter : string :=
  String (ascii_of_nat 194) (String (ascii_of_nat 128) EmptyString).

(** [unicode.IsLetter(rune(b))] for a byte [b]: the letters of Latin-1. *)
Definition byte_IsLetter (b : ascii) : bool :=
  let n := nat_of_ascii b in
  ((65 <=? n) && (n <=? 90) || (97 <=? n) && (n <=? 122)
   || (n =? 170) || (n =? 181) || (n =? 186)
   || (192 <=? n) && (n <=? 214) || (216 <=? n) && (n <=? 246)
   || (248 <=? n) && (n <=? 255))%nat.

(** [strings.Split(s, "/")]: the pieces between the slashes, with [cur] the
    piece being read, in reverse. *)
Fixpoint split_slash_from (cur : string) (s : string) : list string :=
  match s with
  | EmptyString => [cur]
  | String c s' =>
      if bool_decide (c = "/"%char) then cur :: split_slash_from "" s'
      else split_slash_from (cur ++ String c EmptyString) s'
  end.
Definition split_slash (s : string) : list string := split_slash_from "" s.

(** What the body of the parser's loop ends with: [continue] or the end of
    the body, [return output], or a panic. *)
Inductive field_result :=
  | Next (o : AbbreviatedFPFields)
  | Return (o : AbbreviatedFPFields)
  | Crash (o : AbbreviatedFPFields).

Definition badScratchpads : list string := ["NAT"; "CST"; "AMB"; "RDR"; "ADB"; "XXX"].

Section Parser.
Context `{Collaborators}.

(** The statements guarded by one of the scratchpad tests: [setSC] is the
    assignment to [SC1] or to [SC2], [rest] runs what follows the [if]. *)
Definition scratchpad (test : bool) (setSC : string -> AbbreviatedFPFields -> AbbreviatedFPFields)
    (field : string) (o : AbbreviatedFPFields)
    (rest : AbbreviatedFPFields -> field_result) : field_result :=
  if test then
    if slices_Contains badScratchpads field
    then Return (ab_with_Error ErrIllegalScratchpad o)
    else if (String.length field <? 3)%nat then Crash o
    else
      let o1 :=
        if IsAllNumbers (string_from (String.length field - 3) field)
        then ab_with_Error ErrIllegalScratchpad o else o in
      rest (setSC field o1)
  else rest o.

(** The aircraft-type test: the [switch] on the number of pieces of the
    field, then [continue]. *)
Definition aircraft_type (field : string) (o : AbbreviatedFPFields) : field_result :=
  match split_slash field with
  | [_] =>
      if negb (AircraftPerformance field)
      then Next (ab_with_Error ErrIllegalACType o)
      else Next (ab_with_AircraftType field o)
  | [f0; f1] =>
      if IsAllNumbers f0 then
        match f1 with
        | EmptyString => Crash o
        | String c _ =>
            if negb (byte_IsLetter c)
            then Return (ab_with_Error ErrInvalidAbbreviatedFP o)
            else if negb (AircraftPerformance f1)
            then Next (ab_with_Error ErrIllegalACType o)
            else Next (ab_with_AircraftType field o)
        end
      else
        if (1 <? String.length f1)%nat || negb (IsAllLetters f1)
        then Return (ab_with_Error ErrInvalidAbbreviatedFP o)
        else if negb (AircraftPerformance f0)
        then Next (ab_with_Error ErrIllegalACType o)
        else Next (ab_with_AircraftType field o)
  | [f0; f1; f2] =>
      if (1 <? String.length f2)%nat || negb (IsAllLetters f2)
      then Return (ab_with_Error ErrInvalidAbbreviatedFP o)
      else
        match f1 with
        | EmptyString => Crash o
        | String c _ =>
            if negb (byte_IsLetter c)
            then Return (ab_with_Error ErrInvalidAbbreviatedFP o)
            else if negb (AircraftPerformance f1)
            then Next (ab_with_Error ErrIllegalACType o)
            else Next (ab_with_AircraftType field o)
        end
  | _ => Next o
  end.

(** The last two tests of the body: requested altitude, then flight
    rules. *)
Definition altitude_or_rules (field : string) (o : AbbreviatedFPFields) : field_result :=
  if (String.length field =? 3)%nat && IsAllNumbers field
  then Next (ab_with_RequestedALT field o)
  else
    match field with
    | String c0 (String c1 EmptyString) =>
        if negb (bool_decide (c0 = "."%char))
        then Return (ab_with_Error ErrInvalidAbbreviatedFP o)
        else if bool_decide (c1 = "V"%char) then Next (ab_with_Rules VFR o)
        else if bool_decide (c1 = "P"%char) then Next (ab_with_Rules VFR o)
        else if bool_decide (c1 = "E"%char) then Next (ab_with_Rules IFR o)
        else Return (ab_with_Error ErrInvalidAbbreviatedFP o)
    | _ => Next o
    end.

(** The type-of-flight test, for a field of at most two characters. *)
Definition type_of_flight (field : string) (o : AbbreviatedFPFields)
    (rest : AbbreviatedFPFields -> field_result) : field_result :=
  if (String.length field <=? 2)%nat then
    if (String.length field =? 1)%nat then
      if decide (field = "A") then rest (ab_with_TypeOfFlight "arrival" o)
      else if decide (field = "P") then rest (ab_with_TypeOfFlight "departure" o)
      else if decide (field = "E") then rest (ab_with_TypeOfFlight "overflight" o)
      else rest o
    else if (String.length field =? 2)%nat then
      if slices_Contains ["A"; "P"; "E"] (substring 0 1 field)
      then Next (ab_with_DepartureAirport (string_from 1 field)
                   (ab_with_TypeOfFlight (substring 0 1 field) o))
      else rest o
    else rest o
  else rest o.

(** The body of the loop of [ParseAbbreviatedFPFields], for one field. *)
Definition parse_field (facilityAdaptation : STARSFacilityAdaptation)
    (o : AbbreviatedFPFields) (field : string) : field_result :=
  let len := String.length field in
  match ParseSquawk field with
  | Some sq => Next (ab_with_BCN sq o)
  | None =>
      if (len =? 2)%nat then Next (ab_with_ControllingPosition field o)
      else
        type_of_flight field o (fun o =>
        scratchpad
          (strings_HasPrefix field STARSTriangleCharacter
             && (3 <? len)%nat && (len <=? 5)%nat
           || (len <=? 6)%nat && fst (fa_AllowLongScratchpad facilityAdaptation))
          ab_with_SC1 field o (fun o =>
        scratchpad
          (strings_HasPrefix field "+" && (2 <? len)%nat
           && ((len <=? 4)%nat
               || (len <=? 5)%nat && snd (fa_AllowLongScratchpad facilityAdaptation)))
          ab_with_SC2 field o (fun o =>
        if (4 <=? len)%nat then aircraft_type field o
        else altitude_or_rules field o)))
  end.

(** The loop over [fields[1:]]. *)
Fixpoint parse_fields (facilityAdaptation : STARSFacilityAdaptation)
    (o : AbbreviatedFPFields) (fields : list string) : outcome AbbreviatedFPFields :=
  match fields with
  | [] => Done o
  | field :: fields' =>
      match parse_field facilityAdaptation o field with
      | Next o' => parse_fields facilityAdaptation o' fields'
      | Return o' => Done o'
      | Crash o' => Panicked o'
      end
  end.

(** [ParseAbbreviatedFPFields]. *)
Definition ParseAbbreviatedFPFields (facilityAdaptation : STARSFacilityAdaptation)
    (fields : list string) : outcome AbbreviatedFPFields :=
  match fields with
  | [] => Panicked zeroAbbreviatedFPFields
  | acid :: rest =>
      if (2 <=? String.length acid)%nat && (String.length acid <=? 7)%nat
         && match acid with String c _ => byte_IsLetter c | EmptyString => false end
      then parse_fields facilityAdaptation (ab_with_ACID acid zeroAbbreviatedFPFields) rest
      else Done (ab_with_Error ErrIllegalACID zeroAbbreviatedFPFields)
  end.

End Parser.


(** ** A configuration to run the definitions on *)

(** Octal digits, most significant first, as [av.ParseSquawk] reads them. *)
Fixpoint parse_octal (acc : Z) (s : string) : option Z :=
  match s with
  | EmptyString => Some acc
  | String c s' =>
      let n := nat_of_ascii c in
      if ((48 <=? n) && (n <=? 55))%nat
      then parse_octal (8 * acc + (Z.of_nat n - 48)) s'
      else None
  end.

Definition all_bytes (p : nat -> bool) (s : string) : bool :=
  forallb (fun c => p (nat_of_ascii c)) (list_ascii_of_string s).

(** Stand-ins for the collaborators: squawks are octal numerals up to
    [0o7777], the special-purpose codes are 7500, 7600, 7700 and 7777, the
    performance database knows two types, N90 lies under ZNY, a list of
    adaptation fixes resolves to its first fix. *)
Definition sample : Collaborators := {|
  SquawkIsSPC sq :=
    bool_decide (sq ∈ [octal [7;5;0;0]; octal [7;6;0;0]; octal [7;7;0;0];
                       octal [7;7;7;7]]);
  ParseSquawk s :=
    match parse_octal 0 s with
    | Some n => if (n <=? octal [7;7;7;7])%Z then Some n else None
    | None => None
    end;
  TypeWithoutSuffix fp := fp_AircraftType fp;
  IsAllNumbers := all_bytes (fun n => (48 <=? n) && (n <=? 57))%nat;
  IsAllLetters :=
    all_bytes (fun n => (65 <=? n) && (n <=? 90) || (97 <=? n) && (n <=? 122))%nat;
  AircraftPerformance s := bool_decide (s ∈ ["B738"; "A320"]);
  TRACON_ARTCC s := if decide (s = "N90") then "ZNY" else "";
  Format1504Z _ := "1200Z";
  Fix fixes _ :=
    match fixes with
    | [] => inr ErrNoMatchingFix
    | f :: _ => inl f
    end;
  FixForRouteAndAltitude _ _ _ := ("", false);
  AdaptationFixForAltitude adapt name _ :=
    match ea_CoordinationFixes adapt !! name with
    | Some (f :: _) => Some f
    | _ => None
    end
|}.

(** A plan for UAL123 with coordination fix [cfix] and coordination time
    [t]. *)
Definition sample_plan (callsign cfix : string) (sq : Squawk) (t : Time)
  : STARSFlightPlan :=
  mkSTARSFlightPlan
    (mkAvFlightPlan callsign IFR "B738" sq "" "KJFK" "KBOS" 0 "MERIT ROBUC" "")
    0 (mkCoordinationTime t "P") cfix [] "230" "" "" "".

(** A message of type [t] about the track [id], squawk [sq], sent for the
    owner [owner]. *)
Definition sample_message (t : Z) (id : string) (sq : Squawk) (owner handoff : string)
  : FlightPlanMessage :=
  mkFlightPlanMessage "N901200Z" t "UAL123" zeroAircraftData sq "MERIT"
    zeroCoordinationTime "230" "MERIT ROBUC"
    (mkTrackInformation id owner handoff None "" [] zeroRedirectedHandoff "" "" false).

(** A STARS computer that holds one plan, under squawk 4321, for the
    callsign "1234". *)
Definition sample_stars : STARSComputer :=
  mkSTARSComputer "N90" {[ octal [4;3;2;1] := 1%positive ]} [] ∅.

Definition sample_store : store :=
  {[ 1%positive := sample_plan "1234" "MERIT" (octal [4;3;2;1]) 0 ]}.

(** A STARS computer that tracks UAL123 for the owner "2W". *)
Definition sample_tracking : STARSWorld :=
  mkSTARSWorld sample_store
    (mkSTARSComputer "N90" {[ octal [4;3;2;1] := 1%positive ]} []
       {[ "UAL123" := track_of "2W" "1N" None ]})
    [].


(** The adaptation of ZNY: MERIT hands off to N90, ROBUC stays in ZNY. *)
Definition sample_adaptation : ERAMAdaptation :=
  mkERAMAdaptation
    {[ "MERIT" := [mkAdaptationFix "MERIT" "route" "N90" "ZNY" (0, 600)];
       "ROBUC" := [mkAdaptationFix "ROBUC" "route" "ZNY" "ZBW" (0, 600)] ]}.

(** An ERAM computer ZNY over the STARS computer N90, with the peer ZBW,
    that holds the plans [plans] and has [queue] to sort; squawk 4321 has
    been handed out by its pool. *)
Definition sample_eram (plans : gmap Squawk loc) (queue : list FlightPlanMessage)
  : ERAMComputer :=
  mkERAMComputer {[ "N90" := MakeSTARSComputer "N90" ]} {[ "ZBW" := [] ]}
    queue plans ∅
    (getValidSquawkCodes (H := sample) ∖ {[ octal [4;3;2;1] ]})
    "ZNY" sample_adaptation.

(** The same computer with a pool of two codes, for runs that are
    evaluated in full. *)
Definition small_eram (plans : gmap Squawk loc) (queue : list FlightPlanMessage)
  : ERAMComputer :=
  ec_with_AvailableSquawks {[ octal [1;0;0;1]; octal [1;0;0;2] ]}
    (sample_eram plans queue).


(** The transfer of UAL123, squawk 4321, initiated by N90 for the owner
    "1N", and an ERAM computer that holds the plan of UAL123. *)
Definition sample_transfer : FlightPlanMessage :=
  sample_message InitiateTransfer "UAL123" (octal [4;3;2;1]) "1N" "2W".

Definition sample_transfer_world : ERAMWorld :=
  mkERAMWorld {[ 1%positive := sample_plan "UAL123" "ROBUC" (octal [4;3;2;1]) 0 ]}
    (small_eram {[ octal [4;3;2;1] := 1%positive ]} [sample_transfer]).


(** One hour, and a world in which ZNY holds, under squawk 4321 and for
    the track UAL123 alike, one plan with coordination time at one hour and
    coordination fix [cfix]. *)
Definition Hour : Z := 60 * Minute.

Definition sample_timed_world (cfix : string) : ERAMWorld :=
  mkERAMWorld {[ 1%positive := sample_plan "UAL123" cfix (octal [4;3;2;1]) Hour ]}
    (ec_with_TrackInformation
       {[ "UAL123" := track_of "1N" "" (Some 1%positive) ]}
       (small_eram {[ octal [4;3;2;1] := 1%positive ]} [])).


(** ** Predicates of the statements *)

(** What the loop of the [InitiateTransfer] case over the coordination
    fixes keeps: the pool, the plan table, and a track for [id] with the
    owner and the handoff controller of the message, whose plan is the one
    it had or the one of the table under [bcn]. *)
Definition transfer_inv (id owner handoff : string) (bcn : Squawk)
    (pool : gset Squawk) (plans : gmap Squawk loc) (fp0 : option loc)
    (w : ERAMWorld) : Prop :=
  ec_AvailableSquawks (ew_comp w) = pool /\
  ec_FlightPlans (ew_comp w) = plans /\
  exists info,
    ec_TrackInformation (ew_comp w) !! id = Some info /\
    ti_TrackOwner info = owner /\
    ti_HandoffController info = handoff /\
    (ti_FlightPlan info = fp0 \/ ti_FlightPlan info = plans !! bcn).

(** The number of messages that make the ERAM sort drop the head of its
    queue. *)
Definition requests (msgs : list FlightPlanMessage) : nat :=
  List.length (filter (fun m => fpm_MessageType m = RequestFlightPlan) msgs).

(** The message [SendFlightPlan] makes of a plan. *)
Definition plan_message `{Collaborators} (comp : ERAMComputer) (simTime : Time)
    (fp : STARSFlightPlan) : FlightPlanMessage :=
  fpm_with_SourceID (formatSourceID (ec_Identifier comp) simTime)
    (fpm_with_MessageType Plan (Message fp)).


(** Two worlds with the same plans, the same queues of STARS computers and
    of peers and the same plan table: they differ at most in the tracks. *)
Definition only_tracks_differ (w w' : ERAMWorld) : Prop :=
  ew_plans w' = ew_plans w /\
  ec_STARSComputers (ew_comp w') = ec_STARSComputers (ew_comp w) /\
  ec_ERAMInboxes (ew_comp w') = ec_ERAMInboxes (ew_comp w) /\
  ec_FlightPlans (ew_comp w') = ec_FlightPlans (ew_comp w).

(** Every plan of the store is more than 30 minutes ahead of [simTime]. *)
Definition all_early (simTime : Time) (h : store) : Prop :=
  forall l fp, h !! l = Some fp ->
    simTime < ct_Time (sfp_CoordinationTime fp) - 30 * Minute.


(** ** Predicates of the further statements *)

(** The callsign and the receiving controller of the events a STARS sort
    posts for a queue: one pair for each [InitiateTransfer] message, in the
    order of the queue. *)
Definition transfer_notices (msgs : list FlightPlanMessage) : list (string * string) :=
  (fun m => (fpm_Identifier m, fpm_TrackOwner m))
    <$> filter (fun m => fpm_MessageType m = InitiateTransfer) msgs.


(** Every plan of the store [h] is in [h'], the same but for facilities
    added at the end of its list of facilities already sent to. *)
Definition plans_extended (h h' : store) : Prop :=
  forall l fp, h !! l = Some fp ->
    exists sent,
      h' !! l = Some (sfp_with_ContainedFacilities
                        (sfp_ContainedFacilities fp ++ sent)%list fp).

(** What a tick of the timed transmission keeps of an ERAM computer. *)
Definition transmission_keeps (w w' : ERAMWorld) : Prop :=
  plans_extended (ew_plans w) (ew_plans w') /\
  ec_FlightPlans (ew_comp w') = ec_FlightPlans (ew_comp w) /\
  ec_AvailableSquawks (ew_comp w') = ec_AvailableSquawks (ew_comp w) /\
  ec_ReceivedMessages (ew_comp w') = ec_ReceivedMessages (ew_comp w) /\
  ec_Identifier (ew_comp w') = ec_Identifier (ew_comp w) /\
  ec_Adaptation (ew_comp w') = ec_Adaptation (ew_comp w) /\
  forall key info,
    ec_TrackInformation (ew_comp w') !! key = Some info ->
    ec_TrackInformation (ew_comp w) !! key = Some info.


(** The plan the track of a message has after the first statements of the
    [InitiateTransfer] case: the plan of the track there was, or the plan
    stored under the squawk of the message. *)
Definition transfer_plan (msg : FlightPlanMessage) (w : ERAMWorld) : option loc :=
  match ec_TrackInformation (ew_comp w) !! fpm_Identifier msg with
  | None => ec_FlightPlans (ew_comp w) !! fpm_BCN msg
  | Some info => ti_FlightPlan info
  end.

(** The computer after a message is handed to [to]: to the inbox of a peer
    when the name starts with Z, to the queue of a STARS computer
    otherwise. *)
Definition forwarded `{Collaborators} (to : string) (msg : FlightPlanMessage)
    (comp : ERAMComputer) : ERAMComputer :=
  if starts_with_Z to then (SendMessageToERAM to msg comp).1
  else (ToSTARSFacility to msg comp).1.


(** An ERAM computer ZNY like [small_eram], written out: over N90, with the
    peer ZBW, two codes in its pool, and the queue, plans and tracks
    given. *)
Definition light_eram (plans : gmap Squawk loc) (queue : list FlightPlanMessage)
    (tracks : gmap string TrackInformation) : ERAMComputer :=
  mkERAMComputer {[ "N90" := MakeSTARSComputer "N90" ]} {[ "ZBW" := [] ]}
    queue plans tracks {[ octal [1;0;0;1]; octal [1;0;0;2] ]} "ZNY" sample_adaptation.

(** ZNY holds the plan of UAL123 under squawk 4321, and no track. *)
Definition light_world : ERAMWorld :=
  mkERAMWorld {[ 1%positive := sample_plan "UAL123" "MERIT" (octal [4;3;2;1]) Hour ]}
    (light_eram {[ octal [4;3;2;1] := 1%positive ]} [] ∅).


(** ZNY with its NAS pool as built; it tracks UAL123, a flight on the code
    1200, for the controller 1N. *)
Definition sample_recall_world : ERAMWorld :=
  mkERAMWorld {[ 1%positive := sample_plan "UAL123" "MERIT" (octal [1;2;0;0]) Hour ]}
    (ec_with_AvailableSquawks (getValidSquawkCodes (H := sample))
       (light_eram ∅ [] {[ "UAL123" := track_of "1N" "" (Some 1%positive) ]})).

(** The recall of the track of UAL123 by 1N. *)
Definition sample_recall : FlightPlanMessage :=
  sample_message AcceptRecallTransfer "UAL123" (octal [1;2;0;0]) "1N" "".

(** The world after the [InitiateTransfer] case has kept the track of the
    message at this facility: the first statements of the case, then the
    track made anew with the plan stored under the squawk of the message. *)
Definition transfer_kept (msg : FlightPlanMessage) (w : ERAMWorld) : ERAMWorld :=
  let comp := eram_InitiateTransfer_track msg (ew_comp w) in
  mkERAMWorld (ew_plans w)
    (ec_with_TrackInformation
       (<[fpm_Identifier msg :=
            track_of (fpm_TrackOwner msg) (fpm_HandoffController msg)
              (ec_FlightPlans (ew_comp w) !! fpm_BCN msg)]>
          (ec_TrackInformation comp))
       comp).

(** The transfer of UAL123 over ROBUC, the fix that stays in ZNY. *)
Definition sample_transfer_here : FlightPlanMessage :=
  mkFlightPlanMessage "N901200Z" InitiateTransfer "UAL123" zeroAircraftData
    (octal [4;3;2;1]) "ROBUC" zeroCoordinationTime "230" "MERIT ROBUC"
    (mkTrackInformation "UAL123" "1N" "2W" None "" [] zeroRedirectedHandoff "" "" false).

(** ZNY tracks UAL123 with its plan, but no longer holds the plan in its
    plan table. *)
Definition sample_tracked_world : ERAMWorld :=
  mkERAMWorld (ew_plans light_world)
    (light_eram ∅ [] {[ "UAL123" := track_of "2W" "" (Some 1%positive) ]}).

(** What the parser never leaves in its output: rules other than the zero
    value, a departure airport, or a type of flight that is not one of its
    three words. *)
Definition unset_fields (o : AbbreviatedFPFields) : Prop :=
  ab_Rules o = UNKNOWN /\
  ab_DepartureAirport o = "" /\
  ab_TypeOfFlight o ∈ [""; "arrival"; "departure"; "overflight"].

(** The output a run of the body of the loop ends with. *)
Definition field_output (r : field_result) : AbbreviatedFPFields :=
  match r with Next o | Return o | Crash o => o end.

(** The output a run of the parser ends with. *)
Definition parse_output (r : outcome AbbreviatedFPFields) : AbbreviatedFPFields :=
  match r with Done o | Panicked o => o end.

(** The test the parser makes of its first field. *)
Definition legal_ACID (acid : string) : bool :=
  (2 <=? String.length acid)%nat && (String.length acid <=? 7)%nat
  && match acid with String c _ => byte_IsLetter c | EmptyString => false end.

(** The identifier is the same in [o'] as in [o], and [o'] has the
    illegal-identifier error only if [o] has it. *)
Definition acid_kept (o o' : AbbreviatedFPFields) : Prop :=
  ab_ACID o' = ab_ACID o /\
  (ab_Error o' = Some ErrIllegalACID -> ab_Error o = Some ErrIllegalACID).

(** ** Deleting an aircraft *)

(** [av.Aircraft] is declared in pkg/aviation; the record has the two
    fields [CompletelyDeleteAircraft] reads. *)
Record Aircraft := mkAircraft {
  ac_Callsign : string;
  ac_Squawk : Squawk
}.

(** The loop of [ERAMComputer.CompletelyDeleteAircraft] and of
    [STARSComputer.CompletelyDeleteAircraft] over the tracks, met in the
    order [visit]: a track whose plan has the callsign or the squawk of the
    aircraft is deleted. *)
Fixpoint delete_tracks (h : store) (ac : Aircraft) (visit : list string)
    (tracks : gmap string TrackInformation) : outcome (gmap string TrackInformation) :=
  match visit with
  | [] => Done tracks
  | key :: visit' =>
      match tracks !! key with
      | None => delete_tracks h ac visit' tracks
      | Some trk =>
          match ti_FlightPlan trk with
          | None => delete_tracks h ac visit' tracks
          | Some l =>
              match h !! l with
              | None => Panicked tracks
              | Some fp =>
                  if decide (fp_Callsign (sfp_FlightPlan fp) = ac_Callsign ac)
                  then delete_tracks h ac visit' (delete key tracks)
                  else if decide (fp_AssignedSquawk (sfp_FlightPlan fp) = ac_Squawk ac)
                  then delete_tracks h ac visit' (delete key tracks)
                  else delete_tracks h ac visit' tracks
              end
          end
      end
  end.

(** [STARSComputer.CompletelyDeleteAircraft]. *)
Definition STARS_CompletelyDeleteAircraft (h : store) (ac : Aircraft)
    (visit : list string) (comp : STARSComputer) : outcome STARSComputer :=
  match delete_tracks h ac visit (sc_TrackInformation comp) with
  | Done tracks => Done (sc_with_TrackInformation tracks comp)
  | Panicked tracks => Panicked (sc_with_TrackInformation tracks comp)
  end.

(** The second loop of [ERAMComputer.CompletelyDeleteAircraft], over the
    STARS computers met in the order [visit_stars]; [visit_tracks] gives the
    order of the tracks of each. *)
Fixpoint delete_in_stars (h : store) (ac : Aircraft) (visit_stars : list string)
    (visit_tracks : string -> list string) (stars : gmap string STARSComputer)
  : outcome (gmap string STARSComputer) :=
  match visit_stars with
  | [] => Done stars
  | id :: visit' =>
      match stars !! id with
      | None => delete_in_stars h ac visit' visit_tracks stars
      | Some comp =>
          match STARS_CompletelyDeleteAircraft h ac (visit_tracks id) comp with
          | Done comp' =>
              delete_in_stars h ac visit' visit_tracks (<[id := comp']> stars)
          | Panicked comp' => Panicked (<[id := comp']> stars)
          end
      end
  end.

(** [ERAMComputer.CompletelyDeleteAircraft]. *)
Definition ERAM_CompletelyDeleteAircraft (h : store) (ac : Aircraft)
    (visit : list string) (visit_stars : list string)
    (visit_tracks : string -> list string) (comp : ERAMComputer)
  : outcome ERAMComputer :=
  match delete_tracks h ac visit (ec_TrackInformation comp) with
  | Panicked tracks => Panicked (ec_with_TrackInformation tracks comp)
  | Done tracks =>
      let comp1 := ec_with_TrackInformation tracks comp in
      match delete_in_stars h ac visit_stars visit_tracks (ec_STARSComputers comp1) with
      | Done stars => Done (ec_with_STARSComputers stars comp1)
      | Panicked stars => Panicked (ec_with_STARSComputers stars comp1)
      end
  end.

(** The track has a plan, in the store, with the callsign or the squawk of
    the aircraft. *)
Definition track_of_aircraft (h : store) (ac : Aircraft) (trk : TrackInformation)
  : bool :=
  match ti_FlightPlan trk ≫= (fun l => h !! l) with
  | Some fp =>
      bool_decide (fp_Callsign (sfp_FlightPlan fp) = ac_Callsign ac)
      || bool_decide (fp_AssignedSquawk (sfp_FlightPlan fp) = ac_Squawk ac)
  | None => false
  end.

(** The plan of every track is in the store. *)
Definition tracks_readable (h : store) (tracks : gmap string TrackInformation) : Prop :=
  forall key trk l,
    tracks !! key = Some trk -> ti_FlightPlan trk = Some l -> is_Some (h !! l).

(** The tracks left when the tracks of an aircraft are taken out. *)
Definition without_aircraft (h : store) (ac : Aircraft)
    (tracks : gmap string TrackInformation) : gmap string TrackInformation :=
  omap (fun trk => if track_of_aircraft h ac trk then None else Some trk) tracks.

(** The range meets every key of the map once. *)
Definition meets_all {A} (visit : list string) (m : gmap string A) : Prop :=
  NoDup visit /\ forall key, is_Some (m !! key) -> key ∈ visit.


(** ** Requests of a STARS computer *)

(** [STARSComputer.SendToOverlyingERAMFacility]: [inbox] is the queue that
    [comp.ERAMInbox] points to. *)
Definition SendToOverlyingERAMFacility (msg : FlightPlanMessage)
    (inbox : list FlightPlanMessage) : list FlightPlanMessage :=
  (inbox ++ [msg])%list.

(** [STARSComputer.RequestFlightPlan]. *)
Definition STARS_RequestFlightPlan `{Collaborators} (comp : STARSComputer)
    (bcn : Squawk) (simTime : Time) (inbox : list FlightPlanMessage)
  : list FlightPlanMessage :=
  let message :=
    mkFlightPlanMessage (formatSourceID (sc_Identifier comp) simTime)
      RequestFlightPlan "" zeroAircraftData bcn "" zeroCoordinationTime "" ""
      zeroTrackInformation in
  SendToOverlyingERAMFacility message inbox.

(** The ERAM computer after one of its STARS computers has run
    [RequestFlightPlan]: [MakeERAMComputer] sets the [ERAMInbox] of each of
    its STARS computers to its own queue. *)
Definition request_from `{Collaborators} (stars : STARSComputer) (bcn : Squawk)
    (simTime : Time) (comp : ERAMComputer) : ERAMComputer :=
  ec_with_ReceivedMessages
    (STARS_RequestFlightPlan stars bcn simTime (ec_ReceivedMessages comp)) comp.


(** ** The registry of computers *)

(** [ERAMComputers.Computers]: the ERAM computers by ARTCC. *)
Abbreviation ERAMComputers := (gmap string ERAMComputer) (only parsing).

(** What [FacilityComputers] returns.  The registry owns the computers: a
    pointer to an ERAM computer is its key in [Computers], a pointer to a
    STARS computer is its key in the [STARSComputers] of that ERAM computer,
    and [None] is the nil pointer. *)
Inductive facility_computers :=
  | Computers_of (eram : string) (stars : option string)
  | Computers_error (err : error)
  | Computers_panic.

(** [ERAMComputers.FacilityComputers]; [TRACONs] is [av.DB.TRACONs], with
    the ARTCC of each TRACON. *)
Definition FacilityComputers (TRACONs : gmap string string)
    (ec : ERAMComputers) (fac : string) : facility_computers :=
  match ec !! fac with
  | Some _ => Computers_of fac None
  | None =>
      match TRACONs !! fac with
      | None => Computers_error ErrUnknownFacility
      | Some artcc =>
          match ec !! artcc with
          | None => Computers_panic
          | Some eram =>
              match ec_STARSComputers eram !! fac with
              | None => Computers_panic
              | Some _ => Computers_of artcc (Some fac)
              end
          end
      end
  end.

(** [ERAMComputers.GetSTARSFlightPlan]; [None] is a panic: the lookup of the
    computers panics, or [GetFlightPlan] runs on the nil pointer that
    [FacilityComputers] returns for an ARTCC, or meets a plan that cannot be
    read. *)
Definition GetSTARSFlightPlan `{Collaborators} (TRACONs : gmap string string)
    (visit : list Squawk) (h : store) (ec : ERAMComputers)
    (tracon identifier : string) : option (loc + error) :=
  match FacilityComputers TRACONs ec tracon with
  | Computers_panic => None
  | Computers_error err => Some (inr err)
  | Computers_of _ None => None
  | Computers_of eram (Some stars) =>
      match ec !! eram ≫= (fun comp => ec_STARSComputers comp !! stars) with
      | Some starsComputer => GetFlightPlan visit h starsComputer identifier
      | None => None
      end
  end.

Definition ti_with_SP1 (sp : string) (t : TrackInformation) :=
  mkTrackInformation (ti_Identifier t) (ti_TrackOwner t) (ti_HandoffController t)
    (ti_FlightPlan t) (ti_PointOut t) (ti_PointOutHistory t)
    (ti_RedirectedHandoff t) sp (ti_SP2 t) (ti_AutoAssociateFP t).
Definition ti_with_SP2 (sp : string) (t : TrackInformation) :=
  mkTrackInformation (ti_Identifier t) (ti_TrackOwner t) (ti_HandoffController t)
    (ti_FlightPlan t) (ti_PointOut t) (ti_PointOutHistory t)
    (ti_RedirectedHandoff t) (ti_SP1 t) sp (ti_AutoAssociateFP t).

(** The body shared by [SetScratchpad] and [SetSecondaryScratchpad]; [set]
    is the write to the field.  The result is the registry with the error
    returned; the write through the nil pointer of an ARTCC, or through the
    nil pointer that the map gives for a callsign without track, panics. *)
Definition set_scratchpad (set : string -> TrackInformation -> TrackInformation)
    (TRACONs : gmap string string) (callsign facility scratchpad : string)
    (ec : ERAMComputers) : outcome (ERAMComputers * option error) :=
  match FacilityComputers TRACONs ec facility with
  | Computers_panic => Panicked (ec, None)
  | Computers_error err => Done (ec, Some err)
  | Computers_of _ None => Panicked (ec, None)
  | Computers_of artcc (Some id) =>
      match ec !! artcc with
      | None => Panicked (ec, None)
      | Some eram =>
          match ec_STARSComputers eram !! id with
          | None => Panicked (ec, None)
          | Some stars =>
              match sc_TrackInformation stars !! callsign with
              | None => Panicked (ec, None)
              | Some trk =>
                  let stars' :=
                    sc_with_TrackInformation
                      (<[callsign := set scratchpad trk]> (sc_TrackInformation stars))
                      stars in
                  Done (<[artcc :=
                          ec_with_STARSComputers
                            (<[id := stars']> (ec_STARSComputers eram)) eram]> ec,
                        None)
              end
          end
      end
  end.

(** [ERAMComputers.SetScratchpad] and [ERAMComputers.SetSecondaryScratchpad]. *)
Definition SetScratchpad := set_scratchpad ti_with_SP1.
Definition SetSecondaryScratchpad := set_scratchpad ti_with_SP2.

(** The track of [callsign] in the STARS computer of [facility], under the
    ERAM computer [artcc]. *)
Definition stars_track (ec : ERAMComputers) (artcc facility callsign : string)
  : option TrackInformation :=
  eram ← ec !! artcc;
  stars ← ec_STARSComputers eram !! facility;
  sc_TrackInformation stars !! callsign.

(** A registry with one ERAM computer, ZNY, over the STARS computer N90 that
    tracks UAL123. *)
Definition sample_registry : gmap string ERAMComputer :=
  {[ "ZNY" :=
       ec_with_STARSComputers
         {[ "N90" := mkSTARSComputer "N90" ∅ [] {[ "UAL123" := track_of "2W" "" None ]} ]}
         (light_eram ∅ [] ∅) ]}.


(** * Theorems *)

(** C4: a message turned into a plan with [FlightPlan] and back with
    [Message] has the squawk (BCN), the route and the altitude of the
    message it came from. *)
Theorem message_plan_roundtrip `{Collaborators} (m : FlightPlanMessage) :
  fpm_BCN (Message (FlightPlan m)) = fpm_BCN m /\
  fpm_Route (Message (FlightPlan m)) = fpm_Route m /\
  fpm_Altitude (Message (FlightPlan m)) = fpm_Altitude m.
Proof. repeat split. Qed.

(** ** Squawk pools *)

Lemma elem_of_add_codes_from (keep : Z -> bool) (l : list Z) (s0 : gset Z) (c : Z) :
  c ∈ foldl (fun (sq : gset Z) i => if keep i then {[i]} ∪ sq else sq) s0 l <->
  c ∈ s0 \/ (c ∈ l /\ keep c = true).
Proof.
  revert s0. induction l as [|i l IH]; intros s0; simpl.
  - split; [by left | by intros [? | [?%elem_of_nil _]]].
  - rewrite IH. destruct (keep i) eqn:Hk.
    + split.
      * intros [[->%elem_of_singleton | Hc]%elem_of_union | [Hc Hkc]].
        -- right. split; [left | done].
        -- by left.
        -- right. split; [by right | done].
      * intros [Hc | [[-> | Hc]%elem_of_cons Hkc]].
        -- left. by apply elem_of_union_r.
        -- left. by apply elem_of_union_l, elem_of_singleton.
        -- by right.
    + split.
      * intros [Hc | [Hc Hkc]]; [by left | right; split; [by right | done]].
      * intros [Hc | [[-> | Hc]%elem_of_cons Hkc]];
          [by left | congruence | by right].
Qed.

Lemma elem_of_add_codes keep lo hi c :
  c ∈ add_codes keep lo hi <-> lo <= c <= hi /\ keep c = true.
Proof.
  unfold add_codes. rewrite elem_of_add_codes_from, elem_of_seqZ.
  split.
  - intros [Hc | [Hc Hk]]; [set_solver | split; [lia | done]].
  - intros [Hc Hk]. right. split; [lia | done].
Qed.

Lemma wrap_int_id z : - 2 ^ 63 <= z < 2 ^ 63 -> wrap_int z = z.
Proof.
  intros Hz. unfold wrap_int.
  rewrite Z.mod_small; lia.
Qed.

(** [bank*0o100], computed in [int], is a multiple of 64. *)
Lemma wrap_int_bank bank :
  exists m, 0 <= m < 2 ^ 58 /\ wrap_int (bank * octal [1;0;0]) = 64 * m - 2 ^ 63.
Proof.
  exists ((bank + 2 ^ 57) mod 2 ^ 58). split; [apply Z.mod_pos_bound; lia|].
  unfold wrap_int. change (octal [1;0;0]) with 64.
  replace (bank * 64 + 2 ^ 63) with (64 * (bank + 2 ^ 57)) by lia.
  change (2 ^ 64) with (64 * 2 ^ 58).
  rewrite Z.mul_mod_distr_l by lia. reflexivity.
Qed.

(** [getBeaconBankSquawks] returns unless the upper bound of its loop is the
    largest [int]; the pool it returns holds the 63 codes between its two
    bounds. *)
Lemma getBeaconBankSquawks_codes bank :
  let base := wrap_int (bank * octal [1;0;0]) in
  match getBeaconBankSquawks bank with
  | None => base + octal [7;7] = MaxInt
  | Some pool =>
      base + octal [7;7] <> MaxInt /\
      pool = list_to_set (seqZ (base + 1) 63)
  end.
Proof.
  intros base. unfold getBeaconBankSquawks. fold base.
  destruct (wrap_int_bank bank) as (m & Hm & Hbase). fold base in Hbase.
  change (octal [7;7]) with 63. unfold MaxInt.
  rewrite (wrap_int_id (base + 1)), (wrap_int_id (base + 63)) by lia.
  case_decide as Hhi; [done|]. split; [done|].
  apply set_eq. intros c.
  rewrite elem_of_add_codes, elem_of_list_to_set, elem_of_seqZ.
  split; [intros [? _]; lia | intros ?; split; [lia|done]].
Qed.

Lemma getBeaconBankSquawks_small bank :
  0 <= bank < octal [1;0;0] ->
  getBeaconBankSquawks bank
    = Some (list_to_set (seqZ (bank * octal [1;0;0] + 1) 63)).
Proof.
  intros Hb. change (octal [1;0;0]) with 64 in *.
  pose proof (getBeaconBankSquawks_codes bank) as Hc. simpl in Hc.
  change (octal [1;0;0]) with 64 in Hc. change (octal [7;7]) with 63 in Hc.
  rewrite (wrap_int_id (bank * 64)) in Hc by lia.
  destruct (getBeaconBankSquawks bank) as [pool|].
  - by destruct Hc as [_ ->].
  - unfold MaxInt in Hc. lia.
Qed.

(** For the NAS pool, and for a bank of two octal digits, the pool is built
    and holds the codes of the configured range. *)
Lemma elem_of_initial_pool `{Collaborators} k :
  match k with NASPool => True | BeaconBank bank => 0 <= bank < octal [1;0;0] end ->
  exists pool,
    initial_pool k = Some pool /\
    forall c, c ∈ pool <-> in_configured_range k c.
Proof.
  destruct k as [|bank]; simpl; intros Hb.
  - eexists. split; [reflexivity|]. intros c.
    unfold getValidSquawkCodes. rewrite elem_of_add_codes.
    rewrite andb_true_iff, !negb_true_iff, Z.eqb_neq. tauto.
  - rewrite (getBeaconBankSquawks_small bank Hb).
    eexists. split; [reflexivity|]. intros c.
    rewrite elem_of_list_to_set, elem_of_seqZ.
    change (octal [7;7]) with 63. lia.
Qed.

Lemma CreateSquawk_ok pick pool sq pool' :
  CreateSquawk pick pool = (inl sq, pool') ->
  sq ∈ pool /\ pool' = pool ∖ {[sq]}.
Proof.
  unfold CreateSquawk. destruct (elements pool) as [|x l] eqn:El; [done|].
  rewrite <- El. intros [= <- <-]. split; [|done].
  apply elem_of_elements, list_elem_of_In, nth_In.
  apply Nat.mod_upper_bound. by rewrite El.
Qed.

Lemma CreateSquawk_error pick pool e pool' :
  CreateSquawk pick pool = (inr e, pool') ->
  pool = ∅ /\ pool' = pool /\ e = ErrNoMoreAvailableSquawkCodes.
Proof.
  unfold CreateSquawk. destruct (elements pool) as [|x l] eqn:El; [|done].
  intros [= <- <-]. by apply elements_empty_inv, leibniz_equiv in El.
Qed.

(** Allocation succeeds exactly when the pool is not empty. *)
Lemma CreateSquawk_total pick pool :
  pool <> ∅ -> exists sq, CreateSquawk pick pool = (inl sq, pool ∖ {[sq]}).
Proof.
  intros Hne. unfold CreateSquawk.
  destruct (elements pool) as [|x l] eqn:El; [|eauto].
  by apply elements_empty_inv, leibniz_equiv in El.
Qed.

(** A pool within a set of codes hands out codes of that set only, as long
    as the codes put back are of that set. *)
Lemma pool_trace_within (P : Squawk -> Prop) ops : forall pool,
  (forall c, c ∈ pool -> P c) ->
  (forall c, Release c ∈ ops -> P c) ->
  forall c, Allocated c ∈ pool_trace pool ops -> P c.
Proof.
  induction ops as [|[pick|sq] ops IH]; intros pool Hpool Hrel c; simpl.
  - by intros ?%elem_of_nil.
  - destruct (CreateSquawk pick pool) as [[sq'|e] pool'] eqn:Hc.
    + apply CreateSquawk_ok in Hc as [Hin ->].
      intros [[= ->] | Hc]%elem_of_cons; [by apply Hpool|].
      eapply IH; [| |exact Hc].
      * intros c' [Hc' _]%elem_of_difference. by apply Hpool.
      * intros c' Hc'. apply Hrel. by right.
    + apply CreateSquawk_error in Hc as (_ & -> & _).
      intros [[=] | Hc]%elem_of_cons.
      eapply IH; [exact Hpool | |exact Hc].
      intros c' Hc'. apply Hrel. by right.
  - intros [[=] | Hc]%elem_of_cons.
    eapply IH; [| |exact Hc].
    + unfold put_squawk. intros c' [->%elem_of_singleton | Hc']%elem_of_union.
      * apply Hrel. by left.
      * by apply Hpool.
    + intros c' Hc'. apply Hrel. by right.
Qed.

(** A code that is not in the pool is not handed out before it is put
    back. *)
Lemma pool_trace_absent ops : forall pool c mid post,
  c ∉ pool ->
  pool_trace pool ops = (mid ++ Allocated c :: post)%list ->
  Released c ∈ mid.
Proof.
  induction ops as [|[pick|sq] ops IH]; intros pool c mid post Hc; simpl.
  - by destruct mid.
  - destruct (CreateSquawk pick pool) as [[sq'|e] pool'] eqn:Hcs.
    + apply CreateSquawk_ok in Hcs as [Hin ->].
      destruct mid as [|ev mid]; simpl.
      * intros [= -> _]. done.
      * intros [= <- Hrest]. right.
        apply (IH (pool ∖ {[sq']}) c mid post); [|done].
        by intros [? _]%elem_of_difference.
    + apply CreateSquawk_error in Hcs as (_ & -> & _).
      destruct mid as [|ev mid]; simpl; [done|].
      intros [= <- Hrest]. right. eapply (IH _ _ _ _ Hc Hrest).
  - destruct mid as [|ev mid]; simpl; [done|].
    intros [= <- Hrest].
    destruct (decide (sq = c)) as [->|Hne]; [by left|].
    right. apply (IH (put_squawk sq pool) c mid post); [|done].
    unfold put_squawk.
    intros [?%elem_of_singleton | ?]%elem_of_union; [congruence | done].
Qed.

Lemma pool_trace_no_repeat ops : forall pool pre mid post c,
  pool_trace pool ops = (pre ++ Allocated c :: mid ++ Allocated c :: post)%list ->
  Released c ∈ mid.
Proof.
  induction ops as [|op ops IH]; intros pool pre mid post c; simpl.
  - by destruct pre.
  - destruct pre as [|ev pre]; simpl.
    + destruct op as [pick|sq]; [|done].
      destruct (CreateSquawk pick pool) as [[sq'|e] pool'] eqn:Hcs; [|done].
      apply CreateSquawk_ok in Hcs as [Hin ->].
      intros [= -> Hrest].
      eapply pool_trace_absent; [|exact Hrest].
      intros [_ Hn]%elem_of_difference. by apply Hn, elem_of_singleton.
    + destruct op as [pick|sq].
      * destruct (CreateSquawk pick pool) as [[sq'|e] pool'];
          intros [= _ Hrest]; eapply IH, Hrest.
      * intros [= _ Hrest]. eapply IH, Hrest.
Qed.

(** The range of [CreateSquawk] may meet any key of the pool first. *)
Lemma CreateSquawk_any (pool : gset Squawk) (c : Squawk) :
  c ∈ pool -> exists pick, CreateSquawk pick pool = (inl c, pool ∖ {[c]}).
Proof.
  intros Hc. apply elem_of_elements, list_elem_of_lookup in Hc as [i Hi].
  exists i. unfold CreateSquawk.
  destruct (elements pool) as [|x l] eqn:El; [done|].
  pose proof (lookup_lt_Some _ _ _ Hi) as Hlt.
  rewrite Nat.mod_small by exact Hlt.
  by rewrite (nth_lookup_Some _ _ x _ Hi).
Qed.

(** A recall for a track that has a plan writes the squawk of the message
    into the pool, whatever that squawk is. *)
Lemma eram_AcceptRecallTransfer_recall `{Collaborators} msg w fixes info plan :
  ea_CoordinationFixes (ec_Adaptation (ew_comp w)) !! fpm_CoordinationFix msg
    = Some fixes ->
  ec_TrackInformation (ew_comp w) !! fpm_Identifier msg = Some info ->
  fpm_TrackOwner msg = ti_TrackOwner info ->
  ti_FlightPlan info ≫= (fun l => ew_plans w !! l) = Some plan ->
  exists w',
    eram_AcceptRecallTransfer msg w = Done w' /\
    ec_AvailableSquawks (ew_comp w')
      = put_squawk (fpm_BCN msg) (ec_AvailableSquawks (ew_comp w)).
Proof.
  intros Hfix Htrk Hown Hplan. unfold eram_AcceptRecallTransfer.
  rewrite Hfix, Htrk, Hplan. rewrite decide_True by done.
  destruct (Fix fixes (sfp_Altitude plan)) as [afix|err]; [|by eexists].
  case_decide; [|by eexists].
  eexists. split; [reflexivity|]. simpl.
  unfold SendMessageToERAM. simpl.
  by destruct (ec_ERAMInboxes (ew_comp w) !! af_FromFacility afix).
Qed.

(** C1 (as amended): the pool of a computer (the NAS pool of an ERAM
    computer, the beacon-bank pool of STARS computers for a bank of two
    octal digits) is built, and over any history of allocations and of
    writes of codes back into it: if every code written back is a code of
    the range the pool is configured with, so is every code handed out; and
    a code handed out is not handed out again unless it was written back in
    between. *)
Theorem squawk_allocation_exclusive `{Collaborators} (k : pool_kind) (ops : list pool_op) :
  match k with NASPool => True | BeaconBank bank => 0 <= bank < octal [1;0;0] end ->
  exists pool,
    initial_pool k = Some pool /\
    ((forall c, Release c ∈ ops -> in_configured_range k c) ->
     forall c, Allocated c ∈ pool_trace pool ops -> in_configured_range k c) /\
    (forall pre mid post c,
       pool_trace pool ops
         = (pre ++ Allocated c :: mid ++ Allocated c :: post)%list ->
       Released c ∈ mid).
Proof.
  intros Hbank.
  destruct (elem_of_initial_pool k Hbank) as (pool & Hpool & Hrange).
  exists pool. split; [exact Hpool|]. split.
  - intros Hrel. apply pool_trace_within; [|exact Hrel].
    intros c. apply Hrange.
  - intros pre mid post c. apply pool_trace_no_repeat.
Qed.

(** Bank 12: a code is taken, 1205 is written back, a code is taken. *)
Lemma squawk_allocation_exclusive_witness :
  0 <= octal [1;2] < octal [1;0;0] /\
  exists pool,
    initial_pool (H := sample) (BeaconBank (octal [1;2])) = Some pool /\
    (forall c,
       Allocated c ∈ pool_trace pool
                       [Allocate 0; Release (octal [1;2;0;5]); Allocate 3] ->
       in_configured_range (H := sample) (BeaconBank (octal [1;2])) c) /\
    (forall pre mid post c,
       pool_trace pool [Allocate 0; Release (octal [1;2;0;5]); Allocate 3]
         = (pre ++ Allocated c :: mid ++ Allocated c :: post)%list ->
       Released c ∈ mid).
Proof.
  split; [unfold octal; simpl; lia|].
  destruct (squawk_allocation_exclusive (H := sample) (BeaconBank (octal [1;2]))
              [Allocate 0; Release (octal [1;2;0;5]); Allocate 3])
    as (pool & Hpool & Hrange & Honce).
  - unfold octal; simpl; lia.
  - exists pool. split; [exact Hpool|]. split; [|exact Honce].
    apply Hrange. intros c Hin.
    apply elem_of_cons in Hin as [Hin|Hin]; [discriminate|].
    apply elem_of_cons in Hin as [Hin|Hin].
    + injection Hin as ->. unfold in_configured_range, octal; simpl; lia.
    + apply elem_of_cons in Hin as [Hin|Hin]; [discriminate|].
      by apply elem_of_nil in Hin.
Defined.

(** C1, as stated, fails: nothing checks a code that is written back into a
    pool.  ZNY has its NAS pool as built and tracks UAL123, a flight on the
    VFR code 1200, for the controller 1N.  The recall of that track by 1N
    writes 1200 into the pool, and an allocation can then return it,
    although 1200 is not a code of the range of the pool. *)
Lemma squawk_allocation_counterexample :
  exists w' pick,
    ec_AvailableSquawks (ew_comp sample_recall_world)
      = getValidSquawkCodes (H := sample) /\
    eram_AcceptRecallTransfer (H := sample) sample_recall sample_recall_world
      = Done w' /\
    fst (CreateSquawk pick (ec_AvailableSquawks (ew_comp w')))
      = inl (octal [1;2;0;0]) /\
    ~ in_configured_range (H := sample) NASPool (octal [1;2;0;0]).
Proof.
  unfold sample_recall_world.
  generalize (getValidSquawkCodes (H := sample)). intros pool.
  destruct (eram_AcceptRecallTransfer_recall (H := sample) sample_recall
              (mkERAMWorld
                 {[ 1%positive := sample_plan "UAL123" "MERIT" (octal [1;2;0;0]) Hour ]}
                 (ec_with_AvailableSquawks pool
                    (light_eram ∅ []
                       {[ "UAL123" := track_of "1N" "" (Some 1%positive) ]})))
              [mkAdaptationFix "MERIT" "route" "N90" "ZNY" (0, 600)]
              (track_of "1N" "" (Some 1%positive))
              (sample_plan "UAL123" "MERIT" (octal [1;2;0;0]) Hour))
    as (w' & Hrun & Hpool); [reflexivity..|].
  destruct (CreateSquawk_any (ec_AvailableSquawks (ew_comp w')) (octal [1;2;0;0]))
    as [pick Hpick].
  { rewrite Hpool. unfold put_squawk.
    apply elem_of_union_l, elem_of_singleton. reflexivity. }
  exists w', pick. split; [reflexivity|]. split; [exact Hrun|].
  split; [by rewrite Hpick|].
  intros (_ & _ & Hne). by apply Hne.
Qed.

(** ** STARS computer *)

(** C2: an [AcceptRecallTransfer] message met by the sort of a STARS
    computer is ignored when the computer has no track for the identifier
    of the message; with a track whose owner is the owner in the message,
    the track is deleted (recall); with a track of another owner, the owner
    becomes the one in the message and the handoff controller is emptied
    (accept).  Nothing else changes. *)
Theorem stars_accept_recall (w : STARSWorld) (msg : FlightPlanMessage) :
  fpm_MessageType msg = AcceptRecallTransfer ->
  let tracks := sc_TrackInformation (sw_comp w) in
  let w' := stars_sort_message w msg in
  match tracks !! fpm_Identifier msg with
  | None => w' = w
  | Some info =>
      sw_plans w' = sw_plans w /\ sw_events w' = sw_events w /\
      sc_ContainedPlans (sw_comp w') = sc_ContainedPlans (sw_comp w) /\
      sc_ReceivedMessages (sw_comp w') = sc_ReceivedMessages (sw_comp w) /\
      (forall id, id <> fpm_Identifier msg ->
         sc_TrackInformation (sw_comp w') !! id = tracks !! id) /\
      sc_TrackInformation (sw_comp w') !! fpm_Identifier msg =
        if decide (fpm_TrackOwner msg = ti_TrackOwner info) then None
        else Some (ti_with_HandoffController ""
                     (ti_with_TrackOwner (fpm_TrackOwner msg) info))
  end.
Proof.
  intros Hty. unfold stars_sort_message. rewrite Hty.
  repeat (case_decide; [discriminate|]). clear.
  simpl. unfold stars_AcceptRecallTransfer.
  destruct (sc_TrackInformation (sw_comp w) !! fpm_Identifier msg) as [info|] eqn:Hi;
    [|done].
  destruct (decide (fpm_TrackOwner msg <> ti_TrackOwner info)) as [Hne|Heq]; simpl.
  - repeat split; try done.
    + intros id Hid. by rewrite lookup_insert_ne.
    + rewrite lookup_insert_eq. by rewrite decide_False.
  - repeat split; try done.
    + intros id Hid. by rewrite lookup_delete_ne.
    + rewrite lookup_delete_eq. rewrite decide_True; [done|].
      by destruct (decide (fpm_TrackOwner msg = ti_TrackOwner info)).
Qed.

Lemma stars_accept_recall_witness :
  sc_TrackInformation
    (sw_comp (stars_sort_message sample_tracking
                (sample_message AcceptRecallTransfer "UAL123" (octal [4;3;2;1])
                   "1N" ""))) !! "UAL123"
  = Some (track_of "1N" "" None).
Proof.
  pose proof (stars_accept_recall sample_tracking
                (sample_message AcceptRecallTransfer "UAL123" (octal [4;3;2;1])
                   "1N" "") eq_refl) as Hw.
  simpl in Hw.
  change (sc_TrackInformation (sw_comp sample_tracking) !! "UAL123")
    with (Some (track_of "2W" "1N" None)) in Hw.
  destruct Hw as (_ & _ & _ & _ & _ & Hw). exact Hw.
Defined.

(** C3: an [InitiateTransfer] message met by the sort of a STARS computer
    that holds a plan under the squawk of the message makes a track from
    that plan, takes the plan out of the table of contained plans and posts
    a transfer-accepted event; with neither such a plan (no entry under the
    squawk, or an entry that is nil) nor a track for the identifier, a
    transfer-rejected event is posted and nothing else changes. *)
Theorem stars_initiate_transfer (w : STARSWorld) (msg : FlightPlanMessage) :
  fpm_MessageType msg = InitiateTransfer ->
  let comp := sw_comp w in
  let w' := stars_sort_message w msg in
  (forall fp, sc_ContainedPlans comp !! fpm_BCN msg = Some fp ->
     is_Some (sw_plans w !! fp) ->
     sc_TrackInformation (sw_comp w') !! fpm_Identifier msg
       = Some (track_of (fpm_TrackOwner msg) (fpm_HandoffController msg) (Some fp)) /\
     sc_ContainedPlans (sw_comp w') = delete (fpm_BCN msg) (sc_ContainedPlans comp) /\
     sc_ContainedPlans (sw_comp w') !! fpm_BCN msg = None /\
     sw_plans w' = sw_plans w /\
     sw_events w' =
       (sw_events w ++ [mkEvent TransferAcceptedEvent (fpm_Identifier msg)
                          (fpm_TrackOwner msg)])%list) /\
  ((forall fp, sc_ContainedPlans comp !! fpm_BCN msg = Some fp ->
      sw_plans w !! fp = None) ->
   sc_TrackInformation comp !! fpm_Identifier msg = None ->
     sw_events w' =
       (sw_events w ++ [mkEvent TransferRejectedEvent (fpm_Identifier msg)
                          (fpm_TrackOwner msg)])%list /\
     sw_comp w' = comp /\ sw_plans w' = sw_plans w).
Proof.
  intros Hty. unfold stars_sort_message. rewrite Hty.
  repeat (case_decide; [discriminate|]).
  rewrite decide_True by done. clear.
  simpl. unfold stars_InitiateTransfer. split.
  - intros fp -> Hfp. rewrite decide_True by exact Hfp. simpl. repeat split.
    + apply lookup_insert_eq.
    + apply lookup_delete_eq.
  - intros Hnil ->.
    destruct (sc_ContainedPlans (sw_comp w) !! fpm_BCN msg) as [fp|]; [|done].
    rewrite decide_False; [done|].
    rewrite (Hnil fp eq_refl). by intros [? ?].
Qed.

(** N90 holds the plan of squawk 4321: the transfer takes it out of the
    table. *)
Lemma stars_initiate_transfer_witness :
  sc_ContainedPlans
    (sw_comp (stars_sort_message sample_tracking
                (sample_message InitiateTransfer "UAL123" (octal [4;3;2;1])
                   "1N" "2W"))) !! octal [4;3;2;1] = None.
Proof.
  pose proof (stars_initiate_transfer sample_tracking
                (sample_message InitiateTransfer "UAL123" (octal [4;3;2;1])
                   "1N" "2W") eq_refl) as [Hheld _].
  destruct (Hheld 1%positive eq_refl) as (_ & _ & Hgone & _).
  - by eexists.
  - exact Hgone.
Defined.

(** C10: for an identifier that parses as a squawk, [GetFlightPlan] answers
    from the table keyed by squawk alone: the plan stored under that squawk,
    or the no-matching-flight error, whatever the callsigns of the plans
    held; the search by callsign runs only for an identifier that does not
    parse as a squawk. *)
Theorem get_flight_plan_by_squawk `{Collaborators} (visit : list Squawk) (h : store)
    (comp : STARSComputer) (identifier : string) :
  (forall squawk, ParseSquawk identifier = Some squawk ->
     GetFlightPlan visit h comp identifier =
       match sc_ContainedPlans comp !! squawk with
       | Some fp => Some (inl fp)
       | None => Some (inr ErrNoMatchingFlight)
       end) /\
  (ParseSquawk identifier = None ->
     GetFlightPlan visit h comp identifier =
       find_callsign h (sc_ContainedPlans comp) identifier visit).
Proof.
  unfold GetFlightPlan. split.
  - by intros squawk ->.
  - by intros ->.
Qed.

(** The plan held for the callsign "1234" is not found by the identifier
    "1234", which is read as a squawk. *)
Lemma get_flight_plan_by_squawk_witness :
  GetFlightPlan (H := sample) [octal [4;3;2;1]] sample_store sample_stars "1234"
    = Some (inr ErrNoMatchingFlight) /\
  find_callsign sample_store (sc_ContainedPlans sample_stars) "1234" [octal [4;3;2;1]]
    = Some (inl 1%positive).
Proof.
  split.
  - exact (proj1 (get_flight_plan_by_squawk (H := sample) [octal [4;3;2;1]]
                    sample_store sample_stars "1234")
             (octal [1;2;3;4]) eq_refl).
  - reflexivity.
Defined.

(** ** ERAM computer: what the sends leave alone *)

Lemma ToSTARSFacility_fields facility msg comp :
  let comp' := fst (ToSTARSFacility facility msg comp) in
  ec_ReceivedMessages comp' = ec_ReceivedMessages comp /\
  ec_FlightPlans comp' = ec_FlightPlans comp /\
  ec_TrackInformation comp' = ec_TrackInformation comp /\
  ec_AvailableSquawks comp' = ec_AvailableSquawks comp /\
  ec_Identifier comp' = ec_Identifier comp /\
  ec_Adaptation comp' = ec_Adaptation comp /\
  ec_ERAMInboxes comp' = ec_ERAMInboxes comp.
Proof.
  unfold ToSTARSFacility.
  by destruct (ec_STARSComputers comp !! facility).
Qed.

Lemma SendMessageToERAM_fields facility msg comp :
  let comp' := fst (SendMessageToERAM facility msg comp) in
  ec_ReceivedMessages comp' = ec_ReceivedMessages comp /\
  ec_FlightPlans comp' = ec_FlightPlans comp /\
  ec_TrackInformation comp' = ec_TrackInformation comp /\
  ec_AvailableSquawks comp' = ec_AvailableSquawks comp /\
  ec_Identifier comp' = ec_Identifier comp /\
  ec_Adaptation comp' = ec_Adaptation comp /\
  ec_STARSComputers comp' = ec_STARSComputers comp.
Proof.
  unfold SendMessageToERAM.
  by destruct (ec_ERAMInboxes comp !! facility).
Qed.

(** C6: a [Plan] message with squawk zero is rejected by both kinds of
    computer: the sort of an ERAM computer panics on it before it writes
    anything, the sort of a STARS computer skips it; the table of flight
    plans of the computer is as it was. *)
Theorem zero_squawk_plan_rejected `{Collaborators} (simTime : Time) (visit : list string)
    (msg : FlightPlanMessage) (we : ERAMWorld) (ws : STARSWorld) :
  fpm_MessageType msg = Plan ->
  fpm_BCN msg = 0 ->
  eram_sort_message simTime visit msg we = Panicked we /\
  stars_sort_message ws msg = ws.
Proof.
  intros Hty Hz. split.
  - unfold eram_sort_message. rewrite decide_True by done.
    unfold eram_Plan. simpl. by rewrite decide_True.
  - unfold stars_sort_message. rewrite decide_True by done.
    by rewrite decide_False by (intros Hne; by apply Hne).
Qed.

Lemma zero_squawk_plan_rejected_witness :
  let msg := sample_message Plan "UAL123" 0 "" "" in
  let we := mkERAMWorld ∅ (small_eram ∅ [msg]) in
  eram_sort_message (H := sample) 0 [] msg we = Panicked we /\
  stars_sort_message sample_tracking msg = sample_tracking.
Proof.
  intros msg we.
  exact (zero_squawk_plan_rejected (H := sample) 0 [] msg we sample_tracking
           eq_refl eq_refl).
Defined.

(** ** ERAM computer: the [InitiateTransfer] case *)

Lemma eram_InitiateTransfer_fixes_inv `{Collaborators} simTime visit pool plans fp0 :
  forall msg w,
    transfer_inv (fpm_Identifier msg) (fpm_TrackOwner msg)
      (fpm_HandoffController msg) (fpm_BCN msg) pool plans fp0 w ->
    match eram_InitiateTransfer_fixes simTime visit msg w with
    | Done w' | Panicked w' =>
        transfer_inv (fpm_Identifier msg) (fpm_TrackOwner msg)
          (fpm_HandoffController msg) (fpm_BCN msg) pool plans fp0 w'
    end.
Proof.
  induction visit as [|name visit IH]; intros msg w Hinv; simpl; [done|].
  destruct (ea_CoordinationFixes (ec_Adaptation (ew_comp w)) !! name)
    as [fixes|]; [|by apply IH].
  destruct (ec_TrackInformation (ew_comp w) !! fpm_Identifier msg)
    as [info|] eqn:Hinfo; [|done].
  destruct (ti_FlightPlan info ≫= _) as [plan|]; [|done].
  destruct (Fix fixes (sfp_Altitude plan)) as [afix|err]; [|by apply IH].
  case_decide; [|by apply IH].
  destruct Hinv as (Hpool & Hplans & info' & Hinfo' & Hown & Hho & Hfp).
  case_decide.
  - apply (IH (fpm_with_SourceID _ msg)).
    unfold transfer_inv; simpl.
    destruct (starts_with_Z (af_ToFacility afix)).
    + pose proof (SendMessageToERAM_fields (af_ToFacility afix)
                    (fpm_with_SourceID
                       (formatSourceID (ec_Identifier (ew_comp w)) simTime) msg)
                    (ew_comp w)) as (_ & -> & -> & -> & _).
      eauto 10.
    + pose proof (ToSTARSFacility_fields (af_ToFacility afix)
                    (fpm_with_SourceID
                       (formatSourceID (ec_Identifier (ew_comp w)) simTime) msg)
                    (ew_comp w)) as (_ & -> & -> & -> & _).
      eauto 10.
  - apply IH. unfold transfer_inv; simpl.
    split; [done|]. split; [done|].
    eexists. rewrite lookup_insert_eq. split; [done|].
    simpl. rewrite Hplans. auto.
Qed.

(** C7: what the [InitiateTransfer] case of the ERAM sort leaves, whether
    it returns or panics in its loop over the coordination fixes: a track
    for the identifier of the message, with the owner and the handoff
    controller of the message and, when there was no track before, the plan
    stored under the squawk of the message; and the squawk of the message
    as a key of the map of available squawks -- the squawk is put in the
    pool, not taken out of it. *)
Theorem eram_initiate_transfer `{Collaborators} (simTime : Time) (visit : list string)
    (msg : FlightPlanMessage) (w : ERAMWorld) :
  match eram_InitiateTransfer simTime visit msg w with
  | Done w' | Panicked w' =>
      fpm_BCN msg ∈ ec_AvailableSquawks (ew_comp w') /\
      exists info,
        ec_TrackInformation (ew_comp w') !! fpm_Identifier msg = Some info /\
        ti_TrackOwner info = fpm_TrackOwner msg /\
        ti_HandoffController info = fpm_HandoffController msg /\
        (ec_TrackInformation (ew_comp w) !! fpm_Identifier msg = None ->
         ti_FlightPlan info = ec_FlightPlans (ew_comp w) !! fpm_BCN msg)
  end.
Proof.
  unfold eram_InitiateTransfer.
  set (w1 := mkERAMWorld _ _).
  assert (Hinv : transfer_inv (fpm_Identifier msg) (fpm_TrackOwner msg)
                   (fpm_HandoffController msg) (fpm_BCN msg)
                   (put_squawk (fpm_BCN msg) (ec_AvailableSquawks (ew_comp w)))
                   (ec_FlightPlans (ew_comp w))
                   (match ec_TrackInformation (ew_comp w) !! fpm_Identifier msg with
                    | Some info => ti_FlightPlan info
                    | None => ec_FlightPlans (ew_comp w) !! fpm_BCN msg
                    end) w1).
  { unfold transfer_inv, w1; simpl. split; [done|]. split; [done|].
    eexists. rewrite lookup_insert_eq. split; [done|]. simpl.
    split; [done|]. split; [done|]. left.
    by destruct (ec_TrackInformation (ew_comp w) !! fpm_Identifier msg). }
  apply (eram_InitiateTransfer_fixes_inv simTime visit) in Hinv.
  assert (Hgoal : forall w', transfer_inv (fpm_Identifier msg) (fpm_TrackOwner msg)
                   (fpm_HandoffController msg) (fpm_BCN msg)
                   (put_squawk (fpm_BCN msg) (ec_AvailableSquawks (ew_comp w)))
                   (ec_FlightPlans (ew_comp w))
                   (match ec_TrackInformation (ew_comp w) !! fpm_Identifier msg with
                    | Some info => ti_FlightPlan info
                    | None => ec_FlightPlans (ew_comp w) !! fpm_BCN msg
                    end) w' ->
      fpm_BCN msg ∈ ec_AvailableSquawks (ew_comp w') /\
      exists info,
        ec_TrackInformation (ew_comp w') !! fpm_Identifier msg = Some info /\
        ti_TrackOwner info = fpm_TrackOwner msg /\
        ti_HandoffController info = fpm_HandoffController msg /\
        (ec_TrackInformation (ew_comp w) !! fpm_Identifier msg = None ->
         ti_FlightPlan info = ec_FlightPlans (ew_comp w) !! fpm_BCN msg)).
  { intros w' (Hpool & Hplans & info & Hinfo & Hown & Hho & Hfp). split.
    - rewrite Hpool. unfold put_squawk. apply elem_of_union_l, elem_of_singleton.
      done.
    - exists info. repeat split; try done.
      intros Hnone. rewrite Hnone in Hfp. by destruct Hfp. }
  destruct (eram_InitiateTransfer_fixes simTime visit msg w1); by apply Hgoal.
Qed.

(** ZNY has handed out squawk 4321 to UAL123 and holds its plan; N90
    initiates the transfer of the track.  After the message is sorted, 4321
    is a key of the map of available squawks again. *)
Example eram_initiate_transfer_run :
  (octal [4;3;2;1] ∉ ec_AvailableSquawks (ew_comp sample_transfer_world)) /\
  exists w',
    eram_sort_message (H := sample) 0 ["MERIT"; "ROBUC"] sample_transfer
      sample_transfer_world = Done w' /\
    ec_AvailableSquawks (ew_comp w')
      = {[ octal [4;3;2;1]; octal [1;0;0;1]; octal [1;0;0;2] ]} /\
    ec_TrackInformation (ew_comp w') !! "UAL123"
      = Some (track_of "1N" "2W" (Some 1%positive)).
Proof.
  split.
  - vm_compute. intros [=].
  - eexists. split; [vm_compute; reflexivity|]. split; vm_compute; reflexivity.
Qed.

(** ** The queues after a sort *)

Lemma clear_slice_replicate q :
  clear_slice q = replicate (List.length q) zeroMessage.
Proof. unfold clear_slice. induction q; simpl; congruence. Qed.

Lemma stars_sort_message_queue w msg :
  sc_ReceivedMessages (sw_comp (stars_sort_message w msg))
    = sc_ReceivedMessages (sw_comp w).
Proof.
  unfold stars_sort_message, stars_store_plan, stars_InitiateTransfer,
    stars_AcceptRecallTransfer.
  repeat case_decide; try done.
  - destruct (sc_ContainedPlans (sw_comp w) !! fpm_BCN msg);
      [case_decide; [done|]|];
      by destruct (sc_TrackInformation (sw_comp w) !! fpm_Identifier msg).
  - destruct (sc_TrackInformation (sw_comp w) !! fpm_Identifier msg); [|done].
    by case_decide.
Qed.

Lemma stars_sort_loop_queue msgs : forall w,
  sc_ReceivedMessages (sw_comp (foldl stars_sort_message w msgs))
    = sc_ReceivedMessages (sw_comp w).
Proof.
  induction msgs as [|msg msgs IH]; intros w; simpl; [done|].
  by rewrite IH, stars_sort_message_queue.
Qed.

Lemma eram_Plan_queue `{Collaborators} msg w w' :
  eram_Plan msg w = Done w' ->
  ec_ReceivedMessages (ew_comp w') = ec_ReceivedMessages (ew_comp w).
Proof.
  unfold eram_Plan. case_decide; [done|]. simpl.
  assert (Hfwd : forall h name,
    match AdaptationFixForAltitude (ec_Adaptation (ew_comp w)) name
            (sfp_Altitude (FlightPlan msg)) with
    | Some af =>
        if decide (af_ToFacility af <> ec_Identifier (ew_comp w))
        then Done (mkERAMWorld h
               (fst (ToSTARSFacility (af_ToFacility af) msg
                       (ec_with_FlightPlans
                          (<[fpm_BCN msg := fresh (dom (ew_plans w))]>
                             (ec_FlightPlans (ew_comp w))) (ew_comp w)))))
        else Done (mkERAMWorld h
               (ec_with_FlightPlans
                  (<[fpm_BCN msg := fresh (dom (ew_plans w))]>
                     (ec_FlightPlans (ew_comp w))) (ew_comp w)))
    | None =>
        Done (mkERAMWorld h
               (ec_with_FlightPlans
                  (<[fpm_BCN msg := fresh (dom (ew_plans w))]>
                     (ec_FlightPlans (ew_comp w))) (ew_comp w)))
    end = Done w' ->
    ec_ReceivedMessages (ew_comp w') = ec_ReceivedMessages (ew_comp w)).
  { intros h name.
    destruct (AdaptationFixForAltitude _ _ _) as [af|]; [|by intros [= <-]].
    case_decide; intros [= <-]; [|done]. simpl.
    by destruct (ToSTARSFacility_fields (af_ToFacility af) msg
                   (ec_with_FlightPlans
                      (<[fpm_BCN msg := fresh (dom (ew_plans w))]>
                         (ec_FlightPlans (ew_comp w))) (ew_comp w))) as [-> _]. }
  case_decide.
  - destruct (FixForRouteAndAltitude _ _ _) as [name [|]].
    + apply Hfwd.
    + by intros [= <-].
  - apply Hfwd.
Qed.

Lemma eram_RequestFlightPlan_queue `{Collaborators} simTime msg w w' :
  eram_RequestFlightPlan simTime msg w = Done w' ->
  ec_ReceivedMessages (ew_comp w') = drop 1 (ec_ReceivedMessages (ew_comp w)).
Proof.
  unfold eram_RequestFlightPlan.
  destruct (_ <? 3)%nat; [done|].
  destruct (ec_FlightPlans (ew_comp w) !! fpm_BCN msg) as [l|].
  - destruct (ew_plans w !! l) as [plan|]; [|done].
    destruct (ToSTARSFacility_fields (substring 0 3 (fpm_SourceID msg))
                (FlightPlanDepartureMessage (sfp_FlightPlan plan)
                   (ec_Identifier (ew_comp w)) simTime) (ew_comp w)) as [Hq _].
    simpl in Hq. rewrite Hq.
    destruct (ec_ReceivedMessages (ew_comp w)); [done|].
    by intros [= <-].
  - destruct (ec_ReceivedMessages (ew_comp w)); [done|].
    by intros [= <-].
Qed.

Lemma eram_InitiateTransfer_fixes_queue `{Collaborators} simTime visit :
  forall msg w w',
    eram_InitiateTransfer_fixes simTime visit msg w = Done w' ->
    ec_ReceivedMessages (ew_comp w') = ec_ReceivedMessages (ew_comp w).
Proof.
  induction visit as [|name visit IH]; intros msg w w'; simpl.
  - by intros [= <-].
  - destruct (ea_CoordinationFixes (ec_Adaptation (ew_comp w)) !! name)
      as [fixes|]; [|by apply IH].
    destruct (ec_TrackInformation (ew_comp w) !! fpm_Identifier msg)
      as [info|]; [|done].
    destruct (ti_FlightPlan info ≫= _) as [plan|]; [|done].
    destruct (Fix fixes (sfp_Altitude plan)) as [afix|err]; [|by apply IH].
    case_decide; [|by apply IH].
    case_decide.
    + intros ->%IH. simpl.
      destruct (starts_with_Z (af_ToFacility afix)).
      * by destruct (SendMessageToERAM_fields (af_ToFacility afix)
                       (fpm_with_SourceID
                          (formatSourceID (ec_Identifier (ew_comp w)) simTime) msg)
                       (ew_comp w)) as [-> _].
      * by destruct (ToSTARSFacility_fields (af_ToFacility afix)
                       (fpm_with_SourceID
                          (formatSourceID (ec_Identifier (ew_comp w)) simTime) msg)
                       (ew_comp w)) as [-> _].
    + by intros ->%IH.
Qed.

Lemma eram_AcceptRecallTransfer_queue `{Collaborators} msg w w' :
  eram_AcceptRecallTransfer msg w = Done w' ->
  ec_ReceivedMessages (ew_comp w') = ec_ReceivedMessages (ew_comp w).
Proof.
  unfold eram_AcceptRecallTransfer.
  destruct (ea_CoordinationFixes _ !! _) as [fixes|]; [|by intros [= <-]].
  destruct (ec_TrackInformation (ew_comp w) !! fpm_Identifier msg)
    as [info|]; [|done].
  destruct (ti_FlightPlan info ≫= _) as [plan|]; [|done].
  set (comp1 := ec_with_TrackInformation _ _).
  assert (Hq : ec_ReceivedMessages comp1 = ec_ReceivedMessages (ew_comp w)).
  { unfold comp1. by case_decide. }
  destruct (Fix fixes (sfp_Altitude plan)) as [afix|err].
  - case_decide; intros [= <-]; simpl; [|done].
    by destruct (SendMessageToERAM_fields (af_FromFacility afix) msg comp1)
      as [-> _].
  - by intros [= <-].
Qed.

Lemma eram_sort_message_queue `{Collaborators} simTime visit msg w w' :
  eram_sort_message simTime visit msg w = Done w' ->
  ec_ReceivedMessages (ew_comp w') =
    if decide (fpm_MessageType msg = RequestFlightPlan)
    then drop 1 (ec_ReceivedMessages (ew_comp w))
    else ec_ReceivedMessages (ew_comp w).
Proof.
  unfold eram_sort_message.
  destruct (decide (fpm_MessageType msg = Plan)) as [Hp|_].
  { rewrite decide_False by (rewrite Hp; discriminate). apply eram_Plan_queue. }
  destruct (decide (fpm_MessageType msg = RequestFlightPlan)) as [_|_].
  { apply eram_RequestFlightPlan_queue. }
  repeat case_decide; try by intros [= <-].
  - unfold eram_InitiateTransfer. by intros ->%eram_InitiateTransfer_fixes_queue.
  - apply eram_AcceptRecallTransfer_queue.
Qed.

Lemma eram_sort_loop_queue `{Collaborators} simTime visits msgs : forall i w w',
  eram_sort_loop simTime visits i msgs w = Done w' ->
  ec_ReceivedMessages (ew_comp w')
    = drop (requests msgs) (ec_ReceivedMessages (ew_comp w)).
Proof.
  unfold requests.
  induction msgs as [|msg msgs IH]; intros i w w'; simpl.
  - by intros [= <-].
  - destruct (eram_sort_message simTime (visits i) msg w) as [w1|w1] eqn:Hm; [|done].
    intros ->%IH. apply eram_sort_message_queue in Hm as ->.
    rewrite filter_cons. case_decide; simpl.
    + by rewrite drop_drop.
    + done.
Qed.

(** C8: what the sort pass leaves in the queue.  [clear] blanks the
    messages and keeps the length of the slice: after the sort of a STARS
    computer the queue holds as many zero messages as it held messages, and
    after a sort of an ERAM computer that returns, as many as it held
    messages that were not requests for a flight plan.  The queue is empty
    after the pass only if it held nothing else. *)
Theorem sort_pass_blanks_queue `{Collaborators} (simTime : Time)
    (visits : nat -> list string) (we : ERAMWorld) (ws : STARSWorld) :
  sc_ReceivedMessages (sw_comp (SortReceivedMessages ws))
    = replicate (List.length (sc_ReceivedMessages (sw_comp ws))) zeroMessage /\
  match SortMessages simTime visits we with
  | Done we' =>
      ec_ReceivedMessages (ew_comp we')
        = replicate (List.length (ec_ReceivedMessages (ew_comp we))
                     - requests (ec_ReceivedMessages (ew_comp we))) zeroMessage
  | Panicked _ => True
  end.
Proof.
  split.
  - unfold SortReceivedMessages. simpl.
    by rewrite clear_slice_replicate, stars_sort_loop_queue.
  - unfold SortMessages.
    destruct (eram_sort_loop _ _ _ _ _) as [w'|w'] eqn:Hl; [|done].
    apply eram_sort_loop_queue in Hl. simpl.
    by rewrite clear_slice_replicate, Hl, length_drop.
Qed.

(** ZNY sorts a queue of one message that it has nothing to do for.  The
    queue then holds one zero message, which the next sort reads as a plan
    with squawk zero. *)
Example blank_message_next_tick :
  exists w1,
    SortMessages (H := sample) 0 (fun _ => [])
      (mkERAMWorld ∅ (small_eram ∅ [sample_message DepartureDM "UAL123" 0 "" ""]))
      = Done w1 /\
    ec_ReceivedMessages (ew_comp w1) = [zeroMessage] /\
    SortMessages (H := sample) Minute (fun _ => []) w1 = Panicked w1.
Proof.
  eexists. split; [vm_compute; reflexivity|]. split; vm_compute; reflexivity.
Qed.

(** ** Timed transmission *)

Lemma slices_Contains_elem_of l x : slices_Contains l x = true <-> x ∈ l.
Proof.
  unfold slices_Contains. rewrite existsb_exists. split.
  - intros (y & Hy%list_elem_of_In & ->%String.eqb_eq). done.
  - intros Hx. exists x. split; [by apply list_elem_of_In | apply String.eqb_refl].
Qed.




Lemma sendPlanIfReady_early `{Collaborators} tracon simTime l w :
  all_early simTime (ew_plans w) ->
  sendPlanIfReady tracon simTime l w = Done w \/
  sendPlanIfReady tracon simTime l w = Panicked w.
Proof.
  intros Hearly. unfold sendPlanIfReady.
  destruct (ew_plans w !! l) as [fp|] eqn:Hfp; [|by right].
  left. apply Hearly in Hfp. unfold TransmitFPMessageTime.
  rewrite decide_True by lia. done.
Qed.

Lemma send_track_plans_early `{Collaborators} tracon simTime visit : forall w,
  all_early simTime (ew_plans w) ->
  match send_track_plans tracon simTime visit w with
  | Done w' | Panicked w' => only_tracks_differ w w'
  end.
Proof.
  induction visit as [|key visit IH]; intros w Hearly; simpl; [done|].
  destruct (ec_TrackInformation (ew_comp w) !! key) as [info|]; [|by apply IH].
  destruct (ti_FlightPlan info) as [l|]; [|by apply IH].
  destruct (ew_plans w !! l) as [fp|] eqn:Hfp; [|done].
  case_decide.
  - specialize (IH (mkERAMWorld (ew_plans w)
                      (ec_with_TrackInformation
                         (delete (ti_Identifier info)
                            (ec_TrackInformation (ew_comp w))) (ew_comp w)))
                  Hearly).
    by destruct (send_track_plans _ _ _ _).
  - destruct (sendPlanIfReady_early tracon simTime l w Hearly) as [-> | ->];
      [by apply IH | done].
Qed.

Lemma send_table_plans_early `{Collaborators} tracon simTime visit : forall w,
  all_early simTime (ew_plans w) ->
  match send_table_plans tracon simTime visit w with
  | Done w' | Panicked w' => only_tracks_differ w w'
  end.
Proof.
  induction visit as [|sq visit IH]; intros w Hearly; simpl; [done|].
  destruct (ec_FlightPlans (ew_comp w) !! sq) as [l|]; [|by apply IH].
  destruct (sendPlanIfReady_early tracon simTime l w Hearly) as [-> | ->];
    [by apply IH | done].
Qed.

(** A tick of the timed transmission at a time when every plan is early
    delivers nothing and records nothing; it may only drop tracks whose plan
    is blank. *)
Lemma SendFlightPlans_early `{Collaborators} tracon simTime visit_tracks visit_plans w :
  all_early simTime (ew_plans w) ->
  match SendFlightPlans tracon simTime visit_tracks visit_plans w with
  | Done w' | Panicked w' => only_tracks_differ w w'
  end.
Proof.
  intros Hearly. unfold SendFlightPlans.
  pose proof (send_track_plans_early tracon simTime visit_tracks w Hearly) as H1.
  destruct (send_track_plans tracon simTime visit_tracks w) as [w1|w1]; [|done].
  destruct H1 as (Hp & Hs & Hi & Hf).
  pose proof (send_table_plans_early tracon simTime visit_plans w1) as H2.
  rewrite Hp in H2. specialize (H2 Hearly).
  destruct (send_table_plans tracon simTime visit_plans w1) as [w2|w2];
    destruct H2 as (Hp2 & Hs2 & Hi2 & Hf2);
    unfold only_tracks_differ; by rewrite Hp2, Hs2, Hi2, Hf2.
Qed.

(** One tick meets the plan of UAL123 twice, from its track and from the
    plan table.  It is one object: it is sent when the track is visited, and
    found sent when the table is.  N90 receives one message, and the tick
    after changes nothing. *)
Example timed_transmission_once :
  exists w1,
    SendFlightPlans (H := sample) "N90" (30 * Minute) ["UAL123"] [octal [4;3;2;1]]
      (sample_timed_world "MERIT") = Done w1 /\
    sc_ReceivedMessages <$> (ec_STARSComputers (ew_comp w1) !! "N90")
      = Some [plan_message (H := sample) (ew_comp (sample_timed_world "MERIT"))
                (30 * Minute) (sample_plan "UAL123" "MERIT" (octal [4;3;2;1]) Hour)] /\
    SendFlightPlans (H := sample) "N90" (31 * Minute) ["UAL123"] [octal [4;3;2;1]] w1
      = Done w1.
Proof.
  eexists. split; [vm_compute; reflexivity|]. split; vm_compute; reflexivity.
Qed.

(** ** Abbreviated flight-plan parser *)

(** C9 (as amended): the fields UAL123, 1234, P35, B738, .V parse to the
    aircraft identifier UAL123, the beacon code that 1234 reads as, the
    aircraft type B738, no type of flight and no departure airport (the
    type-of-flight test takes fields of at most two characters), and no
    error -- when the performance database has B738, the other fields do
    not read as squawks and long entries of scratchpad 1 are not allowed. *)
Theorem parse_abbreviated_example `{Collaborators} (fa : STARSFacilityAdaptation)
    (sq : Squawk) :
  ParseSquawk "1234" = Some sq ->
  ParseSquawk "P35" = None ->
  ParseSquawk "B738" = None ->
  ParseSquawk ".V" = None ->
  AircraftPerformance "B738" = true ->
  fst (fa_AllowLongScratchpad fa) = false ->
  exists o,
    ParseAbbreviatedFPFields fa ["UAL123"; "1234"; "P35"; "B738"; ".V"] = Done o /\
    ab_ACID o = "UAL123" /\
    ab_BCN o = sq /\
    ab_AircraftType o = "B738" /\
    ab_TypeOfFlight o = "" /\
    ab_DepartureAirport o = "" /\
    ab_Error o = None.
Proof.
  intros H1234 HP35 HB738 HV Hdb Hlong.
  unfold ParseAbbreviatedFPFields. simpl.
  unfold parse_field at 1. rewrite H1234.
  unfold parse_fields. fold parse_fields.
  unfold parse_field at 1. rewrite HP35. simpl.
  unfold scratchpad. rewrite Hlong. simpl.
  unfold altitude_or_rules. simpl.
  assert (Hrest : forall o,
    ab_ACID o = "UAL123" -> ab_BCN o = sq -> ab_AircraftType o = "" ->
    ab_TypeOfFlight o = "" -> ab_DepartureAirport o = "" -> ab_Error o = None ->
    exists o',
      parse_fields fa o ["B738"; ".V"] = Done o' /\
      ab_ACID o' = "UAL123" /\ ab_BCN o' = sq /\ ab_AircraftType o' = "B738" /\
      ab_TypeOfFlight o' = "" /\ ab_DepartureAirport o' = "" /\ ab_Error o' = None).
  { intros o Ha Hb Ht Htf Hd He. simpl.
    unfold parse_field at 1. rewrite HB738. simpl.
    unfold scratchpad. rewrite Hlong. simpl.
    unfold aircraft_type. simpl. rewrite Hdb. simpl.
    unfold parse_field. rewrite HV. simpl.
    eexists. split; [reflexivity|]. by repeat split. }
  destruct (IsAllNumbers "P35"); apply Hrest; done.
Qed.

Lemma parse_abbreviated_example_witness :
  exists o,
    ParseAbbreviatedFPFields (H := sample) (mkSTARSFacilityAdaptation (false, false))
      ["UAL123"; "1234"; "P35"; "B738"; ".V"] = Done o /\
    ab_ACID o = "UAL123" /\
    ab_BCN o = octal [1;2;3;4] /\
    ab_AircraftType o = "B738" /\
    ab_TypeOfFlight o = "" /\
    ab_DepartureAirport o = "" /\
    ab_Error o = None.
Proof.
  exact (parse_abbreviated_example (H := sample)
           (mkSTARSFacilityAdaptation (false, false)) (octal [1;2;3;4])
           eq_refl eq_refl eq_refl eq_refl eq_refl eq_refl).
Defined.

(** C9, as stated, fails: with octal squawks and B738 in the performance
    database, the parse of UAL123, 1234, P35, B738, .V returns, but not
    with the type of flight "departure", the airport 35 and the rules VFR. *)
Lemma parse_abbreviated_counterexample :
  exists o,
    ParseAbbreviatedFPFields (H := sample) (mkSTARSFacilityAdaptation (false, false))
      ["UAL123"; "1234"; "P35"; "B738"; ".V"] = Done o /\
    ~ (ab_ACID o = "UAL123" /\
       ab_BCN o = octal [1;2;3;4] /\
       ab_TypeOfFlight o = "departure" /\
       ab_DepartureAirport o = "35" /\
       ab_AircraftType o = "B738" /\
       ab_Rules o = VFR /\
       ab_Error o = None).
Proof.
  eexists. split; [vm_compute; reflexivity|].
  intros (_ & _ & Htf & _). discriminate Htf.
Qed.

(** * Further properties *)

(** ** Flight plan / message conversion *)

Lemma substring_all s : substring 0 (String.length s) s = s.
Proof. induction s as [|a s IH]; simpl; [done|]. by rewrite IH. Qed.

Lemma substring_split n : forall s,
  (n <= String.length s)%nat ->
  substring 0 n s ++ substring n (String.length s - n) s = s.
Proof.
  induction n as [|n IH]; intros s Hn.
  - rewrite Nat.sub_0_r.
    replace (substring 0 0 s) with "" by (by destruct s).
    apply substring_all.
  - destruct s as [|c s]; simpl in *; [lia|].
    transitivity (String c (substring 0 n s ++ substring n (String.length s - n) s));
      [reflexivity|].
    f_equal. apply IH. lia.
Qed.

Lemma substring_0_app e : forall c,
  substring 0 (String.length e) (e ++ c) = e.
Proof.
  induction e as [|a e IH]; intros c; simpl.
  - by destruct c.
  - by rewrite IH.
Qed.

Lemma length_string_app e : forall c,
  String.length (e ++ c) = (String.length e + String.length c)%nat.
Proof. induction e as [|a e IH]; intros c; simpl; [done|]. by rewrite IH. Qed.

Lemma string_from_app e : forall c,
  string_from (String.length e) (e ++ c) = c.
Proof.
  unfold string_from. induction e as [|a e IH]; intros c; simpl.
  - rewrite Nat.sub_0_r. apply substring_all.
  - apply IH.
Qed.

(** X1: what else a message keeps through [FlightPlan] and back through
    [Message], and what it loses: the coordination fix and time and the
    departure and arrival locations are kept; the flight identifier is kept
    when it is longer than three characters and is empty otherwise; the
    source, the message type and the track fields come back as zero values
    and the number of aircraft as 1. *)
Theorem message_plan_roundtrip_rest `{Collaborators} (m : FlightPlanMessage) :
  let m' := Message (FlightPlan m) in
  fpm_CoordinationFix m' = fpm_CoordinationFix m /\
  fpm_CoordinationTime m' = fpm_CoordinationTime m /\
  adm_DepartureLocation (fpm_AircraftData m')
    = adm_DepartureLocation (fpm_AircraftData m) /\
  adm_ArrivalLocation (fpm_AircraftData m')
    = adm_ArrivalLocation (fpm_AircraftData m) /\
  fpm_FlightID m'
    = (if (3 <? String.length (fpm_FlightID m))%nat then fpm_FlightID m else "") /\
  adm_NumberOfAircraft (fpm_AircraftData m') = 1 /\
  fpm_SourceID m' = "" /\
  fpm_MessageType m' = Plan /\
  fpm_TrackInformation m' = zeroTrackInformation.
Proof.
  simpl. repeat split.
  destruct (3 <? String.length (fpm_FlightID m))%nat eqn:Hlen; [|done].
  apply Nat.ltb_lt in Hlen. apply (substring_split 3). lia.
Qed.

(** X2: a plan turned into a message and back keeps its squawk, route,
    airports, coordination fix and time and altitude string; its aircraft
    type comes back without suffix, its rules are read off the altitude
    string (VFR when it contains "VFR", IFR otherwise), and its list of
    facilities already sent to, its type and its scratchpads come back
    empty. *)
Theorem plan_message_roundtrip `{Collaborators} (fp : STARSFlightPlan) :
  let fp' := FlightPlan (Message fp) in
  fp_AssignedSquawk (sfp_FlightPlan fp') = fp_AssignedSquawk (sfp_FlightPlan fp) /\
  fp_Route (sfp_FlightPlan fp') = fp_Route (sfp_FlightPlan fp) /\
  fp_DepartureAirport (sfp_FlightPlan fp') = fp_DepartureAirport (sfp_FlightPlan fp) /\
  fp_ArrivalAirport (sfp_FlightPlan fp') = fp_ArrivalAirport (sfp_FlightPlan fp) /\
  sfp_CoordinationFix fp' = sfp_CoordinationFix fp /\
  sfp_CoordinationTime fp' = sfp_CoordinationTime fp /\
  sfp_Altitude fp' = sfp_Altitude fp /\
  fp_AircraftType (sfp_FlightPlan fp') = TypeWithoutSuffix (sfp_FlightPlan fp) /\
  fp_Rules (sfp_FlightPlan fp')
    = (if strings_Contains (sfp_Altitude fp) "VFR" then VFR else IFR) /\
  sfp_ContainedFacilities fp' = [] /\
  sfp_FlightPlanType fp' = 0 /\
  sfp_SP1 fp' = "" /\ sfp_SP2 fp' = "".
Proof. simpl. repeat split. Qed.

(** X3: the flight identifier of a message is the three-character ECID
    followed by the callsign, and [FlightPlan] splits it back: a plan with an
    ECID of three characters and a callsign that is not empty gets both back
    through [Message] and [FlightPlan]; a plan with no ECID and a callsign of
    at most three characters loses its callsign. *)
Theorem plan_message_roundtrip_callsign `{Collaborators} (fp : STARSFlightPlan) :
  let afp := sfp_FlightPlan fp in
  let afp' := sfp_FlightPlan (FlightPlan (Message fp)) in
  (String.length (fp_ECID afp) = 3%nat -> fp_Callsign afp <> "" ->
   fp_ECID afp' = fp_ECID afp /\ fp_Callsign afp' = fp_Callsign afp) /\
  (fp_ECID afp = "" -> (String.length (fp_Callsign afp) <= 3)%nat ->
   fp_ECID afp' = "" /\ fp_Callsign afp' = "").
Proof.
  simpl. split.
  - intros Hlen Hne.
    assert (Hlong : (3 <? String.length
                            (fp_ECID (sfp_FlightPlan fp)
                             ++ fp_Callsign (sfp_FlightPlan fp)))%nat = true).
    { apply Nat.ltb_lt. rewrite length_string_app, Hlen.
      destruct (fp_Callsign (sfp_FlightPlan fp)); [done|simpl; lia]. }
    rewrite Hlong, <- Hlen. split.
    + apply substring_0_app.
    + apply string_from_app.
  - intros -> Hshort. simpl.
    assert (Hlen : (3 <? String.length (fp_Callsign (sfp_FlightPlan fp)))%nat = false)
      by (apply Nat.ltb_ge; lia).
    change ("" ++ fp_Callsign (sfp_FlightPlan fp))
      with (fp_Callsign (sfp_FlightPlan fp)).
    by rewrite Hlen.
Qed.

Lemma plan_message_roundtrip_callsign_witness :
  fp_ECID (sfp_FlightPlan
             (FlightPlan (Message (H := sample)
                (sample_plan "N1A" "MERIT" (octal [4;3;2;1]) 0)))) = "" /\
  fp_Callsign (sfp_FlightPlan
             (FlightPlan (Message (H := sample)
                (sample_plan "N1A" "MERIT" (octal [4;3;2;1]) 0)))) = "".
Proof.
  apply (plan_message_roundtrip_callsign (H := sample)
           (sample_plan "N1A" "MERIT" (octal [4;3;2;1]) 0)).
  - reflexivity.
  - simpl. lia.
Defined.

(** X4: the reply to a request for a flight plan, made by
    [FlightPlanDepartureMessage] of a plan that came from a message, is a
    [Plan] message with the squawk and the route of that message; its
    altitude is "0", or "VFR/0" when the altitude of the message contained
    "VFR", and its coordination fix is empty. *)
Theorem departure_message_of_received_plan `{Collaborators} (m : FlightPlanMessage)
    (sendingFacility : string) (simTime : Time) :
  let reply :=
    FlightPlanDepartureMessage (sfp_FlightPlan (FlightPlan m)) sendingFacility simTime in
  fpm_MessageType reply = Plan /\
  fpm_SourceID reply = sendingFacility ++ Format1504Z simTime /\
  fpm_BCN reply = fpm_BCN m /\
  fpm_Route reply = fpm_Route m /\
  fpm_Altitude reply
    = (if strings_Contains (fpm_Altitude m) "VFR" then "VFR/0" else "0") /\
  fpm_CoordinationFix reply = "".
Proof.
  simpl. repeat split.
  by destruct (strings_Contains (fpm_Altitude m) "VFR").
Qed.

(** ** Squawk pools: exhaustion *)

Lemma size_after_CreateSquawk (pool : gset Z) sq :
  sq ∈ pool -> size pool = S (size (pool ∖ {[sq]})).
Proof.
  intros Hin.
  rewrite size_difference by (by apply singleton_subseteq_l).
  rewrite size_singleton.
  assert (size pool <> 0%nat); [|lia].
  intros Hz%size_empty_inv. apply Hz in Hin. by apply not_elem_of_empty in Hin.
Qed.

Lemma pool_trace_exhaustion (picks : list nat) : forall pool : gset Squawk,
  exists codes,
    pool_trace pool (Allocate <$> picks)
      = ((Allocated <$> codes)
         ++ replicate (List.length picks - size pool) Exhausted)%list /\
    NoDup codes /\
    (forall c, c ∈ codes -> c ∈ pool) /\
    List.length codes = (List.length picks `min` size pool)%nat.
Proof.
  induction picks as [|pick picks IH]; intros pool.
  - exists []. simpl. repeat split; [constructor | by intros c ?%elem_of_nil].
  - rewrite fmap_cons. cbn [pool_trace List.length].
    destruct (CreateSquawk pick pool) as [[sq|e] pool'] eqn:Hc.
    + apply CreateSquawk_ok in Hc as [Hin ->].
      destruct (IH (pool ∖ {[sq]})) as (codes & Htrace & Hnd & Hsub & Hlen).
      pose proof (size_after_CreateSquawk pool sq Hin) as Hsize.
      exists (sq :: codes). rewrite Htrace, Hsize, fmap_cons.
      cbn [List.length Nat.sub app].
      repeat split.
      * constructor; [|done].
        intros [_ Hn]%Hsub%elem_of_difference. by apply Hn, elem_of_singleton.
      * intros c [-> | Hc%Hsub]%elem_of_cons; [done|].
        by apply elem_of_difference in Hc as [? _].
      * lia.
    + apply CreateSquawk_error in Hc as (-> & -> & _).
      destruct (IH ∅) as (codes & Htrace & Hnd & Hsub & Hlen).
      rewrite size_empty in *. rewrite Nat.min_0_r in Hlen.
      destruct codes; [|done].
      exists []. rewrite Htrace, !Nat.sub_0_r.
      repeat split; [constructor | by intros c ?%elem_of_nil].
Qed.

(** X5: a pool that is only asked for codes hands out codes of its own, each
    once, until it has handed out as many as it held; from then on every
    request fails with the no-more-codes error. *)
Theorem pool_exhaustion (picks : list nat) : forall pool : gset Squawk,
  exists codes,
    pool_trace pool (Allocate <$> picks)
      = ((Allocated <$> codes)
         ++ replicate (List.length picks - size pool) Exhausted)%list /\
    NoDup codes /\
    (forall c, c ∈ codes -> c ∈ pool) /\
    List.length codes = (List.length picks `min` size pool)%nat.
Proof. apply pool_trace_exhaustion. Qed.

(** X6: [getBeaconBankSquawks], in the 64-bit arithmetic of [int], returns
    for every bank but those for which the upper bound of its loop is the
    largest [int], and so for every bank of two octal digits.  The pool it
    returns holds 63 codes: of any number of requests made of a new pool,
    the first 63 are answered with different codes of the pool and all the
    others with the no-more-codes error. *)
Theorem bank_pool_exhaustion (bank : Z) (picks : list nat) :
  match getBeaconBankSquawks bank with
  | None => wrap_int (bank * octal [1;0;0]) + octal [7;7] = MaxInt
  | Some pool =>
      wrap_int (bank * octal [1;0;0]) + octal [7;7] <> MaxInt /\
      size pool = 63%nat /\
      exists codes,
        pool_trace pool (Allocate <$> picks)
          = ((Allocated <$> codes)
             ++ replicate (List.length picks - 63) Exhausted)%list /\
        NoDup codes /\
        (forall c, c ∈ codes -> c ∈ pool) /\
        List.length codes = (List.length picks `min` 63)%nat
  end /\
  (0 <= bank < octal [1;0;0] ->
   getBeaconBankSquawks bank
     = Some (list_to_set (seqZ (bank * octal [1;0;0] + 1) 63))).
Proof.
  split; [|apply getBeaconBankSquawks_small].
  pose proof (getBeaconBankSquawks_codes bank) as Hcodes. cbv zeta in Hcodes.
  destruct (getBeaconBankSquawks bank) as [pool|]; [|exact Hcodes].
  destruct Hcodes as [Hbound Hpool]. split; [exact Hbound|].
  assert (Hsize : size pool = 63%nat).
  { rewrite Hpool, size_list_to_set by apply NoDup_seqZ.
    by rewrite length_seqZ. }
  split; [exact Hsize|].
  destruct (pool_trace_exhaustion picks pool) as (codes & Htrace & Hnd & Hsub & Hlen).
  rewrite Hsize in *. eauto.
Qed.

(** Bank 12 has the 63 codes from 1201 to 1277. *)
Lemma bank_pool_exhaustion_witness :
  0 <= octal [1;2] < octal [1;0;0] /\
  getBeaconBankSquawks (octal [1;2])
    = Some (list_to_set (seqZ (octal [1;2;0;1]) 63)).
Proof.
  split; [unfold octal; simpl; lia|].
  apply (bank_pool_exhaustion (octal [1;2]) []).
  unfold octal; simpl; lia.
Defined.

(** ** STARS computer: plans, events and the pass as a whole *)

Lemma new_plan_fresh (h : gmap positive STARSFlightPlan) fp :
  h !! (new_plan h fp).1 = None /\ (new_plan h fp).2 = <[(new_plan h fp).1 := fp]> h.
Proof.
  unfold new_plan. simpl. split; [|done].
  apply not_elem_of_dom, is_fresh.
Qed.

(** X7: a [Plan] message with a squawk other than zero, and an [Amendment]
    message with any squawk, put the plan of the message in a new cell of
    the store and make the table of contained plans point to it under the
    squawk of the message; the plans stored before, the other entries of the
    table, the tracks and the events are as they were, and [GetFlightPlan]
    of an identifier that reads as that squawk finds the new plan. *)
Theorem stars_plan_stored `{Collaborators} (w : STARSWorld) (msg : FlightPlanMessage) :
  (fpm_MessageType msg = Plan /\ fpm_BCN msg <> 0) \/ fpm_MessageType msg = Amendment ->
  let w' := stars_sort_message w msg in
  exists l,
    sw_plans w !! l = None /\
    sw_plans w' = <[l := FlightPlan msg]> (sw_plans w) /\
    sc_ContainedPlans (sw_comp w')
      = <[fpm_BCN msg := l]> (sc_ContainedPlans (sw_comp w)) /\
    sc_TrackInformation (sw_comp w') = sc_TrackInformation (sw_comp w) /\
    sw_events w' = sw_events w /\
    forall visit identifier,
      ParseSquawk identifier = Some (fpm_BCN msg) ->
      GetFlightPlan visit (sw_plans w') (sw_comp w') identifier = Some (inl l).
Proof.
  intros Hty.
  assert (Hstore : stars_sort_message w msg = stars_store_plan msg w).
  { unfold stars_sort_message. destruct Hty as [[-> Hnz] | ->].
    - rewrite decide_True by done. by rewrite decide_True.
    - rewrite decide_False by done. by rewrite decide_True. }
  simpl. rewrite Hstore. unfold stars_store_plan.
  destruct (new_plan_fresh (sw_plans w) (FlightPlan msg)) as [Hfresh Hnew].
  destruct (new_plan (sw_plans w) (FlightPlan msg)) as [l h]. simpl in *.
  exists l. subst h. repeat split; try done.
  intros visit identifier Hp. unfold GetFlightPlan. rewrite Hp. simpl.
  by rewrite lookup_insert_eq.
Qed.

Lemma stars_plan_stored_witness :
  exists l,
    sc_ContainedPlans
      (sw_comp (stars_sort_message sample_tracking
                  (sample_message Amendment "UAL123" 0 "" ""))) !! 0 = Some l.
Proof.
  destruct (stars_plan_stored (H := sample) sample_tracking
              (sample_message Amendment "UAL123" 0 "" "") (or_intror eq_refl))
    as (l & _ & _ & Htable & _).
  exists l. rewrite Htable. apply lookup_insert_eq.
Defined.

(** X8: a [Cancellation] message takes the entry of its squawk out of the
    table of contained plans and nothing else: the store and the tracks keep
    the plan, no event is posted, and [GetFlightPlan] of an identifier that
    reads as that squawk answers with the no-matching-flight error. *)
Theorem stars_plan_cancelled `{Collaborators} (w : STARSWorld) (msg : FlightPlanMessage) :
  fpm_MessageType msg = Cancellation ->
  let w' := stars_sort_message w msg in
  sc_ContainedPlans (sw_comp w')
    = delete (fpm_BCN msg) (sc_ContainedPlans (sw_comp w)) /\
  sw_plans w' = sw_plans w /\
  sc_TrackInformation (sw_comp w') = sc_TrackInformation (sw_comp w) /\
  sw_events w' = sw_events w /\
  forall visit identifier,
    ParseSquawk identifier = Some (fpm_BCN msg) ->
    GetFlightPlan visit (sw_plans w') (sw_comp w') identifier
      = Some (inr ErrNoMatchingFlight).
Proof.
  intros Hty. unfold stars_sort_message. rewrite Hty.
  repeat (case_decide; [discriminate|]). rewrite decide_True by done.
  simpl. repeat split.
  intros visit identifier Hp. unfold GetFlightPlan. rewrite Hp. simpl.
  by rewrite lookup_delete_eq.
Qed.

Lemma stars_plan_cancelled_witness :
  GetFlightPlan (H := sample) [] sample_store
    (sw_comp (stars_sort_message sample_tracking
                (sample_message Cancellation "UAL123" (octal [4;3;2;1]) "" "")))
    "4321"
  = Some (inr ErrNoMatchingFlight).
Proof.
  exact (proj2 (proj2 (proj2 (proj2
           (stars_plan_cancelled (H := sample) sample_tracking
              (sample_message Cancellation "UAL123" (octal [4;3;2;1]) "" "")
              eq_refl)))) [] "4321" eq_refl).
Defined.

(** X9: an [InitiateTransfer] message for a track the computer has, under a
    squawk it holds no plan for, is accepted too: the track is made anew
    with the owner and the handoff controller of the message and the plan
    of the old track, and with every other field of the old track
    (scratchpads, point out) blank. *)
Theorem stars_initiate_transfer_tracked (w : STARSWorld) (msg : FlightPlanMessage)
    (trk : TrackInformation) :
  fpm_MessageType msg = InitiateTransfer ->
  sc_ContainedPlans (sw_comp w) !! fpm_BCN msg = None ->
  sc_TrackInformation (sw_comp w) !! fpm_Identifier msg = Some trk ->
  let w' := stars_sort_message w msg in
  sc_TrackInformation (sw_comp w') !! fpm_Identifier msg
    = Some (track_of (fpm_TrackOwner msg) (fpm_HandoffController msg)
              (ti_FlightPlan trk)) /\
  sc_ContainedPlans (sw_comp w') = sc_ContainedPlans (sw_comp w) /\
  sw_plans w' = sw_plans w /\
  sw_events w' =
    (sw_events w ++ [mkEvent TransferAcceptedEvent (fpm_Identifier msg)
                       (fpm_TrackOwner msg)])%list.
Proof.
  intros Hty Hplan Htrk. unfold stars_sort_message. rewrite Hty.
  repeat (case_decide; [discriminate|]). rewrite decide_True by done.
  simpl. unfold stars_InitiateTransfer. rewrite Hplan, Htrk. simpl.
  repeat split.
  - apply lookup_insert_eq.
  - by apply delete_id.
Qed.

Lemma stars_initiate_transfer_tracked_witness :
  sc_TrackInformation
    (sw_comp (stars_sort_message sample_tracking
                (sample_message InitiateTransfer "UAL123" (octal [1;0;0;1]) "3H" "")))
    !! "UAL123"
  = Some (track_of "3H" "" None).
Proof.
  exact (proj1 (stars_initiate_transfer_tracked sample_tracking
                  (sample_message InitiateTransfer "UAL123" (octal [1;0;0;1]) "3H" "")
                  (track_of "2W" "1N" None) eq_refl eq_refl eq_refl)).
Defined.

Lemma stars_sort_message_store w msg l fp :
  sw_plans w !! l = Some fp ->
  sw_plans (stars_sort_message w msg) !! l = Some fp.
Proof.
  intros Hl.
  assert (Hstore : sw_plans (stars_store_plan msg w) !! l = Some fp).
  { unfold stars_store_plan.
    destruct (new_plan_fresh (sw_plans w) (FlightPlan msg)) as [Hfresh Hnew].
    destruct (new_plan (sw_plans w) (FlightPlan msg)) as [l' h]. simpl in *.
    subst h. rewrite lookup_insert_ne; [done|]. congruence. }
  unfold stars_sort_message, stars_InitiateTransfer, stars_AcceptRecallTransfer.
  repeat case_decide; try done.
  - destruct (sc_ContainedPlans (sw_comp w) !! fpm_BCN msg);
      [case_decide; [done|]|];
      by destruct (sc_TrackInformation (sw_comp w) !! fpm_Identifier msg).
  - destruct (sc_TrackInformation (sw_comp w) !! fpm_Identifier msg); [|done].
    by case_decide.
Qed.

(** X10: the sort of a STARS computer never changes or drops a plan of the
    store: a plan that is in the store before the pass is there, the same,
    after it, whatever the queue holds. *)
Theorem stars_sort_keeps_store (w : STARSWorld) (l : loc) :
  match sw_plans w !! l with
  | Some fp => sw_plans (SortReceivedMessages w) !! l = Some fp
  | None => True
  end.
Proof.
  destruct (sw_plans w !! l) as [fp'|] eqn:Hl; [|done].
  unfold SortReceivedMessages. simpl.
  generalize (sc_ReceivedMessages (sw_comp w)). intros msgs.
  revert w Hl. induction msgs as [|msg msgs IH]; intros w Hl; simpl; [done|].
  by apply IH, stars_sort_message_store.
Qed.

Lemma stars_sort_message_events w msg :
  sw_events (stars_sort_message w msg)
    = (sw_events w
       ++ (if decide (fpm_MessageType msg = InitiateTransfer)
           then [mkEvent
                   (if decide (is_Some (sc_ContainedPlans (sw_comp w) !! fpm_BCN msg
                                        ≫= (fun fp => sw_plans w !! fp))
                               \/ is_Some (sc_TrackInformation (sw_comp w)
                                            !! fpm_Identifier msg))
                    then TransferAcceptedEvent else TransferRejectedEvent)
                   (fpm_Identifier msg) (fpm_TrackOwner msg)]
           else []))%list.
Proof.
  destruct (decide (fpm_MessageType msg = InitiateTransfer)) as [Hit|Hnit].
  - unfold stars_sort_message. rewrite Hit.
    repeat (case_decide; [discriminate|]). rewrite decide_True by done.
    unfold stars_InitiateTransfer.
    destruct (sc_ContainedPlans (sw_comp w) !! fpm_BCN msg) as [fp|];
      cbn [mbind option_bind].
    + destruct (decide (is_Some (sw_plans w !! fp))) as [Hfp|Hnil].
      * rewrite decide_True by (by left). done.
      * destruct (sc_TrackInformation (sw_comp w) !! fpm_Identifier msg) as [trk|].
        -- rewrite decide_True by (right; eauto). done.
        -- rewrite decide_False; [done|]. by intros [? | [? [=]]].
    + destruct (sc_TrackInformation (sw_comp w) !! fpm_Identifier msg) as [trk|].
      * rewrite decide_True by (right; eauto). done.
      * rewrite decide_False; [done|]. by intros [[? [=]] | [? [=]]].
  - rewrite app_nil_r.
    unfold stars_sort_message, stars_store_plan, stars_AcceptRecallTransfer.
    repeat case_decide; try done.
    destruct (sc_TrackInformation (sw_comp w) !! fpm_Identifier msg); [|done].
    by case_decide.
Qed.

(** X11: the sort of a STARS computer posts one event for each
    [InitiateTransfer] message of its queue, in the order of the queue, with
    the identifier and the track owner of the message, after the events that
    were posted before; no other message posts an event. *)
Theorem stars_sort_events (w : STARSWorld) :
  exists evs,
    sw_events (SortReceivedMessages w) = (sw_events w ++ evs)%list /\
    (fun e => (ev_Callsign e, ev_ToController e)) <$> evs
      = transfer_notices (sc_ReceivedMessages (sw_comp w)).
Proof.
  unfold SortReceivedMessages, transfer_notices. simpl.
  generalize (sc_ReceivedMessages (sw_comp w)). intros msgs.
  revert w. induction msgs as [|msg msgs IH]; intros w; simpl.
  - exists []. by rewrite app_nil_r.
  - destruct (IH (stars_sort_message w msg)) as (evs & Hevs & Hmap).
    rewrite Hevs, stars_sort_message_events, filter_cons.
    case_decide.
    + eexists (_ :: evs). rewrite <- app_assoc. split; [done|].
      rewrite !fmap_cons. simpl. by rewrite Hmap.
    + exists evs. by rewrite app_nil_r.
Qed.

Lemma stars_sort_queue (w : STARSWorld) :
  sc_ReceivedMessages (sw_comp (SortReceivedMessages w))
    = replicate (List.length (sc_ReceivedMessages (sw_comp w))) zeroMessage.
Proof.
  unfold SortReceivedMessages. simpl.
  by rewrite clear_slice_replicate, stars_sort_loop_queue.
Qed.

Lemma stars_sort_zero_messages n : forall w,
  foldl stars_sort_message w (replicate n zeroMessage) = w.
Proof. induction n as [|n IH]; intros w; simpl; [done|]. apply IH. Qed.

(** X12: a second sort right after a sort changes nothing: the zero
    messages the first one leaves in the queue are read as plans with squawk
    zero and skipped. *)
Theorem stars_sort_twice (w : STARSWorld) :
  SortReceivedMessages (SortReceivedMessages w) = SortReceivedMessages w.
Proof.
  pose proof (stars_sort_queue w) as Hq.
  remember (SortReceivedMessages w) as w1 eqn:Hw1. clear Hw1.
  unfold SortReceivedMessages. rewrite Hq, stars_sort_zero_messages.
  rewrite clear_slice_replicate, Hq, length_replicate, <- Hq.
  by destruct w1 as [h [id plans q tracks] evs].
Qed.

Lemma find_callsign_found h (plans : gmap Z positive) identifier visit : forall l,
  find_callsign h plans identifier visit = Some (inl l) ->
  exists sq plan,
    sq ∈ visit /\ plans !! sq = Some l /\ h !! l = Some plan /\
    fp_Callsign (sfp_FlightPlan plan) = identifier.
Proof.
  induction visit as [|sq visit IH]; intros l; simpl; [done|].
  destruct (plans !! sq) as [l'|] eqn:Hsq.
  - destruct (h !! l') as [plan|] eqn:Hl'; [|done].
    case_decide.
    + intros [= <-]. exists sq, plan. repeat split; try done. by left.
    + intros (sq' & plan' & Hin & ?)%IH. exists sq', plan'. split; [by right|done].
  - intros (sq' & plan' & Hin & ?)%IH. exists sq', plan'. split; [by right|done].
Qed.

Lemma find_callsign_missing h (plans : gmap Z positive) identifier visit : forall e,
  find_callsign h plans identifier visit = Some (inr e) ->
  e = ErrNoMatchingFlight /\
  forall sq l plan,
    sq ∈ visit -> plans !! sq = Some l -> h !! l = Some plan ->
    fp_Callsign (sfp_FlightPlan plan) <> identifier.
Proof.
  induction visit as [|sq visit IH]; intros e; simpl.
  - intros [= <-]. split; [done|]. by intros ??? ?%elem_of_nil.
  - destruct (plans !! sq) as [l'|] eqn:Hsq.
    + destruct (h !! l') as [plan|] eqn:Hl'; [|done].
      case_decide; [done|].
      intros [-> Hrest]%IH. split; [done|].
      intros sq' l plan' [-> | Hin]%elem_of_cons Hl Hp.
      * congruence.
      * by eapply Hrest.
    + intros [-> Hrest]%IH. split; [done|].
      intros sq' l plan' [-> | Hin]%elem_of_cons Hl Hp.
      * congruence.
      * by eapply Hrest.
Qed.

(** X13: for an identifier that does not read as a squawk, [GetFlightPlan]
    searches the contained plans by callsign: a plan it returns is a
    contained plan with that callsign, and when the visit of the table meets
    every squawk of it, the no-matching-flight error means that no contained
    plan has that callsign. *)
Theorem get_flight_plan_by_callsign `{Collaborators} (visit : list Squawk) (h : store)
    (comp : STARSComputer) (identifier : string) :
  ParseSquawk identifier = None ->
  (forall sq, is_Some (sc_ContainedPlans comp !! sq) -> sq ∈ visit) ->
  match GetFlightPlan visit h comp identifier with
  | Some (inl l) =>
      exists sq plan,
        sc_ContainedPlans comp !! sq = Some l /\ h !! l = Some plan /\
        fp_Callsign (sfp_FlightPlan plan) = identifier
  | Some (inr e) =>
      e = ErrNoMatchingFlight /\
      forall sq l plan,
        sc_ContainedPlans comp !! sq = Some l -> h !! l = Some plan ->
        fp_Callsign (sfp_FlightPlan plan) <> identifier
  | None => True
  end.
Proof.
  intros Hp Hvisit. unfold GetFlightPlan. rewrite Hp.
  destruct (find_callsign h (sc_ContainedPlans comp) identifier visit)
    as [[l|e]|] eqn:Hf; [| |done].
  - apply find_callsign_found in Hf as (sq & plan & _ & ?). eauto.
  - apply find_callsign_missing in Hf as [-> Hrest]. split; [done|].
    intros sq l plan Hl Hplan. eapply Hrest; eauto.
Qed.

Lemma get_flight_plan_by_callsign_witness :
  GetFlightPlan (H := sample) [octal [4;3;2;1]] sample_store sample_stars "UAL9"
    = Some (inr ErrNoMatchingFlight) /\
  (forall sq l plan,
     sc_ContainedPlans sample_stars !! sq = Some l ->
     sample_store !! l = Some plan ->
     fp_Callsign (sfp_FlightPlan plan) <> "UAL9").
Proof.
  split; [reflexivity|].
  assert (Hvisit : forall sq, is_Some (sc_ContainedPlans sample_stars !! sq) ->
                              sq ∈ [octal [4;3;2;1]]).
  { intros sq [l Hl]. unfold sample_stars in Hl. simpl in Hl.
    apply lookup_singleton_Some in Hl as [<- _]. by left. }
  pose proof (get_flight_plan_by_callsign (H := sample) [octal [4;3;2;1]] sample_store
                sample_stars "UAL9" eq_refl Hvisit) as Hw.
  change (GetFlightPlan [octal [4;3;2;1]] sample_store sample_stars "UAL9")
    with (@Some (positive + error) (inr ErrNoMatchingFlight)) in Hw.
  apply Hw.
Defined.

(** ** ERAM computer: sends and transfers *)

(** X14: [SendFlightPlan] reports a plan whose coordination fix is not in
    the adaptation, or does not resolve, with an error and changes nothing;
    when the fix resolves it returns no error and records the destination in
    the list of the plan even if the message was delivered nowhere, which is
    the case when the computer has no STARS computer [tracon] and no inbox
    for the ERAM computer over [tracon]: the computer is then as it was. *)
Theorem send_flight_plan_outcomes `{Collaborators} (l : loc) (tracon : string)
    (simTime : Time) (w : ERAMWorld) (fp : STARSFlightPlan) :
  ew_plans w !! l = Some fp ->
  match ea_CoordinationFixes (ec_Adaptation (ew_comp w)) !! sfp_CoordinationFix fp with
  | None => SendFlightPlan l tracon simTime w = Done (w, Some ErrNoMatchingFix)
  | Some coordFix =>
      match Fix coordFix (sfp_Altitude fp) with
      | inr err => SendFlightPlan l tracon simTime w = Done (w, Some err)
      | inl adaptFix =>
          exists comp',
            SendFlightPlan l tracon simTime w
              = Done (mkERAMWorld
                        (<[l := sfp_with_ContainedFacilities
                                  (sfp_ContainedFacilities fp
                                     ++ [af_ToFacility adaptFix])%list fp]>
                           (ew_plans w))
                        comp', None) /\
            (ec_STARSComputers (ew_comp w) !! tracon = None ->
             ec_ERAMInboxes (ew_comp w) !! TRACON_ARTCC tracon = None ->
             comp' = ew_comp w)
      end
  end.
Proof.
  intros Hfp. unfold SendFlightPlan. rewrite Hfp.
  destruct (ea_CoordinationFixes _ !! _) as [coordFix|]; [|done].
  destruct (Fix coordFix (sfp_Altitude fp)) as [adaptFix|err]; [|done].
  eexists. split; [reflexivity|].
  intros Hs Hi. unfold ToSTARSFacility, SendMessageToERAM. by rewrite Hs, Hi.
Qed.

Lemma send_flight_plan_outcomes_witness :
  SendFlightPlan (H := sample) 1%positive "N90" Hour (sample_timed_world "NOFIX")
    = Done (sample_timed_world "NOFIX", Some ErrNoMatchingFix).
Proof.
  exact (send_flight_plan_outcomes (H := sample) 1%positive "N90" Hour
           (sample_timed_world "NOFIX")
           (sample_plan "UAL123" "NOFIX" (octal [4;3;2;1]) Hour) eq_refl).
Defined.

(** X15: the [AcceptRecallTransfer] case of the ERAM sort, for a message
    whose coordination fix is in the adaptation and whose identifier has a
    track: the owner of the track becomes the owner in the message; the
    squawk of the message is put in the pool exactly when the two owners
    were equal (a recall); the plan table and the store are as they were;
    and the case panics exactly when the track has no plan to read the
    altitude from. *)
Theorem eram_accept_recall `{Collaborators} (msg : FlightPlanMessage) (w : ERAMWorld)
    (fixes : AdaptationFixes) (info : TrackInformation) :
  ea_CoordinationFixes (ec_Adaptation (ew_comp w)) !! fpm_CoordinationFix msg
    = Some fixes ->
  ec_TrackInformation (ew_comp w) !! fpm_Identifier msg = Some info ->
  let after (w' : ERAMWorld) :=
    ec_TrackInformation (ew_comp w')
      = <[fpm_Identifier msg := ti_with_TrackOwner (fpm_TrackOwner msg) info]>
          (ec_TrackInformation (ew_comp w)) /\
    ec_AvailableSquawks (ew_comp w')
      = (if decide (fpm_TrackOwner msg = ti_TrackOwner info)
         then put_squawk (fpm_BCN msg) (ec_AvailableSquawks (ew_comp w))
         else ec_AvailableSquawks (ew_comp w)) /\
    ec_FlightPlans (ew_comp w') = ec_FlightPlans (ew_comp w) /\
    ew_plans w' = ew_plans w in
  match eram_AcceptRecallTransfer msg w with
  | Done w' =>
      after w' /\ is_Some (ti_FlightPlan info ≫= (fun l => ew_plans w !! l))
  | Panicked w' =>
      after w' /\ ti_FlightPlan info ≫= (fun l => ew_plans w !! l) = None
  end.
Proof.
  intros Hfix Hinfo. unfold eram_AcceptRecallTransfer. rewrite Hfix, Hinfo.
  set (comp1 := ec_with_TrackInformation _ _).
  assert (H1 : ec_TrackInformation comp1
               = <[fpm_Identifier msg := ti_with_TrackOwner (fpm_TrackOwner msg) info]>
                   (ec_TrackInformation (ew_comp w))) by done.
  assert (H2 : ec_AvailableSquawks comp1
               = (if decide (fpm_TrackOwner msg = ti_TrackOwner info)
                  then put_squawk (fpm_BCN msg) (ec_AvailableSquawks (ew_comp w))
                  else ec_AvailableSquawks (ew_comp w))).
  { unfold comp1. by case_decide. }
  assert (H3 : ec_FlightPlans comp1 = ec_FlightPlans (ew_comp w)).
  { unfold comp1. by case_decide. }
  destruct (ti_FlightPlan info ≫= _) as [plan|] eqn:Hplan; [|done].
  destruct (Fix fixes (sfp_Altitude plan)) as [afix|err];
    [|by repeat split; simpl; eauto].
  destruct (decide (af_FromFacility afix <> ec_Identifier (ew_comp w)));
    [|by repeat split; simpl; eauto].
  simpl.
  destruct (SendMessageToERAM_fields (af_FromFacility afix) msg comp1)
    as (_ & -> & -> & -> & _).
  by repeat split; simpl; eauto.
Qed.

Lemma eram_accept_recall_witness :
  exists w',
    eram_AcceptRecallTransfer (H := sample)
      (sample_message AcceptRecallTransfer "UAL123" (octal [4;3;2;1]) "1N" "")
      (sample_timed_world "MERIT") = Done w' /\
    ec_AvailableSquawks (ew_comp w')
      = put_squawk (octal [4;3;2;1])
          (ec_AvailableSquawks (ew_comp (sample_timed_world "MERIT"))).
Proof.
  pose proof (eram_accept_recall (H := sample)
                (sample_message AcceptRecallTransfer "UAL123" (octal [4;3;2;1]) "1N" "")
                (sample_timed_world "MERIT")
                [mkAdaptationFix "MERIT" "route" "N90" "ZNY" (0, 600)]
                (track_of "1N" "" (Some 1%positive)) eq_refl eq_refl) as Hw.
  destruct (eram_AcceptRecallTransfer _ _) as [w'|w'] eqn:Hrun.
  - exists w'. split; [done|]. by destruct Hw as [(_ & -> & _) _].
  - exfalso. destruct Hw as [_ Hnone]. discriminate Hnone.
Defined.

(** X16: two edges of the [AcceptRecallTransfer] case of the ERAM sort.  A
    message whose coordination fix is not in the adaptation is dropped
    whole: no owner changes and no squawk is put back.  A message whose fix
    is in the adaptation, for an identifier that has no track, makes the
    sort panic, with the state as it was. *)
Theorem eram_accept_recall_edges `{Collaborators} (msg : FlightPlanMessage)
    (w : ERAMWorld) :
  (ea_CoordinationFixes (ec_Adaptation (ew_comp w)) !! fpm_CoordinationFix msg = None ->
   eram_AcceptRecallTransfer msg w = Done w) /\
  (is_Some (ea_CoordinationFixes (ec_Adaptation (ew_comp w))
              !! fpm_CoordinationFix msg) ->
   ec_TrackInformation (ew_comp w) !! fpm_Identifier msg = None ->
   eram_AcceptRecallTransfer msg w = Panicked w).
Proof.
  unfold eram_AcceptRecallTransfer. split.
  - by intros ->.
  - intros [fixes ->] ->. done.
Qed.

Lemma eram_accept_recall_edges_witness :
  eram_AcceptRecallTransfer (H := sample)
    (sample_message AcceptRecallTransfer "DAL88" (octal [4;3;2;1]) "1N" "")
    (sample_timed_world "MERIT")
  = Panicked (sample_timed_world "MERIT").
Proof.
  apply (eram_accept_recall_edges (H := sample)
           (sample_message AcceptRecallTransfer "DAL88" (octal [4;3;2;1]) "1N" "")
           (sample_timed_world "MERIT")).
  - by eexists.
  - reflexivity.
Defined.

Lemma eram_InitiateTransfer_fixes_skip `{Collaborators} simTime visit : forall msg w,
  (forall name, name ∈ visit ->
     ea_CoordinationFixes (ec_Adaptation (ew_comp w)) !! name = None) ->
  eram_InitiateTransfer_fixes simTime visit msg w = Done w.
Proof.
  induction visit as [|name visit IH]; intros msg w Hnone; simpl; [done|].
  rewrite Hnone by (by left). apply IH. intros name' Hin. apply Hnone. by right.
Qed.

Lemma eram_InitiateTransfer_fixes_no_plan `{Collaborators} simTime visit : forall msg w info,
  ec_TrackInformation (ew_comp w) !! fpm_Identifier msg = Some info ->
  ti_FlightPlan info ≫= (fun l => ew_plans w !! l) = None ->
  (exists name, name ∈ visit /\
     is_Some (ea_CoordinationFixes (ec_Adaptation (ew_comp w)) !! name)) ->
  eram_InitiateTransfer_fixes simTime visit msg w = Panicked w.
Proof.
  induction visit as [|name visit IH]; intros msg w info Hinfo Hplan Hex; simpl.
  - destruct Hex as (name & Hin%elem_of_nil & _). done.
  - destruct (ea_CoordinationFixes (ec_Adaptation (ew_comp w)) !! name)
      as [fixes|] eqn:Hname.
    + by rewrite Hinfo, Hplan.
    + apply (IH msg w info Hinfo Hplan).
      destruct Hex as (name' & [-> | Hin]%elem_of_cons & Hsome).
      * rewrite Hname in Hsome. by destruct Hsome.
      * eauto.
Qed.

(** X17: the [InitiateTransfer] case of the ERAM sort reads the altitude of
    the plan of the track once for every coordination fix of the adaptation.
    If its range over the adaptation meets no fix, the case only makes or
    updates the track and writes the squawk to the pool.  If it meets one
    and the track has no plan to read (a new track for a squawk under which
    no plan is stored, or an old track without plan), the sort panics right
    after those writes. *)
Theorem eram_initiate_transfer_without_plan `{Collaborators} (simTime : Time)
    (visit : list string) (msg : FlightPlanMessage) (w : ERAMWorld) :
  let w1 := mkERAMWorld (ew_plans w) (eram_InitiateTransfer_track msg (ew_comp w)) in
  ((forall name, name ∈ visit ->
      ea_CoordinationFixes (ec_Adaptation (ew_comp w)) !! name = None) ->
   eram_InitiateTransfer simTime visit msg w = Done w1) /\
  ((exists name, name ∈ visit /\
      is_Some (ea_CoordinationFixes (ec_Adaptation (ew_comp w)) !! name)) ->
   match ec_TrackInformation (ew_comp w) !! fpm_Identifier msg with
   | None => ec_FlightPlans (ew_comp w) !! fpm_BCN msg
   | Some info => ti_FlightPlan info
   end ≫= (fun l => ew_plans w !! l) = None ->
   eram_InitiateTransfer simTime visit msg w = Panicked w1).
Proof.
  simpl. unfold eram_InitiateTransfer. split.
  - intros Hnone. by apply eram_InitiateTransfer_fixes_skip.
  - intros Hex Hplan.
    eapply eram_InitiateTransfer_fixes_no_plan; [| |exact Hex].
    + simpl. apply lookup_insert_eq.
    + simpl.
      by destruct (ec_TrackInformation (ew_comp w) !! fpm_Identifier msg).
Qed.

Lemma eram_initiate_transfer_without_plan_witness :
  eram_InitiateTransfer (H := sample) 0 ["MERIT"]
    (sample_message InitiateTransfer "DAL88" (octal [1;0;0;1]) "1N" "")
    (sample_timed_world "MERIT")
  = Panicked
      (mkERAMWorld (ew_plans (sample_timed_world "MERIT"))
         (eram_InitiateTransfer_track
            (sample_message InitiateTransfer "DAL88" (octal [1;0;0;1]) "1N" "")
            (ew_comp (sample_timed_world "MERIT")))).
Proof.
  apply (eram_initiate_transfer_without_plan (H := sample) 0 ["MERIT"]
           (sample_message InitiateTransfer "DAL88" (octal [1;0;0;1]) "1N" "")
           (sample_timed_world "MERIT")).
  - exists "MERIT". split; [by left | by eexists].
  - reflexivity.
Defined.

(** X18: the [Plan] case of the ERAM sort, for a message with a squawk
    other than zero, always returns: the plan of the message enters a new
    cell of the store, with the coordination fix of the message or, when
    that is empty, the fix the adaptation finds for route and altitude; the
    plan table points to it under the squawk; the plans stored before, the
    tracks, the pool, the queue and the inboxes of the peers are as they
    were; and at most one STARS computer receives the message, at the end of
    its queue -- none when the empty fix could not be resolved. *)
Theorem eram_plan_stored `{Collaborators} (msg : FlightPlanMessage) (w : ERAMWorld) :
  fpm_BCN msg <> 0 ->
  let comp := ew_comp w in
  let found :=
    FixForRouteAndAltitude (ec_Adaptation comp) (fpm_Route msg) (fpm_Altitude msg) in
  exists w' l,
    eram_Plan msg w = Done w' /\
    ew_plans w !! l = None /\
    ew_plans w'
      = <[l := sfp_with_CoordinationFix
                 (if decide (fpm_CoordinationFix msg = "") then found.1
                  else fpm_CoordinationFix msg)
                 (FlightPlan msg)]> (ew_plans w) /\
    ec_FlightPlans (ew_comp w') = <[fpm_BCN msg := l]> (ec_FlightPlans comp) /\
    ec_TrackInformation (ew_comp w') = ec_TrackInformation comp /\
    ec_AvailableSquawks (ew_comp w') = ec_AvailableSquawks comp /\
    ec_ReceivedMessages (ew_comp w') = ec_ReceivedMessages comp /\
    ec_ERAMInboxes (ew_comp w') = ec_ERAMInboxes comp /\
    (ec_STARSComputers (ew_comp w') = ec_STARSComputers comp \/
     exists facility stars,
       ec_STARSComputers comp !! facility = Some stars /\
       ec_STARSComputers (ew_comp w')
         = <[facility := sc_with_ReceivedMessages
                           (sc_ReceivedMessages stars ++ [msg])%list stars]>
             (ec_STARSComputers comp)) /\
    (fpm_CoordinationFix msg = "" -> found.2 = false ->
     ec_STARSComputers (ew_comp w') = ec_STARSComputers comp).
Proof.
  intros Hnz comp found. unfold eram_Plan. simpl.
  rewrite decide_False by done.
  destruct (new_plan_fresh (ew_plans w) (FlightPlan msg)) as [Hfresh Hnew].
  assert (Hto : forall facility (c : ERAMComputer),
    ec_FlightPlans (ToSTARSFacility facility msg c).1 = ec_FlightPlans c /\
    ec_TrackInformation (ToSTARSFacility facility msg c).1 = ec_TrackInformation c /\
    ec_AvailableSquawks (ToSTARSFacility facility msg c).1 = ec_AvailableSquawks c /\
    ec_ReceivedMessages (ToSTARSFacility facility msg c).1 = ec_ReceivedMessages c /\
    ec_ERAMInboxes (ToSTARSFacility facility msg c).1 = ec_ERAMInboxes c /\
    (ec_STARSComputers (ToSTARSFacility facility msg c).1 = ec_STARSComputers c \/
     exists fac stars,
       ec_STARSComputers c !! fac = Some stars /\
       ec_STARSComputers (ToSTARSFacility facility msg c).1
         = <[fac := sc_with_ReceivedMessages
                      (sc_ReceivedMessages stars ++ [msg])%list stars]>
             (ec_STARSComputers c))).
  { intros facility c. unfold ToSTARSFacility.
    destruct (ec_STARSComputers c !! facility) as [stars|] eqn:Hs; simpl.
    - do 5 (split; [done|]). right. eauto.
    - do 5 (split; [done|]). by left. }
  set (l := fresh (dom (ew_plans w))) in *. simpl in Hfresh, Hnew.
  pose (comp1 := ec_with_FlightPlans (<[fpm_BCN msg := l]> (ec_FlightPlans comp)) comp).
  assert (Hfwd : forall h' name,
    exists w',
      match AdaptationFixForAltitude (ec_Adaptation comp) name
              (sfp_Altitude (FlightPlan msg)) with
      | Some af =>
          if decide (af_ToFacility af <> ec_Identifier comp)
          then Done (mkERAMWorld h' (ToSTARSFacility (af_ToFacility af) msg comp1).1)
          else Done (mkERAMWorld h' comp1)
      | None => Done (mkERAMWorld h' comp1)
      end = Done w' /\
      ew_plans w' = h' /\
      ec_FlightPlans (ew_comp w') = <[fpm_BCN msg := l]> (ec_FlightPlans comp) /\
      ec_TrackInformation (ew_comp w') = ec_TrackInformation comp /\
      ec_AvailableSquawks (ew_comp w') = ec_AvailableSquawks comp /\
      ec_ReceivedMessages (ew_comp w') = ec_ReceivedMessages comp /\
      ec_ERAMInboxes (ew_comp w') = ec_ERAMInboxes comp /\
      (ec_STARSComputers (ew_comp w') = ec_STARSComputers comp \/
       exists facility stars,
         ec_STARSComputers comp !! facility = Some stars /\
         ec_STARSComputers (ew_comp w')
           = <[facility := sc_with_ReceivedMessages
                             (sc_ReceivedMessages stars ++ [msg])%list stars]>
               (ec_STARSComputers comp))).
  { intros h' name.
    destruct (AdaptationFixForAltitude _ _ _) as [af|].
    - case_decide.
      + eexists. split; [reflexivity|]. simpl.
        destruct (Hto (af_ToFacility af) comp1) as (-> & -> & -> & -> & -> & Hs).
        repeat split; done.
      + eexists. split; [reflexivity|]. simpl. repeat split; by left.
    - eexists. split; [reflexivity|]. simpl. repeat split; by left. }
  change (sfp_CoordinationFix (FlightPlan msg)) with (fpm_CoordinationFix msg).
  destruct (decide (fpm_CoordinationFix msg = "")) as [Hempty|Hfix].
  - change (fp_Route (sfp_FlightPlan (FlightPlan msg))) with (fpm_Route msg).
    change (sfp_Altitude (FlightPlan msg)) with (fpm_Altitude msg).
    fold comp. fold found. destruct found as [name [|]] eqn:Hfound; simpl.
    + destruct (Hfwd (<[l := sfp_with_CoordinationFix name (FlightPlan msg)]>
                        (<[l := FlightPlan msg]> (ew_plans w))) name)
        as (w' & Hrun & Hp & Hrest).
      exists w', l. split; [exact Hrun|]. split; [done|].
      rewrite insert_insert_eq in Hp. split; [done|].
      destruct Hrest as (? & ? & ? & ? & ? & ?). repeat split; try done.
    + eexists _, l. split; [reflexivity|]. simpl.
      rewrite insert_insert_eq. repeat split; try done. by left.
  - destruct (Hfwd (<[l := FlightPlan msg]> (ew_plans w)) (fpm_CoordinationFix msg))
      as (w' & Hrun & Hp & Hrest).
    exists w', l. split; [exact Hrun|]. split; [done|].
    split; [done|].
    destruct Hrest as (? & ? & ? & ? & ? & ?). repeat split; try done.
Qed.

Lemma eram_plan_stored_witness :
  exists w' l,
    eram_Plan (H := sample) (sample_message Plan "UAL123" (octal [4;3;2;1]) "" "")
      (mkERAMWorld ∅ (small_eram ∅ [])) = Done w' /\
    ec_FlightPlans (ew_comp w') = {[ octal [4;3;2;1] := l ]}.
Proof.
  destruct (eram_plan_stored (H := sample)
              (sample_message Plan "UAL123" (octal [4;3;2;1]) "" "")
              (mkERAMWorld ∅ (small_eram ∅ [])))
    as (w' & l & Hrun & _ & _ & Htable & _).
  - unfold octal; simpl; lia.
  - exists w', l. split; [exact Hrun|]. rewrite Htable. reflexivity.
Defined.

(** ** Timed transmission: what a tick keeps *)

Lemma sfp_with_ContainedFacilities_id fp :
  sfp_with_ContainedFacilities (sfp_ContainedFacilities fp ++ [])%list fp = fp.
Proof. rewrite app_nil_r. by destruct fp. Qed.

Lemma plans_extended_refl h : plans_extended h h.
Proof.
  intros l fp Hl. exists []. by rewrite sfp_with_ContainedFacilities_id.
Qed.

Lemma plans_extended_trans h1 h2 h3 :
  plans_extended h1 h2 -> plans_extended h2 h3 -> plans_extended h1 h3.
Proof.
  intros H12 H23 l fp Hl.
  destruct (H12 l fp Hl) as (s1 & H2).
  destruct (H23 l _ H2) as (s2 & H3).
  exists (s1 ++ s2)%list. rewrite H3. simpl.
  unfold sfp_with_ContainedFacilities. simpl. by rewrite app_assoc.
Qed.

Lemma transmission_keeps_refl w : transmission_keeps w w.
Proof. unfold transmission_keeps. repeat split; auto using plans_extended_refl. Qed.

Lemma transmission_keeps_trans w1 w2 w3 :
  transmission_keeps w1 w2 -> transmission_keeps w2 w3 -> transmission_keeps w1 w3.
Proof.
  intros (Hp & Hf & Hs & Hq & Hi & Ha & Ht) (Hp' & Hf' & Hs' & Hq' & Hi' & Ha' & Ht').
  unfold transmission_keeps.
  rewrite Hf', Hs', Hq', Hi', Ha'. repeat split; try done.
  - by eapply plans_extended_trans.
  - auto.
Qed.

Lemma sendPlanIfReady_keeps `{Collaborators} tracon simTime l w :
  match sendPlanIfReady tracon simTime l w with
  | Done w' | Panicked w' => transmission_keeps w w'
  end.
Proof.
  unfold sendPlanIfReady.
  destruct (ew_plans w !! l) as [fp|] eqn:Hfp; [|apply transmission_keeps_refl].
  case_decide; [apply transmission_keeps_refl|].
  destruct (ea_CoordinationFixes _ !! _) as [coordFix|] eqn:Hcf;
    [|apply transmission_keeps_refl].
  destruct (Fix coordFix (sfp_Altitude fp)) as [adaptFix|err] eqn:Hfix;
    [|apply transmission_keeps_refl].
  destruct (negb _); [|apply transmission_keeps_refl].
  unfold SendFlightPlan. rewrite Hfp, Hcf, Hfix.
  set (msg := fpm_with_SourceID _ _).
  assert (Hcomp : forall comp',
    comp' = match ToSTARSFacility tracon msg (ew_comp w) with
            | (comp1, None) => comp1
            | (comp1, Some _) => (SendMessageToERAM (TRACON_ARTCC tracon) msg comp1).1
            end ->
    ec_FlightPlans comp' = ec_FlightPlans (ew_comp w) /\
    ec_AvailableSquawks comp' = ec_AvailableSquawks (ew_comp w) /\
    ec_ReceivedMessages comp' = ec_ReceivedMessages (ew_comp w) /\
    ec_Identifier comp' = ec_Identifier (ew_comp w) /\
    ec_Adaptation comp' = ec_Adaptation (ew_comp w) /\
    ec_TrackInformation comp' = ec_TrackInformation (ew_comp w)).
  { intros comp' ->. unfold ToSTARSFacility.
    destruct (ec_STARSComputers (ew_comp w) !! tracon); [done|].
    unfold SendMessageToERAM.
    by destruct (ec_ERAMInboxes (ew_comp w) !! TRACON_ARTCC tracon). }
  destruct (Hcomp _ eq_refl) as (Hf & Hs & Hq & Hi & Ha & Ht).
  unfold transmission_keeps. simpl. rewrite Hf, Hs, Hq, Hi, Ha, Ht.
  repeat split; try done.
  intros l' fp' Hl'. destruct (decide (l' = l)) as [->|Hne].
  - rewrite Hfp in Hl'. injection Hl' as <-.
    eexists. by rewrite lookup_insert_eq.
  - exists []. rewrite lookup_insert_ne by done.
    by rewrite sfp_with_ContainedFacilities_id.
Qed.

Lemma send_track_plans_keeps `{Collaborators} tracon simTime visit : forall w,
  match send_track_plans tracon simTime visit w with
  | Done w' | Panicked w' => transmission_keeps w w'
  end.
Proof.
  induction visit as [|key visit IH]; intros w; simpl;
    [apply transmission_keeps_refl|].
  destruct (ec_TrackInformation (ew_comp w) !! key) as [info|]; [|apply IH].
  destruct (ti_FlightPlan info) as [l|]; [|apply IH].
  destruct (ew_plans w !! l) as [fp|]; [|apply transmission_keeps_refl].
  case_decide.
  - set (w1 := mkERAMWorld _ _).
    assert (H1 : transmission_keeps w w1).
    { unfold transmission_keeps, w1. simpl.
      repeat split; auto using plans_extended_refl.
      intros k i Hk. apply lookup_delete_Some in Hk. tauto. }
    specialize (IH w1).
    destruct (send_track_plans tracon simTime visit w1);
      by eapply transmission_keeps_trans.
  - pose proof (sendPlanIfReady_keeps tracon simTime l w) as H1.
    destruct (sendPlanIfReady tracon simTime l w) as [w1|w1]; [|done].
    specialize (IH w1).
    destruct (send_track_plans tracon simTime visit w1);
      by eapply transmission_keeps_trans.
Qed.

Lemma send_table_plans_keeps `{Collaborators} tracon simTime visit : forall w,
  match send_table_plans tracon simTime visit w with
  | Done w' | Panicked w' => transmission_keeps w w'
  end.
Proof.
  induction visit as [|sq visit IH]; intros w; simpl;
    [apply transmission_keeps_refl|].
  destruct (ec_FlightPlans (ew_comp w) !! sq) as [l|]; [|apply IH].
  pose proof (sendPlanIfReady_keeps tracon simTime l w) as H1.
  destruct (sendPlanIfReady tracon simTime l w) as [w1|w1]; [|done].
  specialize (IH w1).
  destruct (send_table_plans tracon simTime visit w1);
    by eapply transmission_keeps_trans.
Qed.

(** X19: a tick of the timed transmission, whether it returns or panics,
    keeps every plan of the store but for destinations added at the end of
    its list of facilities already sent to; it leaves the plan table, the
    pool, the queue, the identifier and the adaptation of the computer as
    they were, and makes or changes no track (it may delete some). *)
Theorem timed_transmission_keeps `{Collaborators} (tracon : string) (simTime : Time)
    (visit_tracks : list string) (visit_plans : list Squawk) (w : ERAMWorld) :
  match SendFlightPlans tracon simTime visit_tracks visit_plans w with
  | Done w' | Panicked w' => transmission_keeps w w'
  end.
Proof.
  unfold SendFlightPlans.
  pose proof (send_track_plans_keeps tracon simTime visit_tracks w) as H1.
  destruct (send_track_plans tracon simTime visit_tracks w) as [w1|w1]; [|done].
  pose proof (send_table_plans_keeps tracon simTime visit_plans w1) as H2.
  destruct (send_table_plans tracon simTime visit_plans w1);
    by eapply transmission_keeps_trans.
Qed.

(** X20: a tick of the timed transmission at a time when every plan of the
    store is more than 30 minutes ahead delivers nothing and records
    nothing: the store, the queues of the STARS computers, the inboxes of
    the peers and the plan table are as they were. *)
Theorem timed_transmission_early `{Collaborators} (tracon : string) (simTime : Time)
    (visit_tracks : list string) (visit_plans : list Squawk) (w : ERAMWorld) :
  all_early simTime (ew_plans w) ->
  match SendFlightPlans tracon simTime visit_tracks visit_plans w with
  | Done w' | Panicked w' => only_tracks_differ w w'
  end.
Proof. apply SendFlightPlans_early. Qed.

Lemma timed_transmission_early_witness :
  match SendFlightPlans (H := sample) "N90" 0 ["UAL123"] [octal [4;3;2;1]]
          (sample_timed_world "MERIT") with
  | Done w' | Panicked w' => only_tracks_differ (sample_timed_world "MERIT") w'
  end.
Proof.
  apply (timed_transmission_early (H := sample) "N90" 0 ["UAL123"] [octal [4;3;2;1]]
           (sample_timed_world "MERIT")).
  intros l fp Hl. unfold sample_timed_world in Hl. simpl in Hl.
  apply lookup_singleton_Some in Hl as [_ <-]. vm_compute. reflexivity.
Defined.

(** ** ERAM computer: requests and forwarded transfers *)

(** X21: the [RequestFlightPlan] case of the ERAM sort.  A source
    identifier of less than three characters makes the sort panic.
    Otherwise the head of the queue of the computer is dropped, and the
    plan stored under the squawk of the request, if there is one, is sent as
    a departure message to the STARS computer named by the first three
    characters of the source identifier; a request for a squawk without plan
    or from a facility that is not a STARS computer of this ERAM computer is
    answered with nothing. *)
Theorem eram_request_flight_plan `{Collaborators} (simTime : Time)
    (msg : FlightPlanMessage) (w : ERAMWorld) :
  let comp := ew_comp w in
  let facility := substring 0 3 (fpm_SourceID msg) in
  ((String.length (fpm_SourceID msg) < 3)%nat ->
   eram_RequestFlightPlan simTime msg w = Panicked w) /\
  ((3 <= String.length (fpm_SourceID msg))%nat ->
   forall head rest plan,
     ec_ReceivedMessages comp = head :: rest ->
     ec_FlightPlans comp !! fpm_BCN msg ≫= (fun l => ew_plans w !! l) = plan ->
     (forall l, ec_FlightPlans comp !! fpm_BCN msg = Some l ->
                is_Some (ew_plans w !! l)) ->
     eram_RequestFlightPlan simTime msg w =
       Done (mkERAMWorld (ew_plans w)
               (ec_with_ReceivedMessages rest
                  (match plan, ec_STARSComputers comp !! facility with
                   | Some plan, Some stars =>
                       ec_with_STARSComputers
                         (<[facility :=
                              sc_with_ReceivedMessages
                                (sc_ReceivedMessages stars
                                 ++ [FlightPlanDepartureMessage (sfp_FlightPlan plan)
                                       (ec_Identifier comp) simTime])%list stars]>
                            (ec_STARSComputers comp)) comp
                   | _, _ => comp
                   end)))).
Proof.
  simpl. unfold eram_RequestFlightPlan. split.
  - intros Hlen. apply Nat.ltb_lt in Hlen. by rewrite Hlen.
  - intros Hlen head rest plan Hq Hplan Hstore.
    apply Nat.ltb_ge in Hlen. rewrite Hlen.
    destruct (ec_FlightPlans (ew_comp w) !! fpm_BCN msg) as [l|] eqn:Hl; simpl in Hplan.
    + destruct (Hstore l eq_refl) as [p Hp]. rewrite Hp in Hplan |- *. subst plan.
      unfold ToSTARSFacility.
      destruct (ec_STARSComputers (ew_comp w) !! _) as [stars|]; simpl;
        by rewrite Hq.
    + subst plan. by rewrite Hq.
Qed.

Lemma eram_request_flight_plan_witness :
  eram_RequestFlightPlan (H := sample) 0
    (sample_message RequestFlightPlan "" (octal [1;0;0;2]) "" "")
    (mkERAMWorld ∅
       (light_eram ∅ [sample_message RequestFlightPlan "" (octal [1;0;0;2]) "" ""] ∅))
  = Done (mkERAMWorld ∅ (light_eram ∅ [] ∅)).
Proof.
  apply (proj2 (eram_request_flight_plan (H := sample) 0
                  (sample_message RequestFlightPlan "" (octal [1;0;0;2]) "" "")
                  (mkERAMWorld ∅
                     (light_eram ∅
                        [sample_message RequestFlightPlan "" (octal [1;0;0;2]) "" ""]
                        ∅)))
           ltac:(simpl; lia)
           (sample_message RequestFlightPlan "" (octal [1;0;0;2]) "" "") [] None).
  - reflexivity.
  - reflexivity.
  - intros l Hl. discriminate Hl.
Defined.

Lemma eram_InitiateTransfer_fixes_other `{Collaborators} simTime visit : forall msg w info plan,
  fpm_CoordinationFix msg ∉ visit ->
  ec_TrackInformation (ew_comp w) !! fpm_Identifier msg = Some info ->
  ti_FlightPlan info ≫= (fun l => ew_plans w !! l) = Some plan ->
  eram_InitiateTransfer_fixes simTime visit msg w = Done w.
Proof.
  induction visit as [|name visit IH]; intros msg w info plan Hnin Hinfo Hplan;
    simpl; [done|].
  apply not_elem_of_cons in Hnin as [Hne Hnin].
  destruct (ea_CoordinationFixes (ec_Adaptation (ew_comp w)) !! name) as [fixes|];
    [|by eapply IH].
  rewrite Hinfo, Hplan.
  destruct (Fix fixes (sfp_Altitude plan)) as [afix|err]; [|by eapply IH].
  rewrite decide_False by congruence. by eapply IH.
Qed.

Lemma eram_InitiateTransfer_fixes_forward `{Collaborators} simTime visit :
  forall msg w info plan fixes afix,
    NoDup visit ->
    fpm_CoordinationFix msg ∈ visit ->
    ea_CoordinationFixes (ec_Adaptation (ew_comp w)) !! fpm_CoordinationFix msg
      = Some fixes ->
    ec_TrackInformation (ew_comp w) !! fpm_Identifier msg = Some info ->
    ti_FlightPlan info ≫= (fun l => ew_plans w !! l) = Some plan ->
    Fix fixes (sfp_Altitude plan) = inl afix ->
    af_ToFacility afix <> ec_Identifier (ew_comp w) ->
    eram_InitiateTransfer_fixes simTime visit msg w =
      Done (mkERAMWorld (ew_plans w)
              (forwarded (af_ToFacility afix)
                 (fpm_with_SourceID
                    (formatSourceID (ec_Identifier (ew_comp w)) simTime) msg)
                 (ew_comp w))).
Proof.
  induction visit as [|name visit IH];
    intros msg w info plan fixes afix Hnd Hin Hfix Hinfo Hread Hafix Hto;
    [by apply elem_of_nil in Hin|].
  apply NoDup_cons in Hnd as [Hnotin Hnd]. simpl.
  destruct (decide (name = fpm_CoordinationFix msg)) as [->|Hne].
  - rewrite Hfix, Hinfo, Hread, Hafix.
    rewrite ?decide_True by done.
    set (msg' := fpm_with_SourceID _ msg).
    set (w2 := mkERAMWorld _ _).
    assert (Ht2 : ec_TrackInformation (ew_comp w2) = ec_TrackInformation (ew_comp w)).
    { unfold w2. simpl. destruct (starts_with_Z (af_ToFacility afix)).
      - by destruct (SendMessageToERAM_fields (af_ToFacility afix) msg' (ew_comp w))
          as (_ & _ & -> & _).
      - by destruct (ToSTARSFacility_fields (af_ToFacility afix) msg' (ew_comp w))
          as (_ & _ & -> & _). }
    rewrite (eram_InitiateTransfer_fixes_other simTime visit msg' w2 info plan).
    + done.
    + exact Hnotin.
    + rewrite Ht2. exact Hinfo.
    + exact Hread.
  - apply elem_of_cons in Hin as [Heq|Hin]; [congruence|].
    destruct (ea_CoordinationFixes (ec_Adaptation (ew_comp w)) !! name)
      as [fixes'|]; [|by eapply IH].
    rewrite Hinfo, Hread.
    destruct (Fix fixes' (sfp_Altitude plan)) as [afix'|err]; [|by eapply IH].
    by eapply IH.
Qed.

(** X22: an [InitiateTransfer] message whose coordination fix resolves, at
    the altitude of the plan of its track, to a fix of another facility is
    forwarded once, with the source identifier of this computer: to the
    inbox of that facility if its name starts with Z, to the queue of the
    STARS computer of that name otherwise (to no one if that facility is not
    known).  This holds for every order in which the range meets the fixes
    of the adaptation, each once. *)
Theorem eram_initiate_transfer_forwarded `{Collaborators} (simTime : Time)
    (visit : list string) (msg : FlightPlanMessage) (w : ERAMWorld)
    (fixes : AdaptationFixes) (l : loc) (plan : STARSFlightPlan) (afix : AdaptationFix) :
  NoDup visit ->
  fpm_CoordinationFix msg ∈ visit ->
  ea_CoordinationFixes (ec_Adaptation (ew_comp w)) !! fpm_CoordinationFix msg
    = Some fixes ->
  transfer_plan msg w = Some l ->
  ew_plans w !! l = Some plan ->
  Fix fixes (sfp_Altitude plan) = inl afix ->
  af_ToFacility afix <> ec_Identifier (ew_comp w) ->
  eram_InitiateTransfer simTime visit msg w =
    Done (mkERAMWorld (ew_plans w)
            (forwarded (af_ToFacility afix)
               (fpm_with_SourceID (formatSourceID (ec_Identifier (ew_comp w)) simTime) msg)
               (eram_InitiateTransfer_track msg (ew_comp w)))).
Proof.
  intros Hnd Hin Hfix Htp Hplan Hafix Hto. unfold eram_InitiateTransfer.
  eapply (eram_InitiateTransfer_fixes_forward simTime visit msg
            (mkERAMWorld (ew_plans w) (eram_InitiateTransfer_track msg (ew_comp w))));
    try done.
  - simpl. apply lookup_insert_eq.
  - simpl. unfold transfer_plan in Htp.
    destruct (ec_TrackInformation (ew_comp w) !! fpm_Identifier msg);
      simpl; rewrite Htp; simpl; exact Hplan.
Qed.

Lemma eram_initiate_transfer_forwarded_witness :
  eram_InitiateTransfer (H := sample) 0 ["ROBUC"; "MERIT"] sample_transfer light_world
  = Done (mkERAMWorld (ew_plans light_world)
            (forwarded (H := sample) "N90"
               (fpm_with_SourceID (formatSourceID (H := sample) "ZNY" 0) sample_transfer)
               (eram_InitiateTransfer_track sample_transfer (ew_comp light_world)))).
Proof.
  apply (eram_initiate_transfer_forwarded (H := sample) 0 ["ROBUC"; "MERIT"]
           sample_transfer light_world
           [mkAdaptationFix "MERIT" "route" "N90" "ZNY" (0, 600)] 1%positive
           (sample_plan "UAL123" "MERIT" (octal [4;3;2;1]) Hour)
           (mkAdaptationFix "MERIT" "route" "N90" "ZNY" (0, 600))).
  - apply NoDup_cons. split.
    + by intros [[=] | []%elem_of_nil]%elem_of_cons.
    + apply NoDup_singleton.
  - right. by left.
  - reflexivity.
  - reflexivity.
  - reflexivity.
  - reflexivity.
  - discriminate.
Defined.


Lemma eram_InitiateTransfer_fixes_stay `{Collaborators} simTime visit :
  forall msg w info plan fixes afix,
    NoDup visit ->
    fpm_CoordinationFix msg ∈ visit ->
    ea_CoordinationFixes (ec_Adaptation (ew_comp w)) !! fpm_CoordinationFix msg
      = Some fixes ->
    ec_TrackInformation (ew_comp w) !! fpm_Identifier msg = Some info ->
    ti_FlightPlan info ≫= (fun l => ew_plans w !! l) = Some plan ->
    Fix fixes (sfp_Altitude plan) = inl afix ->
    af_ToFacility afix = ec_Identifier (ew_comp w) ->
    is_Some (ec_FlightPlans (ew_comp w) !! fpm_BCN msg ≫= (fun l => ew_plans w !! l)) ->
    eram_InitiateTransfer_fixes simTime visit msg w =
      Done (mkERAMWorld (ew_plans w)
              (ec_with_TrackInformation
                 (<[fpm_Identifier msg :=
                      track_of (fpm_TrackOwner msg) (fpm_HandoffController msg)
                        (ec_FlightPlans (ew_comp w) !! fpm_BCN msg)]>
                    (ec_TrackInformation (ew_comp w)))
                 (ew_comp w))).
Proof.
  induction visit as [|name visit IH];
    intros msg w info plan fixes afix Hnd Hin Hfix Hinfo Hread Hafix Hto [plan' Hstored];
    [by apply elem_of_nil in Hin|].
  apply NoDup_cons in Hnd as [Hnotin Hnd]. simpl.
  destruct (decide (name = fpm_CoordinationFix msg)) as [->|Hne].
  - rewrite Hfix, Hinfo, Hread, Hafix.
    rewrite decide_False by (intros Hn; by apply Hn).
    set (w2 := mkERAMWorld _ _).
    rewrite (eram_InitiateTransfer_fixes_other simTime visit msg w2
               (track_of (fpm_TrackOwner msg) (fpm_HandoffController msg)
                  (ec_FlightPlans (ew_comp w) !! fpm_BCN msg)) plan').
    + done.
    + exact Hnotin.
    + unfold w2. simpl. apply lookup_insert_eq.
    + exact Hstored.
  - apply elem_of_cons in Hin as [Heq|Hin]; [congruence|].
    destruct (ea_CoordinationFixes (ec_Adaptation (ew_comp w)) !! name)
      as [fixes'|]; [|by eapply IH; eauto].
    rewrite Hinfo, Hread.
    destruct (Fix fixes' (sfp_Altitude plan)) as [afix'|err]; by eapply IH; eauto.
Qed.

(** X23: an [InitiateTransfer] message whose coordination fix resolves, at
    the altitude of the plan of its track, to a fix of this very facility is
    not forwarded: the track is made anew with the owner and the handoff
    controller of the message and the plan stored under the squawk of the
    message, when there is such a plan.  This holds for every order in which
    the range meets the fixes of the adaptation, each once. *)
Theorem eram_initiate_transfer_kept `{Collaborators} (simTime : Time)
    (visit : list string) (msg : FlightPlanMessage) (w : ERAMWorld)
    (fixes : AdaptationFixes) (l : loc) (plan : STARSFlightPlan) (afix : AdaptationFix) :
  NoDup visit ->
  fpm_CoordinationFix msg ∈ visit ->
  ea_CoordinationFixes (ec_Adaptation (ew_comp w)) !! fpm_CoordinationFix msg
    = Some fixes ->
  transfer_plan msg w = Some l ->
  ew_plans w !! l = Some plan ->
  Fix fixes (sfp_Altitude plan) = inl afix ->
  af_ToFacility afix = ec_Identifier (ew_comp w) ->
  is_Some (ec_FlightPlans (ew_comp w) !! fpm_BCN msg ≫= (fun l => ew_plans w !! l)) ->
  eram_InitiateTransfer simTime visit msg w = Done (transfer_kept msg w).
Proof.
  intros Hnd Hin Hfix Htp Hplan Hafix Hto Hstored. unfold eram_InitiateTransfer.
  eapply (eram_InitiateTransfer_fixes_stay simTime visit msg
            (mkERAMWorld (ew_plans w) (eram_InitiateTransfer_track msg (ew_comp w))));
    try done.
  - simpl. apply lookup_insert_eq.
  - simpl. unfold transfer_plan in Htp.
    destruct (ec_TrackInformation (ew_comp w) !! fpm_Identifier msg);
      simpl; rewrite Htp; simpl; exact Hplan.
Qed.

Lemma eram_initiate_transfer_kept_witness :
  eram_InitiateTransfer (H := sample) 0 ["ROBUC"; "MERIT"] sample_transfer_here
    light_world
  = Done (transfer_kept sample_transfer_here light_world).
Proof.
  apply (eram_initiate_transfer_kept (H := sample) 0 ["ROBUC"; "MERIT"]
           sample_transfer_here light_world
           [mkAdaptationFix "ROBUC" "route" "ZNY" "ZBW" (0, 600)] 1%positive
           (sample_plan "UAL123" "MERIT" (octal [4;3;2;1]) Hour)
           (mkAdaptationFix "ROBUC" "route" "ZNY" "ZBW" (0, 600))).
  - apply NoDup_cons. split.
    + by intros [[=] | []%elem_of_nil]%elem_of_cons.
    + apply NoDup_singleton.
  - by left.
  - reflexivity.
  - reflexivity.
  - reflexivity.
  - reflexivity.
  - reflexivity.
  - by eexists.
Defined.

Lemma eram_InitiateTransfer_fixes_step_other `{Collaborators} simTime name visit msg w
    info plan :
  name <> fpm_CoordinationFix msg ->
  ec_TrackInformation (ew_comp w) !! fpm_Identifier msg = Some info ->
  ti_FlightPlan info ≫= (fun l => ew_plans w !! l) = Some plan ->
  eram_InitiateTransfer_fixes simTime (name :: visit) msg w
    = eram_InitiateTransfer_fixes simTime visit msg w.
Proof.
  intros Hne Hinfo Hread. simpl.
  destruct (ea_CoordinationFixes (ec_Adaptation (ew_comp w)) !! name) as [fixes|];
    [|done].
  rewrite Hinfo, Hread.
  destruct (Fix fixes (sfp_Altitude plan)); [|done].
  by rewrite decide_False.
Qed.

Lemma eram_InitiateTransfer_fixes_step_stay `{Collaborators} simTime visit msg w
    info plan fixes afix :
  ea_CoordinationFixes (ec_Adaptation (ew_comp w)) !! fpm_CoordinationFix msg
    = Some fixes ->
  ec_TrackInformation (ew_comp w) !! fpm_Identifier msg = Some info ->
  ti_FlightPlan info ≫= (fun l => ew_plans w !! l) = Some plan ->
  Fix fixes (sfp_Altitude plan) = inl afix ->
  af_ToFacility afix = ec_Identifier (ew_comp w) ->
  eram_InitiateTransfer_fixes simTime (fpm_CoordinationFix msg :: visit) msg w
    = eram_InitiateTransfer_fixes simTime visit msg
        (mkERAMWorld (ew_plans w)
           (ec_with_TrackInformation
              (<[fpm_Identifier msg :=
                   track_of (fpm_TrackOwner msg) (fpm_HandoffController msg)
                     (ec_FlightPlans (ew_comp w) !! fpm_BCN msg)]>
                 (ec_TrackInformation (ew_comp w)))
              (ew_comp w))).
Proof.
  intros Hfix Hinfo Hread Hafix Hto. simpl.
  rewrite Hfix, Hinfo, Hread, Hafix.
  rewrite decide_True by done.
  by rewrite decide_False by (intros Hn; by apply Hn).
Qed.

(** X24: whether the [InitiateTransfer] case returns or panics can depend
    on the order in which the range meets the fixes of the adaptation.  Take
    a message for a track that has a plan, under a squawk with no stored
    plan, whose coordination fix resolves to a fix of this very facility,
    and another fix of the adaptation.  If the other fix is met first, the
    case returns, with the track made anew without plan; if the fix of the
    message is met first, reading the other fix panics on that track. *)
Theorem eram_initiate_transfer_order `{Collaborators} (simTime : Time)
    (other : string) (msg : FlightPlanMessage) (w : ERAMWorld)
    (fixes : AdaptationFixes) (info : TrackInformation) (plan : STARSFlightPlan)
    (afix : AdaptationFix) :
  other <> fpm_CoordinationFix msg ->
  is_Some (ea_CoordinationFixes (ec_Adaptation (ew_comp w)) !! other) ->
  ea_CoordinationFixes (ec_Adaptation (ew_comp w)) !! fpm_CoordinationFix msg
    = Some fixes ->
  ec_TrackInformation (ew_comp w) !! fpm_Identifier msg = Some info ->
  ti_FlightPlan info ≫= (fun l => ew_plans w !! l) = Some plan ->
  ec_FlightPlans (ew_comp w) !! fpm_BCN msg = None ->
  Fix fixes (sfp_Altitude plan) = inl afix ->
  af_ToFacility afix = ec_Identifier (ew_comp w) ->
  eram_InitiateTransfer simTime [other; fpm_CoordinationFix msg] msg w
    = Done (transfer_kept msg w) /\
  eram_InitiateTransfer simTime [fpm_CoordinationFix msg; other] msg w
    = Panicked (transfer_kept msg w).
Proof.
  intros Hne [fixes' Hother] Hfix Hinfo Hread Hnone Hafix Hto.
  unfold eram_InitiateTransfer.
  set (w1 := mkERAMWorld (ew_plans w) (eram_InitiateTransfer_track msg (ew_comp w))).
  assert (Hinfo1 : ec_TrackInformation (ew_comp w1) !! fpm_Identifier msg
                   = Some (ti_with_HandoffController (fpm_HandoffController msg)
                             (ti_with_TrackOwner (fpm_TrackOwner msg) info))).
  { unfold w1. simpl. rewrite lookup_insert_eq. by rewrite Hinfo. }
  assert (Hstay : forall visit,
    eram_InitiateTransfer_fixes simTime (fpm_CoordinationFix msg :: visit) msg w1
    = eram_InitiateTransfer_fixes simTime visit msg (transfer_kept msg w)).
  { intros visit.
    by rewrite (eram_InitiateTransfer_fixes_step_stay simTime visit msg w1 _ plan
                  fixes afix Hfix Hinfo1 Hread Hafix Hto). }
  split.
  - rewrite (eram_InitiateTransfer_fixes_step_other simTime other _ msg w1 _ plan
               Hne Hinfo1 Hread).
    by rewrite Hstay.
  - rewrite Hstay.
    apply (eram_InitiateTransfer_fixes_no_plan simTime [other] msg (transfer_kept msg w)
             (track_of (fpm_TrackOwner msg) (fpm_HandoffController msg) None)).
    + unfold transfer_kept. simpl. rewrite lookup_insert_eq. by rewrite Hnone.
    + done.
    + exists other. split; [by left|]. unfold transfer_kept. simpl. by eexists.
Qed.

Lemma eram_initiate_transfer_order_witness :
  eram_InitiateTransfer (H := sample) 0 ["ROBUC"; "MERIT"] sample_transfer_here
    sample_tracked_world
  = Panicked (transfer_kept sample_transfer_here sample_tracked_world).
Proof.
  apply (eram_initiate_transfer_order (H := sample) 0 "MERIT" sample_transfer_here
           sample_tracked_world
           [mkAdaptationFix "ROBUC" "route" "ZNY" "ZBW" (0, 600)]
           (track_of "2W" "" (Some 1%positive))
           (sample_plan "UAL123" "MERIT" (octal [4;3;2;1]) Hour)
           (mkAdaptationFix "ROBUC" "route" "ZNY" "ZBW" (0, 600))).
  - discriminate.
  - by eexists.
  - reflexivity.
  - reflexivity.
  - reflexivity.
  - reflexivity.
  - reflexivity.
  - reflexivity.
Defined.

(** ** Abbreviated flight-plan parser: what no input gives *)

Lemma not_two_chars (field : string) (A : Type) (f : ascii -> ascii -> A) (d : A) :
  String.length field <> 2%nat ->
  match field with
  | String c0 (String c1 EmptyString) => f c0 c1
  | _ => d
  end = d.
Proof. destruct field as [|c0 [|c1 [|c2 s]]]; simpl; try done. Qed.

Lemma altitude_or_rules_unset `{Collaborators} field o :
  String.length field <> 2%nat ->
  unset_fields o -> unset_fields (field_output (altitude_or_rules field o)).
Proof.
  intros Hlen Ho. unfold altitude_or_rules.
  destruct (_ && _); [done|].
  by rewrite not_two_chars.
Qed.

Lemma aircraft_type_unset `{Collaborators} field o :
  unset_fields o -> unset_fields (field_output (aircraft_type field o)).
Proof.
  intros Ho. unfold aircraft_type.
  destruct (split_slash field) as [|f0 [|f1 [|f2 [|f3 l]]]]; try done.
  - by destruct (negb _).
  - destruct (IsAllNumbers f0).
    + destruct f1; [done|]. destruct (negb _); [done|]. by destruct (negb _).
    + destruct (_ || _); [done|]. by destruct (negb _).
  - destruct (_ || _); [done|]. destruct f1; [done|].
    destruct (negb _); [done|]. by destruct (negb _).
Qed.

Lemma scratchpad_unset `{Collaborators} test setSC field o rest :
  (forall v o', unset_fields o' -> unset_fields (setSC v o')) ->
  (forall o', unset_fields o' -> unset_fields (field_output (rest o'))) ->
  unset_fields o -> unset_fields (field_output (scratchpad test setSC field o rest)).
Proof.
  intros Hset Hrest Ho. unfold scratchpad.
  destruct test; [|by apply Hrest].
  destruct (slices_Contains _ _); [done|].
  destruct (_ <? _)%nat; [done|].
  apply Hrest, Hset. by destruct (IsAllNumbers _).
Qed.

Lemma type_of_flight_unset field o rest :
  String.length field <> 2%nat ->
  (forall o', unset_fields o' -> unset_fields (field_output (rest o'))) ->
  unset_fields o -> unset_fields (field_output (type_of_flight field o rest)).
Proof.
  intros Hlen Hrest Ho. unfold type_of_flight.
  destruct (_ <=? 2)%nat; [|by apply Hrest].
  destruct (String.length field =? 1)%nat.
  - pose proof Ho as (Hr & Hd & _).
    repeat case_decide; apply Hrest; try done;
      (split; [done|split; [done|]]); simpl;
      repeat (first [by left | right]).
  - apply Nat.eqb_neq in Hlen. rewrite Hlen. by apply Hrest.
Qed.

Lemma parse_field_unset `{Collaborators} fa o field :
  unset_fields o -> unset_fields (field_output (parse_field fa o field)).
Proof.
  intros Ho. unfold parse_field.
  destruct (ParseSquawk field); [done|].
  destruct (String.length field =? 2)%nat eqn:Hlen; [done|].
  apply Nat.eqb_neq in Hlen.
  apply type_of_flight_unset; [done| |done].
  intros o1 Ho1. apply scratchpad_unset; [done| |done].
  intros o2 Ho2. apply scratchpad_unset; [done| |done].
  intros o3 Ho3. destruct (4 <=? _)%nat.
  - by apply aircraft_type_unset.
  - by apply altitude_or_rules_unset.
Qed.

Lemma parse_fields_unset `{Collaborators} fa fields : forall o,
  unset_fields o -> unset_fields (parse_output (parse_fields fa o fields)).
Proof.
  induction fields as [|field fields IH]; intros o Ho; simpl; [done|].
  pose proof (parse_field_unset fa o field Ho) as Hf.
  destruct (parse_field fa o field); simpl in Hf; [by apply IH | done | done].
Qed.

(** X25: whatever the fields, the output of [ParseAbbreviatedFPFields] has
    no flight rules and no departure airport, and its type of flight is
    empty or one of "arrival", "departure" and "overflight": a field of two
    characters that is not a squawk is taken as the controlling position
    before the tests for a type of flight with airport and for flight rules
    are reached. *)
Theorem parser_unset_fields `{Collaborators} (fa : STARSFacilityAdaptation)
    (fields : list string) :
  unset_fields (parse_output (ParseAbbreviatedFPFields fa fields)).
Proof.
  assert (Hz : unset_fields zeroAbbreviatedFPFields).
  { split; [done|]. split; [done|]. by left. }
  unfold ParseAbbreviatedFPFields.
  destruct fields as [|acid rest]; [done|].
  destruct (_ && _); [|done].
  by apply parse_fields_unset.
Qed.

Lemma acid_kept_trans o1 o2 o3 : acid_kept o1 o2 -> acid_kept o2 o3 -> acid_kept o1 o3.
Proof. intros [H1 H2] [H3 H4]. split; [congruence | auto]. Qed.

Lemma scratchpad_acid `{Collaborators} test setSC field o rest :
  (forall v o', acid_kept o' (setSC v o')) ->
  (forall o', acid_kept o' (field_output (rest o'))) ->
  acid_kept o (field_output (scratchpad test setSC field o rest)).
Proof.
  intros Hset Hrest. unfold scratchpad.
  destruct test; [|by apply Hrest].
  destruct (slices_Contains _ _); [done|].
  destruct (_ <? _)%nat; [done|].
  eapply acid_kept_trans; [|apply Hrest].
  eapply acid_kept_trans; [|apply Hset].
  by destruct (IsAllNumbers _).
Qed.

Lemma aircraft_type_acid `{Collaborators} field o :
  acid_kept o (field_output (aircraft_type field o)).
Proof.
  unfold aircraft_type.
  destruct (split_slash field) as [|f0 [|f1 [|f2 [|f3 l]]]]; try done.
  - by destruct (negb _).
  - destruct (IsAllNumbers f0).
    + destruct f1; [done|]. destruct (negb _); [done|]. by destruct (negb _).
    + destruct (_ || _); [done|]. by destruct (negb _).
  - destruct (_ || _); [done|]. destruct f1; [done|].
    destruct (negb _); [done|]. by destruct (negb _).
Qed.

Lemma altitude_or_rules_acid `{Collaborators} field o :
  acid_kept o (field_output (altitude_or_rules field o)).
Proof.
  unfold altitude_or_rules.
  destruct (_ && _); [done|].
  destruct field as [|c0 [|c1 [|c2 s]]]; try done.
  destruct (negb _); [done|]. by repeat (destruct (bool_decide _); [done|]).
Qed.

Lemma type_of_flight_acid field o rest :
  (forall o', acid_kept o' (field_output (rest o'))) ->
  acid_kept o (field_output (type_of_flight field o rest)).
Proof.
  intros Hrest. unfold type_of_flight.
  destruct (_ <=? 2)%nat; [|by apply Hrest].
  destruct (String.length field =? 1)%nat.
  - repeat case_decide;
      (eapply acid_kept_trans; [|apply Hrest]); done.
  - destruct (_ =? 2)%nat; [|by apply Hrest].
    destruct (slices_Contains _ _); [done|by apply Hrest].
Qed.

Lemma parse_field_acid `{Collaborators} fa o field :
  acid_kept o (field_output (parse_field fa o field)).
Proof.
  unfold parse_field.
  destruct (ParseSquawk field); [done|].
  destruct (String.length field =? 2)%nat; [done|].
  apply type_of_flight_acid. intros o1.
  apply scratchpad_acid; [done|]. intros o2.
  apply scratchpad_acid; [done|]. intros o3.
  destruct (4 <=? _)%nat; [apply aircraft_type_acid | apply altitude_or_rules_acid].
Qed.

Lemma parse_fields_acid `{Collaborators} fa fields : forall o,
  acid_kept o (parse_output (parse_fields fa o fields)).
Proof.
  induction fields as [|field fields IH]; intros o; simpl; [done|].
  pose proof (parse_field_acid fa o field) as Hf.
  destruct (parse_field fa o field); simpl in Hf; [|done|done].
  eapply acid_kept_trans; [exact Hf | apply IH].
Qed.

(** X26: the first field decides the identifier.  If it is not of two to
    seven characters with a letter first, the parser returns at once with
    the illegal-identifier error and every other field of its output zero,
    whatever follows.  If it is, every run of the parser, to its end, to an
    early return or to a panic, has that field as aircraft identifier and
    does not report the illegal-identifier error.  Without any field the
    parser panics. *)
Theorem parser_identifier `{Collaborators} (fa : STARSFacilityAdaptation)
    (acid : string) (rest : list string) :
  ParseAbbreviatedFPFields fa [] = Panicked zeroAbbreviatedFPFields /\
  (legal_ACID acid = false ->
   ParseAbbreviatedFPFields fa (acid :: rest)
     = Done (ab_with_Error ErrIllegalACID zeroAbbreviatedFPFields)) /\
  (legal_ACID acid = true ->
   ab_ACID (parse_output (ParseAbbreviatedFPFields fa (acid :: rest))) = acid /\
   ab_Error (parse_output (ParseAbbreviatedFPFields fa (acid :: rest)))
     <> Some ErrIllegalACID).
Proof.
  split; [done|]. unfold ParseAbbreviatedFPFields, legal_ACID. split.
  - by intros ->.
  - intros ->.
    destruct (parse_fields_acid fa rest (ab_with_ACID acid zeroAbbreviatedFPFields))
      as [Hacid Herr].
    split; [done|]. intros Hbad. by apply Herr in Hbad.
Qed.

Lemma parser_identifier_witness :
  ParseAbbreviatedFPFields (H := sample) (mkSTARSFacilityAdaptation (false, false))
    ["1AB23"; "B738"]
  = Done (ab_with_Error ErrIllegalACID zeroAbbreviatedFPFields).
Proof.
  exact (proj1 (proj2 (parser_identifier (H := sample)
                         (mkSTARSFacilityAdaptation (false, false)) "1AB23" ["B738"]))
           eq_refl).
Defined.

Lemma badScratchpads_length field :
  slices_Contains badScratchpads field = true -> String.length field = 3%nat.
Proof.
  intros Hc. apply slices_Contains_elem_of in Hc.
  unfold badScratchpads in Hc.
  repeat (apply elem_of_cons in Hc as [-> | Hc]; [done|]).
  by apply elem_of_nil in Hc.
Qed.

(** X27: with long entries of scratchpad 1 allowed, a field of one
    character that is not a squawk makes the parser panic: the scratchpad
    test takes the field and slices its last three characters. *)
Theorem parser_short_field_panics `{Collaborators} (fa : STARSFacilityAdaptation)
    (acid field : string) (rest : list string) :
  legal_ACID acid = true ->
  String.length field = 1%nat ->
  ParseSquawk field = None ->
  fst (fa_AllowLongScratchpad fa) = true ->
  exists o, ParseAbbreviatedFPFields fa (acid :: field :: rest) = Panicked o.
Proof.
  intros Hacid Hlen Hsq Hlong.
  unfold ParseAbbreviatedFPFields. unfold legal_ACID in Hacid. rewrite Hacid.
  simpl.
  assert (Hbad : slices_Contains badScratchpads field = false).
  { destruct (slices_Contains badScratchpads field) eqn:Hbad; [|done].
    apply badScratchpads_length in Hbad. congruence. }
  assert (Htest : forall b,
            b || (1 <=? 6)%nat && (fa_AllowLongScratchpad fa).1 = true).
  { intros b. rewrite Hlong. apply orb_true_r. }
  assert (Hcrash : forall o, exists o', parse_field fa o field = Crash o').
  { intros o. unfold parse_field. rewrite Hsq, Hlen.
    change (1 =? 2)%nat with false. cbv iota.
    unfold type_of_flight. rewrite Hlen.
    change (1 <=? 2)%nat with true. change (1 =? 1)%nat with true. cbv iota.
    repeat case_decide; rewrite Htest; unfold scratchpad at 1;
      rewrite Hbad, Hlen; change (1 <? 3)%nat with true; cbv iota; eauto. }
  destruct (Hcrash (ab_with_ACID acid zeroAbbreviatedFPFields)) as [o' ->]. eauto.
Qed.

Lemma parser_short_field_panics_witness :
  exists o,
    ParseAbbreviatedFPFields (H := sample) (mkSTARSFacilityAdaptation (true, false))
      ["UAL123"; "A"; "B738"] = Panicked o.
Proof.
  exact (parser_short_field_panics (H := sample)
           (mkSTARSFacilityAdaptation (true, false)) "UAL123" "A" ["B738"]
           eq_refl eq_refl eq_refl eq_refl).
Defined.

(** ** Deleting an aircraft *)

Lemma delete_tracks_lookup h ac visit : forall tracks,
  tracks_readable h tracks ->
  exists tracks',
    delete_tracks h ac visit tracks = Done tracks' /\
    forall key,
      tracks' !! key =
        trk ← tracks !! key;
        if bool_decide (key ∈ visit) && track_of_aircraft h ac trk
        then None else Some trk.
Proof.
  induction visit as [|k visit IH]; intros tracks Hread.
  - exists tracks. split; [done|]. intros key.
    destruct (tracks !! key) as [trk|]; cbn [mbind option_bind]; [|done].
    rewrite bool_decide_eq_false_2; [done|]. apply not_elem_of_nil.
  - assert (Hkeep : forall tracks1 : gmap string TrackInformation,
              tracks1 = tracks ->
              (forall trk, tracks !! k = Some trk -> track_of_aircraft h ac trk = false) ->
              exists tracks',
                delete_tracks h ac visit tracks1 = Done tracks' /\
                forall key,
                  tracks' !! key =
                    trk ← tracks !! key;
                    if bool_decide (key ∈ k :: visit) && track_of_aircraft h ac trk
                    then None else Some trk).
    { intros tracks1 -> Hk. destruct (IH tracks Hread) as (tracks' & Hrun & Hl).
      exists tracks'. split; [done|]. intros key. rewrite Hl.
      destruct (tracks !! key) as [trk|] eqn:Hkey; cbn [mbind option_bind]; [|done].
      destruct (decide (key = k)) as [->|Hne].
      - rewrite (Hk trk Hkey). by rewrite !andb_false_r.
      - destruct (bool_decide (key ∈ visit)) eqn:Hin.
        + apply bool_decide_eq_true in Hin.
          rewrite bool_decide_eq_true_2; [done | by right].
        + apply bool_decide_eq_false in Hin.
          rewrite bool_decide_eq_false_2; [done|].
          by intros [?|?]%elem_of_cons. }
    assert (Hdrop : forall trk,
              tracks !! k = Some trk -> track_of_aircraft h ac trk = true ->
              exists tracks',
                delete_tracks h ac visit (delete k tracks) = Done tracks' /\
                forall key,
                  tracks' !! key =
                    trk ← tracks !! key;
                    if bool_decide (key ∈ k :: visit) && track_of_aircraft h ac trk
                    then None else Some trk).
    { intros trk Hk Hof.
      destruct (IH (delete k tracks)) as (tracks' & Hrun & Hl).
      { intros key trk' l [_ Hkey]%lookup_delete_Some. by eapply Hread. }
      exists tracks'. split; [done|]. intros key. rewrite Hl.
      destruct (decide (key = k)) as [->|Hne].
      - rewrite lookup_delete_eq, Hk. cbn [mbind option_bind]. rewrite Hof.
        rewrite bool_decide_eq_true_2; [done | by left].
      - rewrite lookup_delete_ne by done.
        destruct (tracks !! key) as [trk'|]; cbn [mbind option_bind]; [|done].
        destruct (bool_decide (key ∈ visit)) eqn:Hin.
        + apply bool_decide_eq_true in Hin.
          rewrite bool_decide_eq_true_2; [done | by right].
        + apply bool_decide_eq_false in Hin.
          rewrite bool_decide_eq_false_2; [done|].
          by intros [?|?]%elem_of_cons. }
    simpl. destruct (tracks !! k) as [trk|] eqn:Hk.
    + unfold track_of_aircraft in Hkeep, Hdrop.
      destruct (ti_FlightPlan trk) as [l|] eqn:Hfp.
      * destruct (Hread k trk l Hk Hfp) as [fp Hl]. rewrite Hl.
        destruct (decide (fp_Callsign (sfp_FlightPlan fp) = ac_Callsign ac)) as [Hc|Hc].
        -- apply (Hdrop trk eq_refl). rewrite Hfp. simpl. rewrite Hl.
           by rewrite bool_decide_eq_true_2.
        -- destruct (decide (fp_AssignedSquawk (sfp_FlightPlan fp) = ac_Squawk ac))
             as [Hs|Hs].
           ++ apply (Hdrop trk eq_refl). rewrite Hfp. simpl. rewrite Hl.
              rewrite (bool_decide_eq_true_2 _ Hs). apply orb_true_r.
           ++ apply Hkeep; [done|]. intros trk' [= <-]. rewrite Hfp. simpl.
              rewrite Hl. by rewrite !bool_decide_eq_false_2.
      * apply Hkeep; [done|]. intros trk' [= <-]. by rewrite Hfp.
    + apply Hkeep; [done|]. by intros trk' [=].
Qed.

Lemma delete_tracks_all h ac visit tracks :
  tracks_readable h tracks ->
  (forall key, is_Some (tracks !! key) -> key ∈ visit) ->
  delete_tracks h ac visit tracks = Done (without_aircraft h ac tracks).
Proof.
  intros Hread Hvisit.
  destruct (delete_tracks_lookup h ac visit _ Hread) as (tracks' & -> & Hl).
  f_equal. apply map_eq. intros key. unfold without_aircraft.
  rewrite Hl, lookup_omap.
  destruct (tracks !! key) as [trk|] eqn:Hkey; cbn [mbind option_bind]; [|done].
  rewrite bool_decide_eq_true_2; [done|]. apply Hvisit. by eexists.
Qed.

Lemma delete_in_stars_all h ac visit_tracks visit_stars :
  forall stars : gmap string STARSComputer,
    NoDup visit_stars ->
    (forall id comp, stars !! id = Some comp ->
       tracks_readable h (sc_TrackInformation comp) /\
       forall key, is_Some (sc_TrackInformation comp !! key) -> key ∈ visit_tracks id) ->
    exists stars',
      delete_in_stars h ac visit_stars visit_tracks stars = Done stars' /\
      forall id,
        stars' !! id =
          comp ← stars !! id;
          Some (if bool_decide (id ∈ visit_stars)
                then sc_with_TrackInformation
                       (without_aircraft h ac (sc_TrackInformation comp)) comp
                else comp).
Proof.
  induction visit_stars as [|id0 visit IH]; intros stars Hnd Hok.
  - exists stars. split; [done|]. intros id.
    destruct (stars !! id); cbn [mbind option_bind]; [|done].
    rewrite bool_decide_eq_false_2; [done|]. apply not_elem_of_nil.
  - apply NoDup_cons in Hnd as [Hnotin Hnd]. cbn [delete_in_stars].
    destruct (stars !! id0) as [comp0|] eqn:H0.
    + destruct (Hok id0 comp0 H0) as [Hr Hv].
      unfold STARS_CompletelyDeleteAircraft.
      rewrite (delete_tracks_all h ac _ _ Hr Hv).
      set (comp0' := sc_with_TrackInformation _ comp0).
      destruct (IH (<[id0 := comp0']> stars) Hnd) as (stars' & Hrun & Hl).
      { intros id comp Hid. destruct (decide (id = id0)) as [->|Hne].
        - rewrite lookup_insert_eq in Hid. injection Hid as <-.
          unfold comp0'. simpl. split.
          + intros key trk l Hk Hfp. unfold without_aircraft in Hk.
            rewrite lookup_omap in Hk.
            destruct (sc_TrackInformation comp0 !! key) as [trk0|] eqn:Hk0;
              cbn [mbind option_bind] in Hk; [|done].
            destruct (track_of_aircraft h ac trk0); [done|].
            injection Hk as <-. by eapply Hr.
          + intros key [trk Hk]. apply Hv. unfold without_aircraft in Hk.
            rewrite lookup_omap in Hk.
            destruct (sc_TrackInformation comp0 !! key); [by eexists|done].
        - rewrite lookup_insert_ne in Hid by done. by apply Hok. }
      exists stars'. split; [done|]. intros id. rewrite Hl.
      destruct (decide (id = id0)) as [->|Hne].
      * rewrite lookup_insert_eq, H0. cbn [mbind option_bind].
        rewrite (bool_decide_eq_false_2 _ Hnotin).
        rewrite bool_decide_eq_true_2; [done | by left].
      * rewrite lookup_insert_ne by done.
        destruct (stars !! id); cbn [mbind option_bind]; [|done].
        destruct (bool_decide (id ∈ visit)) eqn:Hin.
        -- apply bool_decide_eq_true in Hin.
           rewrite bool_decide_eq_true_2; [done | by right].
        -- apply bool_decide_eq_false in Hin.
           rewrite bool_decide_eq_false_2; [done|].
           by intros [?|?]%elem_of_cons.
    + destruct (IH stars Hnd Hok) as (stars' & Hrun & Hl).
      exists stars'. split; [done|]. intros id. rewrite Hl.
      destruct (stars !! id) eqn:Hid; cbn [mbind option_bind]; [|done].
      assert (id <> id0) by congruence.
      destruct (bool_decide (id ∈ visit)) eqn:Hin.
      * apply bool_decide_eq_true in Hin.
        rewrite bool_decide_eq_true_2; [done | by right].
      * apply bool_decide_eq_false in Hin.
        rewrite bool_decide_eq_false_2; [done|].
        by intros [?|?]%elem_of_cons.
Qed.

(** X28: [ERAMComputer.CompletelyDeleteAircraft], on a computer whose
    tracks and whose STARS computers' tracks have their plans in the store,
    and for ranges that meet every track and every STARS computer once,
    returns with exactly the tracks whose plan has neither the callsign nor
    the squawk of the aircraft, in the computer and in each of its STARS
    computers.  A track without plan stays, whatever its identifier, and
    the plan tables, the pool and the queues are as they were: the plans of
    the aircraft stay in the tables. *)
Theorem eram_delete_aircraft (h : store) (ac : Aircraft) (visit visit_stars : list string)
    (visit_tracks : string -> list string) (comp : ERAMComputer) :
  tracks_readable h (ec_TrackInformation comp) ->
  (forall key, is_Some (ec_TrackInformation comp !! key) -> key ∈ visit) ->
  meets_all visit_stars (ec_STARSComputers comp) ->
  (forall id stars, ec_STARSComputers comp !! id = Some stars ->
     tracks_readable h (sc_TrackInformation stars) /\
     forall key, is_Some (sc_TrackInformation stars !! key) -> key ∈ visit_tracks id) ->
  ERAM_CompletelyDeleteAircraft h ac visit visit_stars visit_tracks comp =
    Done (ec_with_STARSComputers
            ((fun stars =>
                sc_with_TrackInformation
                  (without_aircraft h ac (sc_TrackInformation stars)) stars)
               <$> ec_STARSComputers comp)
            (ec_with_TrackInformation
               (without_aircraft h ac (ec_TrackInformation comp)) comp)).
Proof.
  intros Hread Hvisit [Hnd Hall] Hstars. unfold ERAM_CompletelyDeleteAircraft.
  rewrite (delete_tracks_all h ac visit _ Hread Hvisit). simpl.
  destruct (delete_in_stars_all h ac visit_tracks visit_stars
              (ec_STARSComputers comp) Hnd Hstars) as (stars' & -> & Hl).
  do 2 f_equal. apply map_eq. intros id. rewrite Hl, lookup_fmap.
  destruct (ec_STARSComputers comp !! id) as [stars|] eqn:Hid;
    cbn [mbind option_bind fmap option_fmap option_map]; [|done].
  rewrite bool_decide_eq_true_2; [done|]. apply Hall. by eexists.
Qed.

Lemma eram_delete_aircraft_witness :
  ERAM_CompletelyDeleteAircraft (ew_plans sample_tracked_world)
    (mkAircraft "UAL123" 0) ["UAL123"] ["N90"] (fun _ => [])
    (ew_comp sample_tracked_world)
  = Done (ec_with_STARSComputers
            ((fun stars =>
                sc_with_TrackInformation
                  (without_aircraft (ew_plans sample_tracked_world)
                     (mkAircraft "UAL123" 0) (sc_TrackInformation stars)) stars)
               <$> ec_STARSComputers (ew_comp sample_tracked_world))
            (ec_with_TrackInformation
               (without_aircraft (ew_plans sample_tracked_world)
                  (mkAircraft "UAL123" 0)
                  (ec_TrackInformation (ew_comp sample_tracked_world)))
               (ew_comp sample_tracked_world))).
Proof.
  apply (eram_delete_aircraft (ew_plans sample_tracked_world) (mkAircraft "UAL123" 0)
           ["UAL123"] ["N90"] (fun _ => []) (ew_comp sample_tracked_world)).
  - intros key trk l Hk Hfp. unfold sample_tracked_world in Hk. simpl in Hk.
    apply lookup_singleton_Some in Hk as [_ <-]. injection Hfp as <-. by eexists.
  - intros key [trk Hk]. unfold sample_tracked_world in Hk. simpl in Hk.
    apply lookup_singleton_Some in Hk as [<- _]. by left.
  - split; [apply NoDup_singleton|].
    intros key [stars Hk]. unfold sample_tracked_world in Hk. simpl in Hk.
    apply lookup_singleton_Some in Hk as [<- _]. by left.
  - intros id stars Hk. unfold sample_tracked_world in Hk. simpl in Hk.
    apply lookup_singleton_Some in Hk as [_ <-]. split.
    + intros key trk l Hk. simpl in Hk. by rewrite lookup_empty in Hk.
    + intros key [trk Hk]. simpl in Hk. by rewrite lookup_empty in Hk.
Defined.

(** ** A request for a flight plan, from the request to the stored copy *)

(** X29: a STARS computer with an identifier of three characters and an
    empty queue asks its ERAM computer, whose queue is empty, for the plan
    of a squawk the ERAM computer has a plan for.  The next sort of the ERAM
    computer returns and leaves its queue empty, and the next sort of the
    STARS computer stores a copy of the plan as read back from the departure
    message, in a new cell, under the squawk assigned in the plan (which
    need not be the squawk asked for), when that squawk is not zero; the
    plan of the ERAM computer is as it was and no event is posted. *)
Theorem request_flight_plan_delivered `{Collaborators} (simTime1 simTime2 : Time)
    (visits : nat -> list string) (h : store) (comp : ERAMComputer)
    (id : string) (stars : STARSComputer) (bcn : Squawk) (l : loc)
    (plan : STARSFlightPlan) (events : EventStream) :
  ec_ReceivedMessages comp = [] ->
  ec_STARSComputers comp !! id = Some stars ->
  sc_Identifier stars = id ->
  String.length id = 3%nat ->
  sc_ReceivedMessages stars = [] ->
  ec_FlightPlans comp !! bcn = Some l ->
  h !! l = Some plan ->
  fp_AssignedSquawk (sfp_FlightPlan plan) <> 0 ->
  let reply :=
    FlightPlanDepartureMessage (sfp_FlightPlan plan) (ec_Identifier comp) simTime2 in
  exists w2 stars2,
    SortMessages simTime2 visits (mkERAMWorld h (request_from stars bcn simTime1 comp))
      = Done w2 /\
    ec_ReceivedMessages (ew_comp w2) = [] /\
    ew_plans w2 = h /\
    ec_STARSComputers (ew_comp w2) !! id = Some stars2 /\
    sc_ReceivedMessages stars2 = [reply] /\
    let w3 := SortReceivedMessages (mkSTARSWorld (ew_plans w2) stars2 events) in
    exists l',
      l' <> l /\
      sc_ContainedPlans (sw_comp w3) !! fp_AssignedSquawk (sfp_FlightPlan plan)
        = Some l' /\
      sw_plans w3 !! l' = Some (FlightPlan reply) /\
      sw_plans w3 !! l = Some plan /\
      sc_ReceivedMessages (sw_comp w3) = [zeroMessage] /\
      sw_events w3 = events.
Proof.
  intros Hq Hstars Hid Hlen Hsq Hplan Hl Hnz reply.
  set (stars2 := sc_with_ReceivedMessages [reply] stars).
  set (comp2 := ec_with_ReceivedMessages []
                  (ec_with_STARSComputers (<[id := stars2]> (ec_STARSComputers comp))
                     (request_from stars bcn simTime1 comp))).
  exists (mkERAMWorld h comp2), stars2.
  assert (Hsort :
    SortMessages simTime2 visits (mkERAMWorld h (request_from stars bcn simTime1 comp))
    = Done (mkERAMWorld h comp2)).
  { unfold SortMessages, request_from, STARS_RequestFlightPlan,
      SendToOverlyingERAMFacility. simpl. rewrite Hq. simpl.
    unfold eram_sort_message. simpl.
    unfold eram_RequestFlightPlan. simpl.
    unfold formatSourceID. rewrite Hid.
    assert (Hge : (String.length (id ++ Format1504Z simTime1) <? 3)%nat = false).
    { apply Nat.ltb_ge. rewrite length_string_app. lia. }
    rewrite Hge.
    assert (Hfac : substring 0 3 (id ++ Format1504Z simTime1) = id).
    { rewrite <- Hlen. apply substring_0_app. }
    rewrite Hfac, Hplan, Hl. unfold ToSTARSFacility. simpl. rewrite Hstars. simpl.
    rewrite Hsq. reflexivity. }
  split; [exact Hsort|].
  split; [done|]. split; [done|].
  split; [simpl; apply lookup_insert_eq|].
  split; [done|].
  unfold SortReceivedMessages. simpl.
  unfold stars_sort_message.
  rewrite decide_True by done.
  rewrite decide_True by exact Hnz.
  unfold stars_store_plan, new_plan. simpl.
  assert (Hfresh : h !! fresh (dom h) = None) by apply not_elem_of_dom, is_fresh.
  exists (fresh (dom h)).
  assert (fresh (dom h) <> l) by congruence.
  split; [done|]. split; [apply lookup_insert_eq|].
  split; [apply lookup_insert_eq|].
  split; [by rewrite lookup_insert_ne|]. done.
Qed.

Lemma request_flight_plan_delivered_witness :
  exists w2,
    SortMessages (H := sample) 0 (fun _ => [])
      (mkERAMWorld (ew_plans light_world)
         (request_from (H := sample) (MakeSTARSComputer "N90") (octal [4;3;2;1]) 0
            (ew_comp light_world)))
    = Done w2 /\
    ec_ReceivedMessages (ew_comp w2) = [].
Proof.
  destruct (request_flight_plan_delivered (H := sample) 0 0 (fun _ => [])
              (ew_plans light_world) (ew_comp light_world) "N90"
              (MakeSTARSComputer "N90") (octal [4;3;2;1]) 1%positive
              (sample_plan "UAL123" "MERIT" (octal [4;3;2;1]) Hour) [])
    as (w2 & stars2 & Hsort & Hq & _).
  - reflexivity.
  - reflexivity.
  - reflexivity.
  - reflexivity.
  - reflexivity.
  - reflexivity.
  - reflexivity.
  - discriminate.
  - exists w2. by split.
Defined.

(** ** The registry: scratchpads *)

Lemma GetFlightPlan_plans `{Collaborators} visit h comp1 comp2 identifier :
  sc_ContainedPlans comp1 = sc_ContainedPlans comp2 ->
  GetFlightPlan visit h comp1 identifier = GetFlightPlan visit h comp2 identifier.
Proof. intros Heq. unfold GetFlightPlan. by rewrite Heq. Qed.

(** X30: [SetScratchpad] and [SetSecondaryScratchpad].  For a facility that
    is neither an ARTCC with a computer nor a known TRACON they return
    [ErrUnknownFacility] and change nothing.  For an ARTCC with a computer
    they panic, and so they do for a TRACON when its STARS computer has no
    track for the callsign.  Otherwise they return no error, the track of
    the callsign has the new scratchpad 1 (or 2) and is otherwise as it was,
    every other track is as it was, and so is every answer of
    [GetSTARSFlightPlan]. *)
Theorem set_scratchpad_cases `{Collaborators} (TRACONs : gmap string string)
    (callsign facility scratchpad : string) (ec : gmap string ERAMComputer) :
  let run1 := SetScratchpad TRACONs callsign facility scratchpad ec in
  let run2 := SetSecondaryScratchpad TRACONs callsign facility scratchpad ec in
  (ec !! facility = None -> TRACONs !! facility = None ->
   run1 = Done (ec, Some ErrUnknownFacility) /\
   run2 = Done (ec, Some ErrUnknownFacility)) /\
  (is_Some (ec !! facility) -> run1 = Panicked (ec, None) /\ run2 = Panicked (ec, None)) /\
  (forall artcc eram stars,
     ec !! facility = None -> TRACONs !! facility = Some artcc ->
     ec !! artcc = Some eram -> ec_STARSComputers eram !! facility = Some stars ->
     match sc_TrackInformation stars !! callsign with
     | None => run1 = Panicked (ec, None) /\ run2 = Panicked (ec, None)
     | Some trk =>
         exists ec1 ec2,
           run1 = Done (ec1, None) /\ run2 = Done (ec2, None) /\
           stars_track ec1 artcc facility callsign = Some (ti_with_SP1 scratchpad trk) /\
           stars_track ec2 artcc facility callsign = Some (ti_with_SP2 scratchpad trk) /\
           (forall a f c, (a, f, c) <> (artcc, facility, callsign) ->
              stars_track ec1 a f c = stars_track ec a f c /\
              stars_track ec2 a f c = stars_track ec a f c) /\
           (forall visit h tracon identifier,
              GetSTARSFlightPlan TRACONs visit h ec1 tracon identifier
                = GetSTARSFlightPlan TRACONs visit h ec tracon identifier /\
              GetSTARSFlightPlan TRACONs visit h ec2 tracon identifier
                = GetSTARSFlightPlan TRACONs visit h ec tracon identifier)
     end).
Proof.
  simpl. unfold SetScratchpad, SetSecondaryScratchpad, set_scratchpad.
  split; [|split].
  - intros Hec Htr. unfold FacilityComputers. by rewrite Hec, Htr.
  - intros [comp Hec]. unfold FacilityComputers. by rewrite Hec.
  - intros artcc eram stars Hec Htr Heram Hstars.
    assert (Hfc : FacilityComputers TRACONs ec facility = Computers_of artcc (Some facility)).
    { unfold FacilityComputers. by rewrite Hec, Htr, Heram, Hstars. }
    rewrite Hfc, Heram, Hstars.
    destruct (sc_TrackInformation stars !! callsign) as [trk|] eqn:Htrk; [|done].
    assert (Hgen : forall set : string -> TrackInformation -> TrackInformation,
      let ec' :=
        <[artcc :=
            ec_with_STARSComputers
              (<[facility :=
                   sc_with_TrackInformation
                     (<[callsign := set scratchpad trk]> (sc_TrackInformation stars))
                     stars]> (ec_STARSComputers eram)) eram]> ec in
      stars_track ec' artcc facility callsign = Some (set scratchpad trk) /\
      (forall a f c, (a, f, c) <> (artcc, facility, callsign) ->
         stars_track ec' a f c = stars_track ec a f c) /\
      (forall visit h tracon identifier,
         GetSTARSFlightPlan TRACONs visit h ec' tracon identifier
           = GetSTARSFlightPlan TRACONs visit h ec tracon identifier)).
    { intros set ec'. split; [|split].
      - unfold stars_track, ec'. rewrite lookup_insert_eq. simpl.
        rewrite lookup_insert_eq. simpl. apply lookup_insert_eq.
      - intros a f c Hne. unfold stars_track, ec'.
        destruct (decide (a = artcc)) as [->|Ha];
          [|by rewrite lookup_insert_ne].
        rewrite lookup_insert_eq, Heram. simpl.
        destruct (decide (f = facility)) as [->|Hf];
          [|by rewrite lookup_insert_ne].
        rewrite lookup_insert_eq, Hstars. simpl.
        rewrite lookup_insert_ne; [done|]. congruence.
      - intros visit h tracon identifier.
        assert (Hlook : forall a,
          ec' !! a = (fun comp =>
                        if decide (a = artcc)
                        then ec_with_STARSComputers
                               (<[facility :=
                                    sc_with_TrackInformation
                                      (<[callsign := set scratchpad trk]>
                                         (sc_TrackInformation stars)) stars]>
                                  (ec_STARSComputers eram)) eram
                        else comp) <$> ec !! a).
        { intros a. unfold ec'. destruct (decide (a = artcc)) as [->|Ha].
          - by rewrite lookup_insert_eq, Heram.
          - rewrite lookup_insert_ne by done. by destruct (ec !! a). }
        assert (Hsame : FacilityComputers TRACONs ec' tracon
                        = FacilityComputers TRACONs ec tracon).
        { unfold FacilityComputers. rewrite (Hlook tracon).
          destruct (ec !! tracon); [done|]. simpl.
          destruct (TRACONs !! tracon) as [a|]; [|done].
          rewrite (Hlook a). destruct (ec !! a) as [comp|] eqn:Ha; [|done]. simpl.
          destruct (decide (a = artcc)) as [->|Hne]; [|done]. simpl.
          assert (comp = eram) as -> by congruence.
          destruct (decide (tracon = facility)) as [->|Hf].
          - by rewrite lookup_insert_eq, Hstars.
          - by rewrite lookup_insert_ne. }
        unfold GetSTARSFlightPlan. rewrite Hsame.
        destruct (FacilityComputers TRACONs ec tracon) as [a [f|]| |]; try done.
        rewrite (Hlook a). destruct (ec !! a) as [comp|] eqn:Ha; [|done]. simpl.
        destruct (decide (a = artcc)) as [->|Hne]; [|done]. simpl.
        assert (comp = eram) as -> by congruence.
        destruct (decide (f = facility)) as [->|Hf].
        + rewrite lookup_insert_eq, Hstars. by apply GetFlightPlan_plans.
        + by rewrite lookup_insert_ne. }
    destruct (Hgen ti_with_SP1) as (H1 & H1o & H1g).
    destruct (Hgen ti_with_SP2) as (H2 & H2o & H2g).
    eexists _, _. split; [reflexivity|]. split; [reflexivity|].
    split; [exact H1|]. split; [exact H2|]. split.
    + intros a f c Hne. split; [by apply H1o | by apply H2o].
    + intros visit h tracon identifier. split; [apply H1g | apply H2g].
Qed.

Lemma set_scratchpad_cases_witness :
  SetScratchpad {[ "N90" := "ZNY" ]} "UAL123" "A90" "RW4" sample_registry
    = Done (sample_registry, Some ErrUnknownFacility) /\
  SetScratchpad {[ "N90" := "ZNY" ]} "UAL123" "ZNY" "RW4" sample_registry
    = Panicked (sample_registry, None) /\
  exists ec1,
    SetScratchpad {[ "N90" := "ZNY" ]} "UAL123" "N90" "RW4" sample_registry
      = Done (ec1, None) /\
    stars_track ec1 "ZNY" "N90" "UAL123"
      = Some (ti_with_SP1 "RW4" (track_of "2W" "" None)).
Proof.
  split; [|split].
  - apply (set_scratchpad_cases (H := sample) {[ "N90" := "ZNY" ]} "UAL123" "A90" "RW4"
             sample_registry); reflexivity.
  - apply (set_scratchpad_cases (H := sample) {[ "N90" := "ZNY" ]} "UAL123" "ZNY" "RW4"
             sample_registry). by eexists.
  - destruct (set_scratchpad_cases (H := sample) {[ "N90" := "ZNY" ]} "UAL123" "N90" "RW4"
                sample_registry) as (_ & _ & Hok).
    specialize (Hok "ZNY" (ec_with_STARSComputers
         {[ "N90" := mkSTARSComputer "N90" ∅ [] {[ "UAL123" := track_of "2W" "" None ]} ]}
         (light_eram ∅ [] ∅))
       (mkSTARSComputer "N90" ∅ [] {[ "UAL123" := track_of "2W" "" None ]})
       eq_refl eq_refl eq_refl eq_refl).
    destruct Hok as (ec1 & ec2 & Hrun & _ & Htrk & _).
    exists ec1. by split.
Defined.
